(** * Orchestration of training and evaluation: [main.py]

    A shallow embedding of the experiment driver ([load_datasets],
    [build_model], [reload], [main] and the start-up script) together with
    the properties its specification states about them.

    The driver is glue code: it reads a YAML configuration (a tree of Python
    dictionaries), touches the file system, and calls collaborators that live
    in other modules ([model.HAN], [train.train_model], the torch optimisers,
    ...).  The embedding keeps three things explicit:

    - Python values are dynamically typed, so every subscript, membership test
      and truth test is modelled with the run-time error it can raise;
    - the functions run in a state-and-exception monad over a [world] that
      holds the shared configuration object, the files on disk, the objects
      created by [pickle.load], and the trace of calls made so far;
    - collaborators whose code is elsewhere are taken as a record of functions
      ([Collab]), so that every theorem holds whatever they compute. *)

From Stdlib Require Import QArith.
From stdpp Require Import base strings list gmap.

#[local] Set Warnings "-register-all,-clear-no-such-hyp".
#[local] Open Scope string_scope.
#[local] Open Scope Z_scope.
#[local] Open Scope list_scope.

(** ** Python values *)

Module Py.

(** What [yaml.load] can produce.  A dictionary keeps its insertion order,
    which is what [log(config)] prints, hence the association list. *)
Inductive value :=
| VNone
| VBool (b : bool)
| VInt (z : Z)
| VFloat (q : Q)
| VStr (s : string)
| VList (l : list value)
| VDict (d : list (string * value)).

Abbreviation dict := (list (string * value)).

Inductive exn :=
| KeyError (k : string)
| TypeError
| FileNotFoundError (path : string)
| IsADirectoryError (path : string)
| FileExistsError (path : string)
| UnpicklingError (path : string)
| EOFError
| Raised (what : string).       (* raised inside a collaborator *)

Inductive result (A : Type) :=
| Ok (a : A)
| Err (e : exn).
Arguments Ok {A} a.
Arguments Err {A} e.

(** [d[k]] on an association list: the first binding of [k]. *)
Fixpoint assoc_get {A} (k : string) (d : list (string * A)) : option A :=
  match d with
  | [] => None
  | (k', v) :: d' => if String.eqb k k' then Some v else assoc_get k d'
  end.

(** [d[k] = v]: overwrite in place, or append a new binding at the end. *)
Fixpoint assoc_set {A} (k : string) (v : A) (d : list (string * A))
  : list (string * A) :=
  match d with
  | [] => [(k, v)]
  | (k', v') :: d' =>
      if String.eqb k k' then (k, v) :: d' else (k', v') :: assoc_set k v d'
  end.

Definition assoc_mem {A} (k : string) (d : list (string * A)) : bool :=
  match assoc_get k d with Some _ => true | None => false end.

(** [bool(v)] *)
Definition truthy (v : value) : bool :=
  match v with
  | VNone => false
  | VBool b => b
  | VInt z => negb (z =? 0)
  | VFloat q => negb (Qeq_bool q 0)
  | VStr s => negb (String.eqb s "")
  | VList l => match l with [] => false | _ => true end
  | VDict d => match d with [] => false | _ => true end
  end.

(** [a and b]: the first operand when it is falsy, else the second. *)
Definition py_and (a b : value) : value := if truthy a then b else a.

(** [a == b] *)
Fixpoint py_eq (a b : value) {struct a} : bool :=
  match a, b with
  | VNone, VNone => true
  | VBool x, VBool y => Bool.eqb x y
  | VBool x, VInt y => Z.b2z x =? y
  | VInt x, VBool y => x =? Z.b2z y
  | VInt x, VInt y => x =? y
  | VBool x, VFloat y => Qeq_bool (inject_Z (Z.b2z x)) y
  | VFloat x, VBool y => Qeq_bool x (inject_Z (Z.b2z y))
  | VInt x, VFloat y => Qeq_bool (inject_Z x) y
  | VFloat x, VInt y => Qeq_bool x (inject_Z y)
  | VFloat x, VFloat y => Qeq_bool x y
  | VStr x, VStr y => String.eqb x y
  | VList xs, VList ys =>
      (fix go (xs ys : list value) : bool :=
         match xs, ys with
         | [], [] => true
         | x :: xs', y :: ys' => py_eq x y && go xs' ys'
         | _, _ => false
         end) xs ys
  | VDict d1, VDict d2 =>
      (length d1 =? length d2)%nat &&
      (fix go (d : list (string * value)) : bool :=
         match d with
         | [] => true
         | (k, v) :: d' =>
             match assoc_get k d2 with
             | Some v2 => py_eq v v2
             | None => false
             end && go d'
         end) d1
  | _, _ => false
  end.

(** [needle in hay] for strings *)
Fixpoint substring_of (needle hay : string) : bool :=
  String.prefix needle hay ||
  match hay with
  | EmptyString => false
  | String _ hay' => substring_of needle hay'
  end.

(** [v[k]] with a string key *)
Definition subscript (v : value) (k : string) : result value :=
  match v with
  | VDict d =>
      match assoc_get k d with Some x => Ok x | None => Err (KeyError k) end
  | _ => Err TypeError
  end.

(** [k in v] with a string [k] *)
Definition py_in (k : string) (v : value) : result bool :=
  match v with
  | VDict d => Ok (assoc_mem k d)
  | VStr s => Ok (substring_of k s)
  | VList l => Ok (existsb (py_eq (VStr k)) l)
  | _ => Err TypeError
  end.

(** [v[k] = x] with a string key *)
Definition setitem (v : value) (k : string) (x : value) : result value :=
  match v with
  | VDict d => Ok (VDict (assoc_set k x d))
  | _ => Err TypeError
  end.

(** [v[p1]...[pn][k] = x] seen from the root object [v]: the subscripts are
    evaluated left to right, then the item is stored. *)
Fixpoint setitem_at (path : list string) (k : string) (x : value) (v : value)
  : result value :=
  match path with
  | [] => setitem v k x
  | p :: path' =>
      match subscript v p with
      | Err e => Err e
      | Ok sub =>
          match setitem_at path' k x sub with
          | Err e => Err e
          | Ok sub' => setitem v p sub'
          end
      end
  end.

(** [v[p1]...[pn]] *)
Fixpoint subscript_at (path : list string) (v : value) : result value :=
  match path with
  | [] => Ok v
  | p :: path' =>
      match subscript v p with
      | Err e => Err e
      | Ok sub => subscript_at path' sub
      end
  end.

(** Keyword-argument unpacking of [v] in a call: [v] must be a mapping. *)
Definition kwargs (v : value) : result dict :=
  match v with VDict d => Ok d | _ => Err TypeError end.

(** [os.path.join(a, b)] on POSIX, for two components. *)
Definition join (a b : value) : result string :=
  match a, b with
  | VStr a, VStr b =>
      if String.prefix "/" b then Ok b
      else if String.eqb a "" || String.eqb (String.substring (String.length a - 1)%nat 1 a) "/"
           then Ok (a ++ b)%string
           else Ok (a ++ "/" ++ b)%string
  | _, _ => Err TypeError
  end.

End Py.
Export Py.

(** ** The objects the driver handles *)

(** A tensor of reals, by rows; the driver only moves tensors around. *)
Definition tensor : Type := list (list Q).
Definition state_dict : Type := list (string * tensor).

(** Address of an object created by [pickle.load]. *)
Definition loc : Type := nat.

(** Modelled from the spec: the vocabulary class is unpickled from an
    artifact and is not part of the sources; it is "an ordered mapping from
    token to integer index, plus a parallel dense matrix of pretrained
    vectors", and its length is its number of tokens. *)
Record Vocab := { itos : list string; vectors : tensor }.
Definition vocab_len (v : Vocab) : Z := Z.of_nat (length (itos v)).

(** One example of a phase: (review, summary, label). *)
Definition sample : Type := list Z * list Z * Z.

(** What [reload] reads from a checkpoint: the five entries that the
    training loop saves. *)
Record Checkpoint := {
  ck_epoch : Z;
  ck_fscore : Q;
  ck_model_version : value;
  ck_state_dict : state_dict;
  ck_optimizer : value
}.

(** What is found at a path.  A configuration file is a document without
    anchors, so that its sections are separate objects.  A checkpoint file
    holds all five entries; a file of [torch.save] that lacks one of them
    is not among the files considered. *)
Inductive file :=
| FDir
| FYaml (config : value)
| FPickle (vocab : Vocab)
| FJson (samples : list sample)
| FCheckpoint (ck : Checkpoint)
| FText (content : string).

Record Model := {
  m_version : value;          (* model.__version__() *)
  m_weights : state_dict;
  m_on_gpu : bool
}.

Inductive lookup := review_lookup | summary_lookup.

Inductive opt_class := SGD | RMSprop | Adam.

Record Optimizer := {
  o_class : opt_class;
  o_kwargs : dict;
  o_state : value
}.

Record Dataset := {
  ds_data : string;
  ds_review_vocab : loc;
  ds_summary_vocab : loc;
  ds_samples : list sample
}.

Definition Sampler : Type := list Q.

(** The integers that fit the 64 bits of an element of a
    [torch.LongTensor]. *)
Definition int64 (z : Z) : bool := (- 2 ^ 63 <=? z) && negb (2 ^ 63 <=? z).

(** lines 39-43.  Reviews and summaries stay lists; the labels go into a
    [torch.LongTensor], whose constructor raises when one of them does not
    fit 64 bits. *)
Definition collate_fn (batch : list sample)
  : result (list (list Z) * list (list Z) * list Z) :=
  let reviews := map (fun sample => fst (fst sample)) batch in
  let summaries := map (fun sample => snd (fst sample)) batch in
  let labels := map (fun sample => snd sample) batch in
  if forallb int64 labels then Ok (reviews, summaries, labels)
  else Err (Raised "RuntimeError").

(** The arguments a [DataLoader] is built with. *)
Record DataLoader := {
  dl_dataset : Dataset;
  dl_batch_size : value;
  dl_shuffle : bool;
  dl_sampler : option Sampler;        (* [None] is Python's None *)
  dl_collate_fn :
    list sample -> result (list (list Z) * list (list Z) * list Z)
}.

(** The arguments [ReduceLROnPlateau] is built with (lines 133-134). *)
Record Scheduler := {
  sch_optimizer : Optimizer;
  sch_mode : string;
  sch_patience : value;
  sch_factor : value;
  sch_threshold : Q;
  sch_threshold_mode : string;
  sch_verbose : bool
}.

Inductive criterion := CrossEntropyLoss.

(** The arguments of the call to [train_model] (lines 137-139). *)
Record TrainArgs := {
  ta_model : Model;
  ta_dataloaders : list (string * DataLoader);
  ta_criterion : criterion;
  ta_optimizer : Optimizer;
  ta_scheduler : Scheduler;
  ta_save_dir : value;
  ta_num_epochs : value;
  ta_use_gpu : value;
  ta_best_fscore : Q;
  ta_start_epoch : Z;
  ta_logfile : option string
}.

(** The arguments of the call to [test_model] (line 144). *)
Record TestArgs := {
  te_model : Model;
  te_dataloader : DataLoader;
  te_outputfile : value;
  te_use_gpu : value;
  te_logfile : option string
}.

(** The command line (lines 18-21). *)
Record Args := {
  arg_config : string;
  arg_testfile : option string;
  arg_outputfile : option string
}.

(** ** Observable actions *)

Inductive logmsg :=
| LStr (s : string)
| LFormat (template : string) (args : list value)
| LObj (v : value)
| LSizes (sizes : list (string * Z))
| LModel (m : Model)
| LOptimizer (o : Optimizer)
| LScheduler (s : Scheduler).

Inductive event :=
| EvYamlLoad (path : string)
| EvManualSeed (seed : value)
| EvCudaManualSeed (seed : value)
| EvMakedirs (path : string)
| EvLog (msg : logmsg) (logfile : option string)
| EvPickleLoad (path : string)
| EvReviewsDataset (data : string) (review_vocab summary_vocab : loc)
| EvGetSampler (data : string) (weights : option value)
| EvHAN (params : dict)
| EvCopy (table : lookup) (vocab : loc)
| EvCuda
| EvOptimizer (c : opt_class) (params : dict)
| EvTorchLoad (path : string)
| EvLoadStateDict
| EvOptimizerLoadStateDict
| EvScheduler
| EvTrainModel (a : TrainArgs)
| EvTestModel (a : TestArgs).

(** ** The world and the monad

    There is one configuration object in a run: [yaml.load] makes it and
    every function receives a reference to it, so it lives in the world and a
    store into it is seen by all.  It is a tree: YAML anchors, which would
    make two sections one object, are not modelled. *)

Record world := {
  w_config : value;               (* the configuration object, shared by reference *)
  w_fs : gmap string file;        (* files on disk, by path *)
  w_heap : list Vocab;            (* objects made by [pickle.load], by address *)
  w_trace : list event            (* calls made so far, oldest first *)
}.

Definition with_config (c : value) (w : world) : world :=
  {| w_config := c; w_fs := w_fs w; w_heap := w_heap w; w_trace := w_trace w |}.
Definition with_fs (fs : gmap string file) (w : world) : world :=
  {| w_config := w_config w; w_fs := fs; w_heap := w_heap w; w_trace := w_trace w |}.
Definition with_heap (h : list Vocab) (w : world) : world :=
  {| w_config := w_config w; w_fs := w_fs w; w_heap := h; w_trace := w_trace w |}.
Definition with_trace (t : list event) (w : world) : world :=
  {| w_config := w_config w; w_fs := w_fs w; w_heap := w_heap w; w_trace := t |}.

(** A computation returns a value or raises, and leaves a world either way. *)
Definition M (A : Type) : Type := world -> result A * world.

Definition ret {A} (a : A) : M A := fun w => (Ok a, w).
Definition raise {A} (e : exn) : M A := fun w => (Err e, w).
Definition bind {A B} (m : M A) (k : A -> M B) : M B :=
  fun w =>
    match m w with
    | (Ok a, w') => k a w'
    | (Err e, w') => (Err e, w')
    end.
Definition lift {A} (r : result A) : M A := fun w => (r, w).

Declare Scope py_scope.
Delimit Scope py_scope with py.
Notation "x <- m ;; k" := (bind m (fun x => k))
  (at level 100, m at next level, right associativity) : py_scope.
Notation "'let*' p ':=' m 'in' k" := (bind m (fun p => k))
  (at level 100, p pattern, m at next level, right associativity) : py_scope.
Notation "m ;; k" := (bind m (fun _ => k))
  (at level 100, right associativity) : py_scope.
#[local] Open Scope py_scope.

Definition emit (e : event) : M unit :=
  fun w => (Ok tt, with_trace (w_trace w ++ [e]) w).

Definition get_config : M value := fun w => (Ok (w_config w), w).
Definition get_fs : M (gmap string file) := fun w => (Ok (w_fs w), w).
Definition put_fs (fs : gmap string file) : M unit :=
  fun w => (Ok tt, with_fs fs w).

(** [config[k]] on the configuration object *)
Definition config_item (k : string) : M value :=
  c <- get_config ;; lift (subscript c k).

(** [config[p1]...[pn]] on the configuration object *)
Definition config_at (path : list string) : M value :=
  c <- get_config ;; lift (subscript_at path c).

(** [config[p1]...[pn][k] = x]: the store is seen through every reference to
    the configuration, the caller's included. *)
Definition config_store (path : list string) (k : string) (x : value) : M unit :=
  fun w =>
    match setitem_at path k x (w_config w) with
    | Ok c' => (Ok tt, with_config c' w)
    | Err e => (Err e, w)
    end.

(** [utils.log(msg, logfile)] *)
Definition log (msg : logmsg) (logfile : option string) : M unit :=
  emit (EvLog msg logfile).

(** [open(path, 'rb')] followed by reading the file *)
Definition open_file (path : string) : M file :=
  fs <- get_fs ;;
  match fs !! path with
  | None => raise (FileNotFoundError path)
  | Some FDir => raise (IsADirectoryError path)
  | Some f => ret f
  end.

(** What an unpickler raises on a file that holds no object of the kind it
    reads: an empty file ends before the first one. *)
Definition unpickling_error (path : string) (f : file) : exn :=
  match f with
  | FText "" => EOFError
  | _ => UnpicklingError path
  end.

(** [pickle.load(open(path, 'rb'))]: every load makes a new object. *)
Definition pickle_load (path : string) : M loc :=
  emit (EvPickleLoad path) ;;
  f <- open_file path ;;
  match f with
  | FPickle v => fun w => (Ok (length (w_heap w)), with_heap (w_heap w ++ [v]) w)
  | _ => raise (unpickling_error path f)
  end.

(** Attribute access on a vocabulary object.  The addresses handed out by
    [pickle_load] are always valid; any other address has no counterpart in
    Python. *)
Definition deref (l : loc) : M Vocab :=
  fun w =>
    match w_heap w !! l with
    | Some v => (Ok v, w)
    | None => (Err (Raised "dangling reference"), w)
    end.

(** [os.path.exists(path)] *)
Definition exists_ (path : string) : M bool :=
  fs <- get_fs ;; ret (bool_decide (is_Some (fs !! path))).

(** [torch.load(path)] *)
Definition torch_load (path : string) : M Checkpoint :=
  emit (EvTorchLoad path) ;;
  f <- open_file path ;;
  match f with
  | FCheckpoint ck => ret ck
  | _ => raise (unpickling_error path f)
  end.

(** [yaml.load(open(path))]: the result becomes the configuration object. *)
Definition yaml_load (path : string) : M unit :=
  emit (EvYamlLoad path) ;;
  f <- open_file path ;;
  match f with
  | FYaml c => fun w => (Ok tt, with_config c w)
  | _ => raise (Raised "yaml.YAMLError")
  end.

(** [os.makedirs(path, exist_ok=True)] *)
Definition makedirs (path : value) : M unit :=
  match path with
  | VStr p =>
      emit (EvMakedirs p) ;;
      fs <- get_fs ;;
      match fs !! p with
      | None => put_fs (<[p := FDir]> fs)
      | Some FDir => ret tt
      | Some _ => raise (FileExistsError p)
      end
  | _ => raise TypeError
  end.

(** Modelled from the spec: [dataset.ReviewsDataset] is not part of the
    sources; it "wraps a phase's raw data file into an indexable collection
    of (review, summary, label) triples, given the loaded vocabularies", and
    a missing or unreadable file is fatal. *)
Definition ReviewsDataset (data : string) (review_vocab summary_vocab : loc)
  : M Dataset :=
  emit (EvReviewsDataset data review_vocab summary_vocab) ;;
  f <- open_file data ;;
  match f with
  | FJson samples =>
      ret {| ds_data := data; ds_review_vocab := review_vocab;
             ds_summary_vocab := summary_vocab; ds_samples := samples |}
  | _ => raise (Raised "json.JSONDecodeError")
  end.

(** [d[k]] on a dictionary built by the driver itself *)
Definition getitem {A} (d : list (string * A)) (k : string) : M A :=
  match assoc_get k d with
  | Some a => ret a
  | None => raise (KeyError k)
  end.

(** [{x: f(x) for x in keys}] *)
Fixpoint dict_comp_from {A} (acc : list (string * A)) (keys : list string)
    (f : string -> M A) : M (list (string * A)) :=
  match keys with
  | [] => ret acc
  | x :: keys' => a <- f x ;; dict_comp_from (assoc_set x a acc) keys' f
  end.
Definition dict_comp {A} (keys : list string) (f : string -> M A)
  : M (list (string * A)) :=
  dict_comp_from [] keys f.

(** ** Collaborators

    Code of other modules and of torch, called by the driver.  Each may
    raise. *)
Record Collab := {
  (* torch.cuda.is_available() on this machine *)
  cuda_is_available : bool;
  (* model.HAN, called with keyword arguments *)
  HAN : dict -> result Model;
  (* model.<table>.weight.data.copy_(vectors) *)
  copy_ : lookup -> Model -> tensor -> result Model;
  (* model.cuda(), given whether an accelerator is available *)
  cuda : bool -> Model -> result Model;
  (* model.load_state_dict(state) *)
  load_state_dict : Model -> state_dict -> result Model;
  (* optim.SGD / optim.RMSprop / optim.Adam on the trainable parameters *)
  new_optimizer : opt_class -> Model -> dict -> result Optimizer;
  (* optimizer.load_state_dict(state) *)
  optimizer_load_state_dict : Optimizer -> value -> result Optimizer;
  (* dataset.get_sampler() and dataset.get_sampler(np.array(weights)) *)
  get_sampler : Dataset -> option value -> result Sampler;
  (* torch.manual_seed and torch.cuda.manual_seed *)
  manual_seed : value -> result unit;
  cuda_manual_seed : value -> result unit;
  (* train.train_model: returns the model, may write checkpoints *)
  train_model : TrainArgs -> gmap string file -> result Model * gmap string file;
  (* train.test_model: writes the predictions *)
  test_model : TestArgs -> gmap string file -> result unit * gmap string file
}.

(** ** The driver *)

Section Driver.

Variable X : Collab.

(** *** Calls to collaborators: the call is recorded, then it returns or
    raises. *)

Definition call_HAN (params : dict) : M Model :=
  emit (EvHAN params) ;; lift (HAN X params).

Definition call_copy (table : lookup) (model : Model) (vocab : loc) : M Model :=
  v <- deref vocab ;;
  emit (EvCopy table vocab) ;;
  lift (copy_ X table model (vectors v)).

Definition call_cuda (model : Model) : M Model :=
  emit EvCuda ;;
  lift (cuda X (cuda_is_available X) model).

Definition call_load_state_dict (model : Model) (state : state_dict) : M Model :=
  emit EvLoadStateDict ;; lift (load_state_dict X model state).

Definition call_optimizer_load_state_dict (o : Optimizer) (state : value)
  : M Optimizer :=
  emit EvOptimizerLoadStateDict ;; lift (optimizer_load_state_dict X o state).

Definition call_optimizer (c : opt_class) (model : Model) (params : value)
  : M Optimizer :=
  kw <- lift (kwargs params) ;;
  emit (EvOptimizer c kw) ;;
  lift (new_optimizer X c model kw).

Definition call_get_sampler (ds : Dataset) (weights : option value) : M Sampler :=
  emit (EvGetSampler (ds_data ds) weights) ;; lift (get_sampler X ds weights).

Definition call_manual_seed (seed : value) : M unit :=
  emit (EvManualSeed seed) ;; lift (manual_seed X seed).

Definition call_cuda_manual_seed (seed : value) : M unit :=
  emit (EvCudaManualSeed seed) ;; lift (cuda_manual_seed X seed).

Definition call_train_model (a : TrainArgs) : M Model :=
  emit (EvTrainModel a) ;;
  fs <- get_fs ;;
  let (r, fs') := train_model X a fs in
  put_fs fs' ;; lift r.

Definition call_test_model (a : TestArgs) : M unit :=
  emit (EvTestModel a) ;;
  fs <- get_fs ;;
  let (r, fs') := test_model X a fs in
  put_fs fs' ;; lift r.

(** *** [load_datasets] (lines 24-58) *)

Definition load_datasets (phases : list string) (logfile : option string)
  : M (list (string * DataLoader) * loc * loc) :=
  config <- config_item "data" ;;                                   (* 25 *)
  log (LStr "Loading vocabularies...") logfile ;;                   (* 26 *)
  dir <- lift (subscript config "dir") ;;                           (* 28 *)
  name <- lift (subscript config "review_vocab") ;;
  path <- lift (join dir name) ;;
  review_vocab <- pickle_load path ;;
  a <- lift (subscript config "review_vocab") ;;                    (* 29 *)
  b <- lift (subscript config "summary_vocab") ;;
  summary_vocab <-
    (if negb (py_eq a b) then
       dir <- lift (subscript config "dir") ;;                      (* 30 *)
       name <- lift (subscript config "summary_vocab") ;;
       path <- lift (join dir name) ;;
       pickle_load path
     else
       ret review_vocab) ;;                                         (* 32 *)
  log (LStr "Loading preprocessed datasets...") logfile ;;          (* 34 *)
  datafiles <-
    dict_comp phases (fun x =>                                      (* 35 *)
      cx <- lift (subscript config x) ;;
      lift (subscript cx "jsonfile")) ;;
  datasets <-
    dict_comp phases (fun x =>                                      (* 36-37 *)
      dir <- lift (subscript config "dir") ;;
      file <- getitem datafiles x ;;
      path <- lift (join dir file) ;;
      ReviewsDataset path review_vocab summary_vocab) ;;
  has_weights <- lift (py_in "weights" config) ;;                   (* 45 *)
  no_weights <-
    (if negb has_weights then ret true
     else w <- lift (subscript config "weights") ;; ret (negb (truthy w))) ;;
  dataloaders <-
    (if no_weights then
       dict_comp phases (fun x =>                                   (* 46 *)
         ds <- getitem datasets x ;;
         cx <- lift (subscript config x) ;;
         batch_size <- lift (subscript cx "batch_size") ;;
         ret {| dl_dataset := ds; dl_batch_size := batch_size;
                dl_shuffle := if String.eqb x "train" then true else false;
                dl_sampler := None; dl_collate_fn := collate_fn |})
     else
       w <- lift (subscript config "weights") ;;                    (* 48 *)
       samplers <-
         (if py_eq w (VStr "weighted") then
            dict_comp phases (fun x =>                              (* 49 *)
              if String.eqb x "train" then
                ds <- getitem datasets x ;;
                s <- call_get_sampler ds None ;;
                ret (Some s)
              else ret None)
          else
            dict_comp phases (fun x =>                              (* 51 *)
              if String.eqb x "train" then
                ds <- getitem datasets x ;;
                w <- lift (subscript config "weights") ;;
                s <- call_get_sampler ds (Some w) ;;
                ret (Some s)
              else ret None)) ;;
       dict_comp phases (fun x =>                                   (* 52 *)
         ds <- getitem datasets x ;;
         cx <- lift (subscript config x) ;;
         batch_size <- lift (subscript cx "batch_size") ;;
         sampler <- getitem samplers x ;;
         ret {| dl_dataset := ds; dl_batch_size := batch_size;
                dl_shuffle := false;
                dl_sampler := sampler; dl_collate_fn := collate_fn |})) ;;
  dataset_sizes <-
    dict_comp phases (fun x =>                                      (* 54 *)
      ds <- getitem datasets x ;;
      ret (Z.of_nat (length (ds_samples ds)))) ;;
  log (LSizes dataset_sizes) logfile ;;                             (* 55 *)
  rv <- deref review_vocab ;;                                       (* 56 *)
  log (LFormat "review vocab size: {}"
         [VInt (Z.of_nat (length (itos rv)))]) logfile ;;
  sv <- deref summary_vocab ;;                                      (* 57 *)
  log (LFormat "summary vocab size: {}"
         [VInt (Z.of_nat (length (itos sv)))]) logfile ;;
  ret (dataloaders, review_vocab, summary_vocab).                   (* 58 *)

(** *** [build_model] (lines 61-78) *)

Definition build_model (review_vocab summary_vocab : loc)
    (logfile : option string) : M Model :=
  use_gpu <- config_item "use_gpu" ;;                               (* 62 *)
  rv <- deref review_vocab ;;                                       (* 64 *)
  config_store ["model"; "params"] "review_vocab_size" (VInt (vocab_len rv)) ;;
  sv <- deref summary_vocab ;;                                      (* 65 *)
  config_store ["model"; "params"] "summary_vocab_size" (VInt (vocab_len sv)) ;;
  config_store ["model"; "params"] "use_gpu" use_gpu ;;             (* 66 *)
  params <- config_at ["model"; "params"] ;;                        (* 67-68 *)
  kw <- lift (kwargs params) ;;
  model <- call_HAN kw ;;
  log (LModel model) logfile ;;                                     (* 69 *)
  model <- call_copy review_lookup model review_vocab ;;            (* 71 *)
  params <- config_at ["model"; "params"] ;;                        (* 72 *)
  present <- lift (py_in "combined_lookup" params) ;;
  (if negb present then
     config_store ["model"; "params"] "combined_lookup" (VBool false)  (* 73 *)
   else ret tt) ;;
  use_summary <- config_at ["model"; "params"; "use_summary"] ;;    (* 74 *)
  wants_copy <-
    (if truthy use_summary then
       combined <- config_at ["model"; "params"; "combined_lookup"] ;;
       ret (negb (truthy combined))
     else ret false) ;;
  model <-
    (if wants_copy then call_copy summary_lookup model summary_vocab  (* 75 *)
     else ret model) ;;
  model <-
    (if truthy use_gpu then call_cuda model                         (* 76-77 *)
     else ret model) ;;
  ret model.                                                        (* 78 *)

(** *** [reload] (lines 81-101) *)

Definition reload (model : Model) (optimizer : option Optimizer)
    (logfile : option string) : M (Model * option Optimizer * Q * Z) :=
  save_dir <- config_item "save_dir" ;;                             (* 82 *)
  config <- config_item "model" ;;                                  (* 83 *)
  let best_fscore := 0%Q in                                         (* 84 *)
  let start_epoch := 0 in                                           (* 85 *)
  has_reload <- lift (py_in "reload" config) ;;                     (* 86 *)
  if has_reload then
    name <- lift (subscript config "reload") ;;                     (* 87 *)
    reload_path <- lift (join save_dir name) ;;
    found <- exists_ reload_path ;;                                 (* 88 *)
    if found then
      log (LFormat "=> loading checkpoint/model found at '{0}'"
             [VStr reload_path]) logfile ;;                         (* 89 *)
      checkpoint <- torch_load reload_path ;;                       (* 90 *)
      (if negb (py_eq (m_version model) (ck_model_version checkpoint)) then
         log (LFormat "Model version mismatch: current version={}, checkpoint version={}"
                [m_version model; ck_model_version checkpoint]) None  (* 92-93 *)
       else ret tt) ;;
      let start_epoch := ck_epoch checkpoint in                     (* 94 *)
      let best_fscore := ck_fscore checkpoint in                    (* 95 *)
      model <- call_load_state_dict model (ck_state_dict checkpoint) ;;  (* 96 *)
      optimizer <-
        match optimizer with                                        (* 97 *)
        | Some o =>
            o' <- call_optimizer_load_state_dict o (ck_optimizer checkpoint) ;;
            ret (Some o')
        | None => ret None
        end ;;
      ret (model, optimizer, best_fscore, start_epoch)              (* 101 *)
    else
      log (LFormat "no checkpoint/model found at '{0}'"
             [VStr reload_path]) logfile ;;                         (* 100 *)
      ret (model, optimizer, best_fscore, start_epoch)              (* 101 *)
  else
    ret (model, optimizer, best_fscore, start_epoch).               (* 101 *)

(** *** [main] (lines 104-146) *)

(** lines 118-126 *)
Definition select_optimizer (model : Model) : M Optimizer :=
  cls <- config_at ["optim"; "class"] ;;                            (* 118 *)
  if py_eq cls (VStr "sgd") then
    params <- config_at ["optim"; "params"] ;;
    call_optimizer SGD model params
  else
    cls <- config_at ["optim"; "class"] ;;                          (* 121 *)
    if py_eq cls (VStr "rmsprop") then
      params <- config_at ["optim"; "params"] ;;
      call_optimizer RMSprop model params
    else
      params <- config_at ["optim"; "params"] ;;                    (* 125 *)
      call_optimizer Adam model params.

Definition main : M unit :=
  save_dir <- config_item "save_dir" ;;                             (* 105 *)
  logfile <- lift (join save_dir (VStr "log")) ;;
  let logfile := Some logfile in
  config <- get_config ;;                                           (* 106 *)
  log (LObj config) logfile ;;
  mode <- config_item "mode" ;;                                     (* 107 *)
  let phases := if py_eq mode (VStr "test") then ["test"]
                else ["train"; "val"] in                            (* 108-110 *)
  let* (dataloaders, review_vocab, summary_vocab) :=
    load_datasets phases logfile in                                 (* 111 *)
  model <- build_model review_vocab summary_vocab logfile ;;        (* 114 *)
  mode <- config_item "mode" ;;                                     (* 116 *)
  if py_eq mode (VStr "train") then
    optimizer <- select_optimizer model ;;                          (* 118-126 *)
    let* (model, optimizer, best_fscore, start_epoch) :=
      reload model (Some optimizer) logfile in                      (* 128 *)
    (* [reload] hands back the optimizer it was given *)
    optimizer <- match optimizer with
                 | Some o => ret o
                 | None => raise TypeError
                 end ;;
    log (LOptimizer optimizer) logfile ;;                           (* 129 *)
    let criterion := CrossEntropyLoss in                            (* 130 *)
    patience <- config_at ["optim"; "scheduler"; "patience"] ;;     (* 131 *)
    factor <- config_at ["optim"; "scheduler"; "factor"] ;;         (* 132 *)
    emit EvScheduler ;;                                             (* 133-134 *)
    let scheduler :=
      {| sch_optimizer := optimizer; sch_mode := "min";
         sch_patience := patience; sch_factor := factor;
         sch_threshold := (5 # 100)%Q; sch_threshold_mode := "rel";
         sch_verbose := true |} in
    log (LScheduler scheduler) logfile ;;                           (* 135 *)
    log (LStr "Begin Training...") logfile ;;                       (* 136 *)
    save_dir <- config_item "save_dir" ;;                           (* 137 *)
    n_epochs <- config_at ["training"; "n_epochs"] ;;               (* 138 *)
    use_gpu <- config_item "use_gpu" ;;
    model <- call_train_model
      {| ta_model := model; ta_dataloaders := dataloaders;
         ta_criterion := criterion; ta_optimizer := optimizer;
         ta_scheduler := scheduler; ta_save_dir := save_dir;
         ta_num_epochs := n_epochs; ta_use_gpu := use_gpu;
         ta_best_fscore := best_fscore; ta_start_epoch := start_epoch;
         ta_logfile := logfile |} ;;
    ret tt
  else
    mode <- config_item "mode" ;;                                   (* 140 *)
    if py_eq mode (VStr "test") then
      let* (model, _, _, _) := reload model None logfile in         (* 142 *)
      jsonfile <- config_at ["data"; "test"; "jsonfile"] ;;         (* 143 *)
      log (LFormat "Testing on {}..." [jsonfile]) None ;;
      dl <- getitem dataloaders "test" ;;                           (* 144 *)
      outputfile <- config_item "outputfile" ;;
      use_gpu <- config_item "use_gpu" ;;
      call_test_model
        {| te_model := model; te_dataloader := dl;
           te_outputfile := outputfile; te_use_gpu := use_gpu;
           te_logfile := logfile |}
    else
      mode <- config_item "mode" ;;                                 (* 146 *)
      log (LFormat "Invalid config mode %s !!" [mode]) logfile.

(** *** The script (lines 149-165) *)

Definition script (args : Args) : M unit :=
  yaml_load (arg_config args) ;;                                    (* 153 *)
  use_gpu <- config_item "use_gpu" ;;                               (* 154 *)
  let available := VBool (cuda_is_available X) in
  config_store [] "use_gpu" (py_and use_gpu available) ;;
  seed <- config_item "seed" ;;                                     (* 156 *)
  call_manual_seed seed ;;
  seed <- config_item "seed" ;;                                     (* 157 *)
  call_cuda_manual_seed seed ;;
  (match arg_testfile args with                                     (* 158 *)
   | Some testfile =>
       if negb (String.eqb testfile "") then
         config_store ["data"; "test"] "jsonfile" (VStr testfile) ;;  (* 159 *)
         config_store [] "outputfile"
           (match arg_outputfile args with
            | Some o => VStr o
            | None => VNone
            end) ;;                                                 (* 160 *)
         config_store ["data"] "dir" (VStr "") ;;                   (* 161 *)
         config_store [] "save_dir" (VStr "")                       (* 162 *)
       else
         save_dir <- config_item "save_dir" ;;                      (* 164 *)
         makedirs save_dir
   | None =>
       save_dir <- config_item "save_dir" ;;                        (* 164 *)
       makedirs save_dir
   end) ;;
  main.                                                             (* 165 *)

End Driver.

(** ** Statements about runs *)

(** [w'] continues [w]: the trace grew, by events that all satisfy [S]. *)
Definition extends (S : event -> Prop) (w w' : world) : Prop :=
  exists new, w_trace w' = w_trace w ++ new /\ Forall S new.

(** A computation maintains the property [I] of the configuration object,
    emits only events in [S], and returns values in [Q]. *)
Definition maintains {A} (I : value -> Prop) (S : event -> Prop) (m : M A)
    (Q : A -> Prop) : Prop :=
  forall w, I (w_config w) ->
    I (w_config (snd (m w))) /\ extends S w (snd (m w)) /\
    forall a, fst (m w) = Ok a -> Q a.

(** A property of the configuration that does not look at key [k]. *)
Definition ignores (k : string) (I : value -> Prop) : Prop :=
  forall c c', I c -> (forall q, q <> k -> subscript c' q = subscript c q) -> I c'.

Definition is_pickle_load (e : event) : bool :=
  match e with EvPickleLoad _ => true | _ => false end.

(** Number of [pickle.load] calls in a trace. *)
Definition pickle_loads (t : list event) : nat :=
  length (List.filter is_pickle_load t).

Definition is_copy (e : event) : Prop :=
  match e with EvCopy _ _ => True | _ => False end.

(** Events of [load_datasets] and [build_model]; neither logs the
    configuration object. *)
Definition loads_or_builds (e : event) : Prop :=
  match e with
  | EvLog (LObj _) _ => False
  | EvLog _ _ | EvPickleLoad _ | EvReviewsDataset _ _ _ | EvGetSampler _ _
  | EvHAN _ | EvCopy _ _ | EvCuda => True
  | _ => False
  end.

(** Events of [load_datasets] alone. *)
Definition loads (e : event) : Prop :=
  match e with
  | EvLog (LObj _) _ => False
  | EvLog _ _ | EvPickleLoad _ | EvReviewsDataset _ _ _ | EvGetSampler _ _ => True
  | _ => False
  end.

(** Events of a run that builds no optimizer, reloads no checkpoint, and
    neither trains nor tests. *)
Definition stops_before_training (e : event) : Prop :=
  match e with
  | EvOptimizer _ _ | EvTorchLoad _ | EvLoadStateDict
  | EvOptimizerLoadStateDict | EvScheduler | EvTrainModel _ | EvTestModel _ =>
      False
  | _ => True
  end.

(** Events that show the [use_gpu] flag show [flag], and the model is moved
    to the accelerator only if [flag] is truthy. *)
Definition sees_flag (flag : value) (e : event) : Prop :=
  match e with
  | EvLog (LObj config) _ => subscript config "use_gpu" = Ok flag
  | EvTrainModel a => ta_use_gpu a = flag
  | EvTestModel a => te_use_gpu a = flag
  | EvCuda => truthy flag = true
  | _ => True
  end.

(** Every optimizer built is Adam. *)
Definition only_adam (e : event) : Prop :=
  match e with
  | EvOptimizer c _ => c = Adam
  | _ => True
  end.

(** Modelled on the specification's words for an invalid [mode]: the run
    loads no vocabulary or dataset and constructs no model. *)
Definition rejects_before_loading (X : Collab) (w : world) : Prop :=
  forall e, e ∈ w_trace (snd (main X w)) ->
    match e with
    | EvPickleLoad _ | EvReviewsDataset _ _ _ | EvHAN _ => False
    | _ => True
    end.

(** Modelled on the specification's words for [build_model]: "the
    configuration is not left unchanged". *)
Definition leaves_config_changed (X : Collab) (rv sv : loc)
    (logfile : option string) (w : world) : Prop :=
  forall model w',
    build_model X rv sv logfile w = (Ok model, w') -> w_config w' <> w_config w.

(** The value of [combined_lookup] that [build_model] works with. *)
Definition effective_combined_lookup (params : value) : value :=
  match subscript params "combined_lookup" with
  | Ok v => v
  | Err _ => VBool false
  end.

(** ** What a run leaves alone *)

(** Every run of [m] takes a world to one related to it by [R]. *)
Definition steps {A} (R : world -> world -> Prop) (m : M A) : Prop :=
  forall w, R w (snd (m w)).

(** Only the trace may differ. *)
Definition only_logged (w w' : world) : Prop :=
  w_config w' = w_config w /\ w_fs w' = w_fs w /\ w_heap w' = w_heap w.

(** Configuration and disk are the same; objects may have been created. *)
Definition only_allocated (w w' : world) : Prop :=
  w_config w' = w_config w /\ w_fs w' = w_fs w /\
  w_heap w `prefix_of` w_heap w'.

(** A value that is no container: no store can change it. *)
Definition scalar (v : value) : bool :=
  match v with
  | VList _ | VDict _ => false
  | _ => true
  end.

(** Disk and objects are the same, and so are the scalar entries of the
    configuration.  Nothing is said of an entry that holds a mapping or a
    sequence: in a configuration file with anchors it may be one object
    with the parameter section, and change with it. *)
Definition only_configured (w w' : world) : Prop :=
  w_fs w' = w_fs w /\ w_heap w' = w_heap w /\
  forall q v, subscript (w_config w) q = Ok v -> scalar v = true ->
              subscript (w_config w') q = Ok v.

(** Events of a run that only evaluates: no sampler is computed, no
    optimizer is built or restored, no scheduler is made and nothing is
    trained. *)
Definition evaluates (e : event) : Prop :=
  match e with
  | EvGetSampler _ _ | EvOptimizer _ _ | EvOptimizerLoadStateDict
  | EvScheduler | EvTrainModel _ => False
  | _ => True
  end.

(** Events of a run that only trains: nothing is tested, and neither the
    line that announces the test nor the complaint about the mode is
    logged. *)
Definition trains (e : event) : Prop :=
  match e with
  | EvTestModel _ => False
  | EvLog (LFormat template _) _ =>
      template <> "Testing on {}..." /\ template <> "Invalid config mode %s !!"
  | _ => True
  end.

(** Everything that is logged, or told where to log, uses the file [lf];
    two lines are logged without a file. *)
Definition logs_to (lf : string) (e : event) : Prop :=
  match e with
  | EvLog (LFormat template _) dest =>
      dest = Some lf \/
      (dest = None /\
       (template =
          "Model version mismatch: current version={}, checkpoint version={}"
        \/ template = "Testing on {}..."))
  | EvLog _ dest => dest = Some lf
  | EvTrainModel a => ta_logfile a = Some lf
  | EvTestModel a => te_logfile a = Some lf
  | _ => True
  end.

(** What a run shows of a configuration that [--testfile] has overridden:
    no directory is made, the configuration logged names the test file, the
    output file, and empty [data.dir] and [save_dir], and the log file is
    [log] in the working directory. *)
Definition overridden (testfile : string) (outputfile : value) (e : event)
  : Prop :=
  match e with
  | EvMakedirs _ => False
  | EvLog (LObj config) dest =>
      subscript_at ["data"; "test"; "jsonfile"] config = Ok (VStr testfile) /\
      subscript config "outputfile" = Ok outputfile /\
      subscript_at ["data"; "dir"] config = Ok (VStr "") /\
      subscript config "save_dir" = Ok (VStr "") /\
      dest = Some "log"
  | EvTrainModel a => ta_save_dir a = VStr "" /\ ta_logfile a = Some "log"
  | EvTestModel a => te_outputfile a = outputfile /\ te_logfile a = Some "log"
  | _ => True
  end.

(** ** A small installation, to run the driver on *)

Module Demo.

Definition weights_of (table : lookup) : string :=
  match table with
  | review_lookup => "review_lookup.weight"
  | summary_lookup => "summary_lookup.weight"
  end.

Definition collab (gpu : bool) : Collab :=
  {| cuda_is_available := gpu;
     HAN := fun _ =>
       Ok {| m_version := VStr "1.1"; m_weights := []; m_on_gpu := false |};
     copy_ := fun table m t =>
       Ok {| m_version := m_version m;
             m_weights := assoc_set (weights_of table) t (m_weights m);
             m_on_gpu := m_on_gpu m |};
     cuda := fun available m =>
       if available
       then Ok {| m_version := m_version m; m_weights := m_weights m;
                  m_on_gpu := true |}
       else Err (Raised "no CUDA device");
     load_state_dict := fun m state =>
       Ok {| m_version := m_version m; m_weights := state;
             m_on_gpu := m_on_gpu m |};
     new_optimizer := fun c _ kw =>
       Ok {| o_class := c; o_kwargs := kw; o_state := VNone |};
     optimizer_load_state_dict := fun o state =>
       Ok {| o_class := o_class o; o_kwargs := o_kwargs o; o_state := state |};
     get_sampler := fun ds _ => Ok (map (fun _ => 1%Q) (ds_samples ds));
     manual_seed := fun _ => Ok tt;
     cuda_manual_seed := fun _ => Ok tt;
     train_model := fun a fs => (Ok (ta_model a), fs);
     test_model := fun a fs => (Ok tt, fs) |}.

Definition section_of (jsonfile : string) : value :=
  VDict [("jsonfile", VStr jsonfile); ("batch_size", VInt 2)].

Definition data_section (summary_vocab : string) (weights : list (string * value))
  : value :=
  VDict ([("dir", VStr "data");
          ("review_vocab", VStr "review.pkl");
          ("summary_vocab", VStr summary_vocab);
          ("train", section_of "train.json");
          ("val", section_of "val.json");
          ("test", section_of "test.json")] ++ weights).

Definition params : value :=
  VDict [("emb_size", VInt 2); ("use_summary", VBool true)].

Definition config_of (mode : string) (use_gpu : bool) (data : value)
    (model : list (string * value)) (optimizer : string) : value :=
  VDict [("mode", VStr mode);
         ("use_gpu", VBool use_gpu);
         ("seed", VInt 1);
         ("save_dir", VStr "runs");
         ("data", data);
         ("model", VDict (("params", params) :: model));
         ("optim", VDict [("class", VStr optimizer);
                          ("params", VDict [("lr", VFloat (1 # 1000))]);
                          ("scheduler", VDict [("patience", VInt 2);
                                               ("factor", VFloat (1 # 10))])]);
         ("training", VDict [("n_epochs", VInt 3)])].

Definition config : value :=
  config_of "train" true (data_section "review.pkl" []) [("reload", VStr "best.pth")]
    "adagrad".

Definition vocab : Vocab :=
  {| itos := ["<unk>"; "good"; "bad"];
     vectors := [[0; 0]; [1; 0]; [0; 1]]%Q |}.

Definition checkpoint : Checkpoint :=
  {| ck_epoch := 5; ck_fscore := (3 # 4)%Q; ck_model_version := VStr "1.0";
     ck_state_dict := [("review_lookup.weight", [[2; 2]; [3; 3]; [4; 4]]%Q)];
     ck_optimizer := VDict [("step", VInt 40)] |}.

Definition examples : list sample := [([1; 2], [1], 1); ([2], [2], 0)].

Definition disk (config : value) : gmap string file :=
  <["config.yaml" := FYaml config]>
  (<["data/review.pkl" := FPickle vocab]>
  (<["data/summary.pkl" := FPickle vocab]>
  (<["data/train.json" := FJson examples]>
  (<["data/val.json" := FJson examples]>
  (<["data/test.json" := FJson examples]>
  (<["runs" := FDir]>
  (<["runs/best.pth" := FCheckpoint checkpoint]> ∅))))))).

(** The world as [main] finds it, for a given configuration. *)
Definition world_of (config : value) : world :=
  {| w_config := config; w_fs := disk config; w_heap := []; w_trace := [] |}.

(** The world before the script starts. *)
Definition boot (config : value) : world :=
  {| w_config := VNone; w_fs := disk config; w_heap := []; w_trace := [] |}.

Definition args : Args :=
  {| arg_config := "config.yaml"; arg_testfile := None; arg_outputfile := None |}.

Definition model : Model :=
  {| m_version := VStr "1.1"; m_weights := []; m_on_gpu := false |}.

Definition optimizer : Optimizer :=
  {| o_class := Adam; o_kwargs := []; o_state := VNone |}.

(** A training configuration with an explicit sampler request and two
    vocabulary files. *)
Definition weighted : world :=
  world_of
    (config_of "train" false
       (data_section "summary.pkl" [("weights", VStr "weighted")]) [] "sgd").

(** A configuration whose mode is neither [train] nor [test]. *)
Definition invalid : world :=
  world_of
    (config_of "foo" true (data_section "review.pkl" []) [] "sgd").

End Demo.

(** The world after [load_datasets] has run on the training configuration. *)
Definition demo_loaded : world :=
  snd (load_datasets (Demo.collab true) ["train"; "val"] None
         (Demo.world_of Demo.config)).

(** The world after [build_model] has run there: the parameter section
    now lists the two sizes, the flag and [combined_lookup]. *)
Definition demo_built : world :=
  snd (build_model (Demo.collab true) 0%nat 0%nat None demo_loaded).

(** The same installation set up for a test, with an output file. *)
Definition demo_test_config : value :=
  match Demo.config_of "test" false (Demo.data_section "review.pkl" [])
          [("reload", VStr "best.pth")] "sgd" with
  | VDict d => VDict (d ++ [("outputfile", VStr "predictions.txt")])
  | c => c
  end.

Definition demo_testing : world := Demo.world_of demo_test_config.

(** The training installation with an empty file where the checkpoint
    should be. *)
Definition demo_garbled : world :=
  with_fs (<["runs/best.pth" := FText ""]> (Demo.disk Demo.config))
    (Demo.world_of Demo.config).

(** The training configuration on a machine with an empty disk. *)
Definition demo_unpacked : world := with_fs ∅ (Demo.world_of Demo.config).

(** The command line of a test on one file, with no output file named. *)
Definition demo_test_args : Args :=
  {| arg_config := "config.yaml"; arg_testfile := Some "data/test.json";
     arg_outputfile := None |}.

(** * Proofs *)

(** ** Dictionaries *)

Lemma assoc_get_set_eq {A} (k : string) (v : A) d :
  assoc_get k (assoc_set k v d) = Some v.
Proof.
  induction d as [|[k' v'] d IH]; simpl.
  - by rewrite String.eqb_refl.
  - destruct (String.eqb k k') eqn:E; simpl; rewrite ?String.eqb_refl, ?E; auto.
Qed.

Lemma assoc_get_set_ne {A} (k k' : string) (v : A) d :
  k <> k' -> assoc_get k' (assoc_set k v d) = assoc_get k' d.
Proof.
  intros Hne. induction d as [|[k0 v0] d IH]; simpl.
  - destruct (String.eqb k' k) eqn:E; [|done].
    apply String.eqb_eq in E. congruence.
  - destruct (String.eqb k k0) eqn:E; simpl.
    + apply String.eqb_eq in E. subst k0.
      destruct (String.eqb k' k) eqn:E'; [|done].
      apply String.eqb_eq in E'. congruence.
    + destruct (String.eqb k' k0); auto.
Qed.

Lemma subscript_setitem_eq v k x v' :
  setitem v k x = Ok v' -> subscript v' k = Ok x.
Proof.
  destruct v; simpl; try discriminate. intros [= <-]. simpl.
  by rewrite assoc_get_set_eq.
Qed.

Lemma subscript_setitem_ne v k x v' q :
  setitem v k x = Ok v' -> q <> k -> subscript v' q = subscript v q.
Proof.
  destruct v; simpl; try discriminate. intros [= <-] Hne. simpl.
  rewrite assoc_get_set_ne; auto.
Qed.

Lemma py_in_setitem_ne v k x v' q :
  setitem v k x = Ok v' -> q <> k -> py_in q v' = py_in q v.
Proof.
  destruct v; simpl; try discriminate. intros [= <-] Hne. simpl.
  unfold assoc_mem. rewrite assoc_get_set_ne; auto.
Qed.

Lemma py_in_subscript v k :
  py_in k v = Ok false -> forall x, subscript v k <> Ok x.
Proof.
  destruct v; simpl; try discriminate.
  unfold assoc_mem. destruct (assoc_get k d); [discriminate|]. intros _ x [=].
Qed.

Lemma py_in_true_setitem v k x v' :
  setitem v k x = Ok v' -> py_in k v' = Ok true.
Proof.
  destruct v; simpl; try discriminate. intros [= <-]. simpl.
  unfold assoc_mem. by rewrite assoc_get_set_eq.
Qed.

(** A store at the end of a path rewrites the dictionary found there and
    nothing else along the way. *)
Lemma setitem_at_spec path k x v v' :
  setitem_at path k x v = Ok v' ->
  exists d d', subscript_at path v = Ok d /\ subscript_at path v' = Ok d' /\
               setitem d k x = Ok d'.
Proof.
  revert v v'. induction path as [|p path IH]; intros v v' H; simpl in *.
  - eauto.
  - destruct (subscript v p) as [sub|] eqn:Hs; [|discriminate].
    destruct (setitem_at path k x sub) as [sub'|] eqn:Hr; [|discriminate].
    destruct (IH _ _ Hr) as (d & d' & H1 & H2 & H3).
    exists d, d'. rewrite (subscript_setitem_eq _ _ _ _ H). auto.
Qed.

Lemma setitem_at_top p path k x v v' q :
  setitem_at (p :: path) k x v = Ok v' -> q <> p ->
  subscript v' q = subscript v q.
Proof.
  simpl. destruct (subscript v p) as [sub|]; [|discriminate].
  destruct (setitem_at path k x sub) as [sub'|]; [|discriminate].
  intros H Hne. eapply subscript_setitem_ne; eauto.
Qed.

Lemma subscript_at_app path k v :
  subscript_at (path ++ [k]) v =
  match subscript_at path v with
  | Ok d => subscript d k
  | Err e => Err e
  end.
Proof.
  revert v. induction path as [|p path IH]; intros v; simpl.
  - by destruct (subscript v k).
  - destruct (subscript v p); auto.
Qed.

(** ** Traces *)

Lemma extends_refl S w : extends S w w.
Proof. exists []. by rewrite app_nil_r. Qed.

Lemma extends_trans S w1 w2 w3 :
  extends S w1 w2 -> extends S w2 w3 -> extends S w1 w3.
Proof.
  intros (n1 & E1 & F1) (n2 & E2 & F2). exists (n1 ++ n2).
  rewrite E2, E1, app_assoc. split; [done|]. by apply Forall_app.
Qed.

Lemma extends_emit (S : event -> Prop) w e :
  S e -> extends S w (with_trace (w_trace w ++ [e]) w).
Proof. intros H. exists [e]. split; [done|]. by constructor. Qed.

Lemma extends_same_trace S w w' : w_trace w' = w_trace w -> extends S w w'.
Proof. intros E. exists []. by rewrite app_nil_r. Qed.

Lemma extends_weaken (S S' : event -> Prop) w w' :
  (forall e, S e -> S' e) -> extends S w w' -> extends S' w w'.
Proof.
  intros H (n & E & F). exists n. split; [done|].
  eapply Forall_impl; eauto.
Qed.

(** ** Rules for [maintains] *)

Section Rules.

Context {A B : Type} (I : value -> Prop) (S : event -> Prop).

Lemma maintains_ret (a : A) : maintains I S (ret a) (fun x => x = a).
Proof.
  intros w H. simpl. split; [done|]. split; [apply extends_refl|].
  by intros ? [= <-].
Qed.

Lemma maintains_raise e : maintains I S (@raise A e) (fun _ => False).
Proof.
  intros w H. simpl. split; [done|]. split; [apply extends_refl|]. done.
Qed.

Lemma maintains_lift (r : result A) : maintains I S (lift r) (fun a => r = Ok a).
Proof.
  intros w H. simpl. split; [done|]. split; [apply extends_refl|]. done.
Qed.

Lemma maintains_bind (m : M A) (k : A -> M B) Q R :
  maintains I S m Q -> (forall a, Q a -> maintains I S (k a) R) ->
  maintains I S (bind m k) R.
Proof.
  intros Hm Hk w Hw. destruct (Hm w Hw) as (H1 & H2 & H3).
  unfold bind. destruct (m w) as [[a|e] w1]; simpl in *.
  - destruct (Hk a (H3 a eq_refl) w1 H1) as (K1 & K2 & K3).
    split; [done|]. split; [|done]. eapply extends_trans; eauto.
  - split; [done|]. split; [done|]. discriminate.
Qed.

Lemma maintains_weaken (m : M A) (Q Q' : A -> Prop) :
  maintains I S m Q -> (forall a, Q a -> Q' a) -> maintains I S m Q'.
Proof.
  intros Hm HQ w Hw. destruct (Hm w Hw) as (H1 & H2 & H3). eauto.
Qed.

End Rules.

Section PrimitiveRules.

Context (I : value -> Prop) (S : event -> Prop).

Lemma maintains_emit e : S e -> maintains I S (emit e) (fun _ => True).
Proof.
  intros He w H. simpl. split; [done|]. split; [by apply extends_emit|done].
Qed.

Lemma maintains_log msg lf :
  S (EvLog msg lf) -> maintains I S (log msg lf) (fun _ => True).
Proof. apply maintains_emit. Qed.

Lemma maintains_get_config : maintains I S get_config I.
Proof.
  intros w H. simpl. split; [done|]. split; [apply extends_refl|].
  by intros ? [= <-].
Qed.

Lemma maintains_get_fs : maintains I S get_fs (fun _ => True).
Proof. intros w H. simpl. split; [done|]. split; [apply extends_refl|done]. Qed.

Lemma maintains_put_fs fs : maintains I S (put_fs fs) (fun _ => True).
Proof.
  intros w H. simpl. split; [done|]. split; [|done].
  by apply extends_same_trace.
Qed.

Lemma maintains_config_at path :
  maintains I S (config_at path)
    (fun v => exists c, I c /\ subscript_at path c = Ok v).
Proof.
  intros w H. unfold config_at, bind, get_config, lift. simpl.
  split; [done|]. split; [apply extends_refl|]. eauto.
Qed.

Lemma maintains_config_item k :
  maintains I S (config_item k)
    (fun v => exists c, I c /\ subscript c k = Ok v).
Proof.
  intros w H. unfold config_item, bind, get_config, lift. simpl.
  split; [done|]. split; [apply extends_refl|]. eauto.
Qed.

Lemma maintains_config_store path k x :
  (forall c c', I c -> setitem_at path k x c = Ok c' -> I c') ->
  maintains I S (config_store path k x) (fun _ => True).
Proof.
  intros HI w H. unfold config_store.
  destruct (setitem_at path k x (w_config w)) as [c'|] eqn:E; simpl.
  - split; [eauto|]. split; [by apply extends_same_trace|done].
  - split; [done|]. split; [apply extends_refl|done].
Qed.

Lemma maintains_open_file path :
  maintains I S (open_file path) (fun _ => True).
Proof.
  intros w H. unfold open_file, bind, get_fs, raise, ret.
  destruct (w_fs w !! path) as [[]|]; simpl;
    (split; [done|]); (split; [apply extends_refl|done]).
Qed.

Lemma maintains_deref l : maintains I S (deref l) (fun _ => True).
Proof.
  intros w H. unfold deref. destruct (w_heap w !! l); simpl;
    (split; [done|]); (split; [apply extends_refl|done]).
Qed.

Lemma maintains_exists path : maintains I S (exists_ path) (fun _ => True).
Proof.
  intros w H. unfold exists_, bind, get_fs, ret. simpl.
  split; [done|]. split; [apply extends_refl|done].
Qed.

Lemma maintains_getitem {A} (d : list (string * A)) k :
  maintains I S (getitem d k) (fun a => assoc_get k d = Some a).
Proof.
  intros w H. unfold getitem, ret, raise. destruct (assoc_get k d); simpl;
    (split; [done|]); (split; [apply extends_refl|]); congruence.
Qed.

Lemma maintains_dict_comp_from {A} (f : string -> M A) keys acc :
  (forall x, maintains I S (f x) (fun _ => True)) ->
  maintains I S (dict_comp_from acc keys f) (fun _ => True).
Proof.
  intros Hf. revert acc. induction keys as [|x keys IH]; intros acc; simpl.
  - eapply maintains_weaken; [apply maintains_ret|done].
  - eapply maintains_bind; [apply Hf|]. intros a _. apply IH.
Qed.

Lemma maintains_dict_comp {A} (f : string -> M A) keys :
  (forall x, maintains I S (f x) (fun _ => True)) ->
  maintains I S (dict_comp keys f) (fun _ => True).
Proof. apply maintains_dict_comp_from. Qed.

End PrimitiveRules.

(** Walking through a computation, one bind at a time.  [call] proves the
    rules of the calls that are not primitive. *)
Ltac maintains_base :=
  first
    [ apply maintains_ret | apply maintains_raise | apply maintains_lift
    | apply maintains_get_config | apply maintains_get_fs
    | apply maintains_put_fs | apply maintains_config_at
    | apply maintains_config_item | apply maintains_open_file
    | apply maintains_deref | apply maintains_exists | apply maintains_getitem
    | apply maintains_emit | apply maintains_log
    | apply maintains_config_store
    | apply maintains_dict_comp; intros ? ].

Ltac maintains_post :=
  first [ intros ? ?; eassumption | intros; exact Logic.I | intros ? [] ].

Ltac maintains_walk call :=
  repeat (
    cbv beta in *;
    lazymatch goal with
    | |- maintains _ _ (bind ?m _) _ =>
        lazymatch m with
        | match _ with _ => _ end =>
            eapply (maintains_bind _ _ _ _ (fun _ => True)); [|intros ? _]
        | _ => eapply maintains_bind; [|intros ? ?]
        end
    | |- maintains _ _ (match ?x with _ => _ end) _ => destruct x eqn:?
    | |- maintains _ _ _ _ =>
        eapply maintains_weaken;
        [ first [ maintains_base | call ] | try maintains_post ]
    end).

Section CallRules.

Context (X : Collab) (I : value -> Prop) (S : event -> Prop).

Lemma maintains_pickle_load path :
  S (EvPickleLoad path) -> maintains I S (pickle_load path) (fun _ => True).
Proof.
  intros HS. unfold pickle_load. maintains_walk fail; try done.
  intros w Hw. simpl. split; [done|]. split; [|done].
  by apply extends_same_trace.
Qed.

Lemma maintains_torch_load path :
  S (EvTorchLoad path) -> maintains I S (torch_load path) (fun _ => True).
Proof. intros HS. unfold torch_load. maintains_walk fail; done. Qed.

Lemma maintains_makedirs path :
  (forall p, S (EvMakedirs p)) -> maintains I S (makedirs path) (fun _ => True).
Proof. intros HS. unfold makedirs. maintains_walk fail; done. Qed.

Lemma maintains_ReviewsDataset data rv sv :
  S (EvReviewsDataset data rv sv) ->
  maintains I S (ReviewsDataset data rv sv) (fun _ => True).
Proof. intros HS. unfold ReviewsDataset. maintains_walk fail; done. Qed.

Lemma maintains_call_HAN kw :
  S (EvHAN kw) -> maintains I S (call_HAN X kw) (fun _ => True).
Proof. intros HS. unfold call_HAN. maintains_walk fail; done. Qed.

Lemma maintains_call_copy table model vocab :
  S (EvCopy table vocab) ->
  maintains I S (call_copy X table model vocab) (fun _ => True).
Proof. intros HS. unfold call_copy. maintains_walk fail; done. Qed.

Lemma maintains_call_cuda model :
  S EvCuda -> maintains I S (call_cuda X model) (fun _ => True).
Proof. intros HS. unfold call_cuda. maintains_walk fail; done. Qed.

Lemma maintains_call_load_state_dict model state :
  S EvLoadStateDict ->
  maintains I S (call_load_state_dict X model state) (fun _ => True).
Proof. intros HS. unfold call_load_state_dict. maintains_walk fail; done. Qed.

Lemma maintains_call_optimizer_load_state_dict o state :
  S EvOptimizerLoadStateDict ->
  maintains I S (call_optimizer_load_state_dict X o state) (fun _ => True).
Proof.
  intros HS. unfold call_optimizer_load_state_dict. maintains_walk fail; done.
Qed.

Lemma maintains_call_optimizer c model params :
  (forall kw, S (EvOptimizer c kw)) ->
  maintains I S (call_optimizer X c model params) (fun _ => True).
Proof. intros HS. unfold call_optimizer. maintains_walk fail; done. Qed.

Lemma maintains_call_get_sampler ds weights :
  S (EvGetSampler (ds_data ds) weights) ->
  maintains I S (call_get_sampler X ds weights) (fun _ => True).
Proof. intros HS. unfold call_get_sampler. maintains_walk fail; done. Qed.

Lemma maintains_call_manual_seed seed :
  S (EvManualSeed seed) ->
  maintains I S (call_manual_seed X seed) (fun _ => True).
Proof. intros HS. unfold call_manual_seed. maintains_walk fail; done. Qed.

Lemma maintains_call_cuda_manual_seed seed :
  S (EvCudaManualSeed seed) ->
  maintains I S (call_cuda_manual_seed X seed) (fun _ => True).
Proof. intros HS. unfold call_cuda_manual_seed. maintains_walk fail; done. Qed.

Lemma maintains_call_train_model a :
  S (EvTrainModel a) -> maintains I S (call_train_model X a) (fun _ => True).
Proof. intros HS. unfold call_train_model. maintains_walk fail; done. Qed.

Lemma maintains_call_test_model a :
  S (EvTestModel a) -> maintains I S (call_test_model X a) (fun _ => True).
Proof. intros HS. unfold call_test_model. maintains_walk fail; done. Qed.

End CallRules.

Ltac maintains_calls :=
  first
    [ apply maintains_pickle_load | apply maintains_torch_load
    | apply maintains_makedirs | apply maintains_ReviewsDataset
    | apply maintains_call_HAN | apply maintains_call_copy
    | apply maintains_call_cuda | apply maintains_call_load_state_dict
    | apply maintains_call_optimizer_load_state_dict
    | apply maintains_call_optimizer | apply maintains_call_get_sampler
    | apply maintains_call_manual_seed | apply maintains_call_cuda_manual_seed
    | apply maintains_call_train_model | apply maintains_call_test_model ].

(** ** What each function of the driver maintains *)

Section FunctionRules.

Context (X : Collab) (I : value -> Prop) (S : event -> Prop).

(** [load_datasets] leaves the configuration alone and only loads. *)
Lemma maintains_load_datasets phases logfile :
  (forall e, loads e -> S e) ->
  maintains I S (load_datasets X phases logfile) (fun _ => True).
Proof.
  intros HS. unfold load_datasets.
  maintains_walk maintains_calls; try (apply HS; exact Logic.I).
Qed.

(** [build_model] writes under [config['model']] only, and moves the model
    to the accelerator only when [config['use_gpu']] is truthy. *)
Lemma maintains_build_model rv sv logfile :
  ignores "model" I ->
  (forall e, loads_or_builds e -> e <> EvCuda -> S e) ->
  (S EvCuda \/ forall c v, I c -> subscript c "use_gpu" = Ok v -> truthy v = false) ->
  maintains I S (build_model X rv sv logfile) (fun _ => True).
Proof.
  intros HI HS Hgpu. unfold build_model.
  assert (Hstore : forall k x c c',
             I c -> setitem_at ["model"; "params"] k x c = Ok c' -> I c').
  { intros k x c c' Hc Hset. eapply HI; eauto.
    intros q Hq. eapply setitem_at_top; eauto. }
  maintains_walk maintains_calls;
    try (apply HS; [exact Logic.I | discriminate]); eauto.
  destruct Hgpu as [|Hgpu]; [done|].
  match goal with
  | H : exists c, _ /\ subscript c "use_gpu" = Ok ?v, E : truthy ?v = true |- _ =>
      destruct H as (c & Hc & Hv); rewrite (Hgpu c v Hc Hv) in E; discriminate
  end.
Qed.

(** [reload] leaves the configuration alone. *)
Lemma maintains_reload model optimizer logfile :
  (forall template args lf, S (EvLog (LFormat template args) lf)) ->
  (forall p, S (EvTorchLoad p)) ->
  S EvLoadStateDict -> S EvOptimizerLoadStateDict ->
  maintains I S (reload X model optimizer logfile) (fun _ => True).
Proof.
  intros H1 H2 H3 H4. unfold reload.
  maintains_walk maintains_calls; auto.
Qed.

Lemma maintains_select_optimizer model :
  (forall c kw, S (EvOptimizer c kw)) ->
  maintains I S (select_optimizer X model) (fun _ => True).
Proof.
  intros H1. unfold select_optimizer.
  maintains_walk maintains_calls; auto.
Qed.

End FunctionRules.

(** ** Running a function by hand *)

Ltac unfold_prims :=
  cbv beta iota delta
    [bind ret raise lift emit log get_config get_fs put_fs
     config_item config_at config_store open_file exists_ deref getitem
     call_HAN call_copy call_cuda call_load_state_dict
     call_optimizer_load_state_dict call_optimizer call_get_sampler
     call_manual_seed call_cuda_manual_seed call_train_model call_test_model
     pickle_load torch_load yaml_load makedirs ReviewsDataset];
  cbn [fst snd w_config w_fs w_heap w_trace
       with_config with_fs with_heap with_trace].

Ltac unfold_prims_in H :=
  cbv beta iota delta
    [bind ret raise lift emit log get_config get_fs put_fs
     config_item config_at config_store open_file exists_ deref getitem
     call_HAN call_copy call_cuda call_load_state_dict
     call_optimizer_load_state_dict call_optimizer call_get_sampler
     call_manual_seed call_cuda_manual_seed call_train_model call_test_model
     pickle_load torch_load yaml_load makedirs ReviewsDataset] in H;
  cbn [fst snd w_config w_fs w_heap w_trace
       with_config with_fs with_heap with_trace] in H.

(** The innermost thing a stuck run is waiting for. *)
Ltac scrutinee x :=
  lazymatch x with
  | match ?y with _ => _ end => scrutinee y
  | ?f ?y =>
      lazymatch f with
      | match ?z with _ => _ end => scrutinee z
      | _ => constr:(x)
      end
  | _ => constr:(x)
  end.

(** Follow every path of the run recorded in [H : m w = (r, w')]. *)
Ltac run_in H :=
  unfold_prims_in H;
  repeat (
    lazymatch type of H with
    | ?l = _ =>
        let s := scrutinee l in
        lazymatch s with
        | l => fail
        | _ => destruct s eqn:?
        end
    end;
    cbn [fst snd w_config w_fs w_heap w_trace
         with_config with_fs with_heap with_trace] in *).

Section Reload.

Context (X : Collab).

(** C1: when the model section has no [reload] key, or the joined path
    [save_dir/reload] is not on disk, [reload] returns the model and the
    optimizer it was given with [best_fscore = 0] and [start_epoch = 0];
    it does not raise, leaves configuration, disk and objects as they
    were, and at most logs. *)
Theorem reload_fresh_start model optimizer logfile w save_dir section :
  subscript (w_config w) "save_dir" = Ok save_dir ->
  subscript (w_config w) "model" = Ok section ->
  (py_in "reload" section = Ok false \/
   exists name path,
     py_in "reload" section = Ok true /\
     subscript section "reload" = Ok name /\
     join save_dir name = Ok path /\
     w_fs w !! path = None) ->
  exists w',
    reload X model optimizer logfile w = (Ok (model, optimizer, 0%Q, 0), w') /\
    w_config w' = w_config w /\ w_fs w' = w_fs w /\ w_heap w' = w_heap w /\
    extends (fun e => exists msg, e = EvLog msg logfile) w w'.
Proof.
  intros Hdir Hsec Hcase. unfold reload. unfold_prims.
  rewrite Hdir, Hsec.
  destruct Hcase as [Hno | (name & path & Hin & Hname & Hjoin & Hfs)].
  - rewrite Hno. eexists. split; [reflexivity|].
    repeat split; auto. apply extends_refl.
  - rewrite Hin, Hname, Hjoin, Hfs. simpl. eexists. split; [reflexivity|].
    simpl. repeat split; auto. apply extends_emit. eauto.
Qed.

(** C2: when the checkpoint at the reload path carries another
    [model_version] than the live model, [reload] logs the warning and goes
    on: it loads the weights, then the optimizer state when an optimizer was
    given, and returns the checkpoint's [fscore] and [epoch].  Only a
    failure of one of these two loads can make it raise. *)
Theorem reload_version_mismatch model optimizer logfile w save_dir section
    name path ck :
  subscript (w_config w) "save_dir" = Ok save_dir ->
  subscript (w_config w) "model" = Ok section ->
  py_in "reload" section = Ok true ->
  subscript section "reload" = Ok name ->
  join save_dir name = Ok path ->
  w_fs w !! path = Some (FCheckpoint ck) ->
  py_eq (m_version model) (ck_model_version ck) = false ->
  let warning :=
    EvLog (LFormat "Model version mismatch: current version={}, checkpoint version={}"
             [m_version model; ck_model_version ck]) None in
  let loading :=
    EvLog (LFormat "=> loading checkpoint/model found at '{0}'" [VStr path])
      logfile in
  let run := reload X model optimizer logfile w in
  fst run =
    match load_state_dict X model (ck_state_dict ck) with
    | Err e => Err e
    | Ok model' =>
        match optimizer with
        | None => Ok (model', None, ck_fscore ck, ck_epoch ck)
        | Some o =>
            match optimizer_load_state_dict X o (ck_optimizer ck) with
            | Err e => Err e
            | Ok o' => Ok (model', Some o', ck_fscore ck, ck_epoch ck)
            end
        end
    end /\
  w_trace (snd run) =
    w_trace w ++ [loading; EvTorchLoad path; warning; EvLoadStateDict] ++
    match load_state_dict X model (ck_state_dict ck), optimizer with
    | Ok _, Some _ => [EvOptimizerLoadStateDict]
    | _, _ => []
    end.
Proof.
  intros Hdir Hsec Hin Hname Hjoin Hfs Hver. cbv zeta.
  unfold reload. unfold_prims.
  rewrite Hdir, Hsec, Hin, Hname, Hjoin, Hfs. cbn.
  rewrite Hfs. cbn. rewrite Hver. cbn.
  destruct (load_state_dict X model (ck_state_dict ck)) as [model'|e]; simpl.
  - destruct optimizer as [o|]; simpl.
    + destruct (optimizer_load_state_dict X o (ck_optimizer ck)); simpl;
        rewrite <- !app_assoc; auto.
    + rewrite <- !app_assoc; auto.
  - rewrite <- !app_assoc; auto.
Qed.

End Reload.

(** ** The stores of [build_model] *)

Lemma py_in_setitem_subscript v k x v' q :
  setitem v k x = Ok v' ->
  py_in q v' = Ok true -> exists y, subscript v' q = Ok y.
Proof.
  destruct v; simpl; try discriminate. intros [= <-]. simpl.
  unfold assoc_mem. destruct (assoc_get q _); [eauto|discriminate].
Qed.

(** The three stores of lines 64-66, seen from the parameter section. *)
Lemma stores_of_build_model c0 c1 c2 c3 x1 x2 x3 :
  setitem_at ["model"; "params"] "review_vocab_size" x1 c0 = Ok c1 ->
  setitem_at ["model"; "params"] "summary_vocab_size" x2 c1 = Ok c2 ->
  setitem_at ["model"; "params"] "use_gpu" x3 c2 = Ok c3 ->
  exists p0 p2 p3,
    subscript_at ["model"; "params"] c0 = Ok p0 /\
    subscript_at ["model"; "params"] c3 = Ok p3 /\
    setitem p2 "use_gpu" x3 = Ok p3 /\
    subscript p3 "review_vocab_size" = Ok x1 /\
    subscript p3 "summary_vocab_size" = Ok x2 /\
    subscript p3 "use_gpu" = Ok x3 /\
    (forall q, q <> "review_vocab_size" -> q <> "summary_vocab_size" ->
               q <> "use_gpu" ->
               subscript p3 q = subscript p0 q /\ py_in q p3 = py_in q p0) /\
    (forall q, q <> "model" -> subscript c3 q = subscript c0 q).
Proof.
  intros H1 H2 H3.
  pose proof (fun q => setitem_at_top _ _ _ _ _ _ q H1) as T1.
  pose proof (fun q => setitem_at_top _ _ _ _ _ _ q H2) as T2.
  pose proof (fun q => setitem_at_top _ _ _ _ _ _ q H3) as T3.
  apply setitem_at_spec in H1 as (p0 & p1 & A1 & B1 & S1).
  apply setitem_at_spec in H2 as (p1' & p2 & A2 & B2 & S2).
  apply setitem_at_spec in H3 as (p2' & p3 & A3 & B3 & S3).
  assert (p1' = p1) by congruence. assert (p2' = p2) by congruence. subst.
  exists p0, p2, p3. repeat split; auto.
  - rewrite (subscript_setitem_ne _ _ _ _ _ S3) by done.
    rewrite (subscript_setitem_ne _ _ _ _ _ S2) by done.
    eapply subscript_setitem_eq; eauto.
  - rewrite (subscript_setitem_ne _ _ _ _ _ S3) by done.
    eapply subscript_setitem_eq; eauto.
  - eapply subscript_setitem_eq; eauto.
  - rewrite (subscript_setitem_ne _ _ _ _ _ S3) by done.
    rewrite (subscript_setitem_ne _ _ _ _ _ S2) by done.
    rewrite (subscript_setitem_ne _ _ _ _ _ S1) by done. done.
  - rewrite (py_in_setitem_ne _ _ _ _ _ S3) by done.
    rewrite (py_in_setitem_ne _ _ _ _ _ S2) by done.
    rewrite (py_in_setitem_ne _ _ _ _ _ S1) by done. done.
  - intros q Hq. rewrite T3, T2, T1; auto.
Qed.

Lemma subscript_at_params k c :
  subscript_at ["model"; "params"; k] c =
  match subscript_at ["model"; "params"] c with
  | Ok d => subscript d k
  | Err e => Err e
  end.
Proof. apply (subscript_at_app ["model"; "params"]). Qed.


(** Line 73, seen from the parameter section [p3] reached after line 66. *)
Lemma default_of_build_model c3 c4 p2 p3 x3 :
  subscript_at ["model"; "params"] c3 = Ok p3 ->
  setitem p2 "use_gpu" x3 = Ok p3 ->
  py_in "combined_lookup" p3 = Ok false ->
  setitem_at ["model"; "params"] "combined_lookup" (VBool false) c3 = Ok c4 ->
  exists p4,
    subscript_at ["model"; "params"] c4 = Ok p4 /\
    subscript p4 "combined_lookup" = Ok (effective_combined_lookup p3) /\
    (forall q, q <> "combined_lookup" -> subscript p4 q = subscript p3 q) /\
    (forall q, q <> "model" -> subscript c4 q = subscript c3 q).
Proof.
  intros P3 S3 Hin H.
  pose proof (fun q => setitem_at_top _ _ _ _ _ _ q H) as T.
  apply setitem_at_spec in H as (p3' & p4 & A & B & S4).
  assert (p3' = p3) by congruence. subst.
  exists p4. repeat split; auto.
  - unfold effective_combined_lookup.
    destruct (subscript p3 "combined_lookup") eqn:E.
    + by destruct (py_in_subscript _ _ Hin _ E).
    + eapply subscript_setitem_eq; eauto.
  - intros q Hq. eapply subscript_setitem_ne; eauto.
Qed.

Lemma present_of_build_model p2 p3 x3 :
  setitem p2 "use_gpu" x3 = Ok p3 ->
  py_in "combined_lookup" p3 = Ok true ->
  subscript p3 "combined_lookup" = Ok (effective_combined_lookup p3).
Proof.
  intros S3 Hin. destruct (py_in_setitem_subscript _ _ _ _ _ S3 Hin) as [y Hy].
  unfold effective_combined_lookup. by rewrite Hy.
Qed.

Ltac same_lookups :=
  repeat match goal with
         | H1 : ?x = Ok ?a, H2 : ?x = Ok ?b |- _ =>
             first [ constr_eq a b; clear H2
                   | assert (a = b) by congruence; subst b; clear H2
                   | assert (b = a) by congruence; subst a; clear H2]
         end.

(** ** [build_model] *)

Lemma subscript_dict d k x :
  subscript (VDict d) k = Ok x -> assoc_get k d = Some x.
Proof. cbn. destruct (assoc_get k d); intros [=]; by subst. Qed.

(** A store of the value that is already there changes nothing. *)
Lemma assoc_set_same {A} (k : string) (v : A) d :
  assoc_get k d = Some v -> assoc_set k v d = d.
Proof.
  induction d as [|[k' v'] d IH]; simpl; [done|].
  destruct (String.eqb k k') eqn:E.
  - intros [= ->]. apply String.eqb_eq in E. by subst.
  - intros Hd. by rewrite IH.
Qed.

Lemma setitem_same v k x v' :
  setitem v k x = Ok v' -> subscript v k = Ok x -> v' = v.
Proof.
  destruct v; simpl; try discriminate. intros [= <-] Hs.
  f_equal. apply assoc_set_same. by apply subscript_dict.
Qed.

Lemma setitem_at_same path k x v v' :
  setitem_at path k x v = Ok v' -> subscript_at (path ++ [k]) v = Ok x ->
  v' = v.
Proof.
  revert v v'. induction path as [|p path IH]; intros v v' H Hs; simpl in *.
  - destruct (subscript v k) eqn:E; [|done]. injection Hs as ->.
    by eapply setitem_same.
  - destruct (subscript v p) as [sub|] eqn:E; [|done].
    destruct (setitem_at path k x sub) as [sub'|] eqn:Hr; [|done].
    rewrite (IH _ _ Hr Hs) in H. by eapply setitem_same.
Qed.

Lemma subscript_py_in v k x : subscript v k = Ok x -> py_in k v = Ok true.
Proof.
  destruct v; simpl; try discriminate. unfold assoc_mem.
  by destruct (assoc_get k d).
Qed.

Section BuildModel.

Context (X : Collab).

(** What a call of [build_model] that returns has done. *)
Lemma build_model_returns rv sv logfile w model w' :
  build_model X rv sv logfile w = (Ok model, w') ->
  exists use_gpu rvo svo p0 p4 use_summary kw m0,
    subscript (w_config w) "use_gpu" = Ok use_gpu /\
    w_heap w !! rv = Some rvo /\ w_heap w !! sv = Some svo /\
    subscript_at ["model"; "params"] (w_config w) = Ok p0 /\
    subscript_at ["model"; "params"] (w_config w') = Ok p4 /\
    subscript p0 "use_summary" = Ok use_summary /\
    subscript p4 "review_vocab_size" = Ok (VInt (vocab_len rvo)) /\
    subscript p4 "summary_vocab_size" = Ok (VInt (vocab_len svo)) /\
    subscript p4 "use_gpu" = Ok use_gpu /\
    subscript p4 "combined_lookup" = Ok (effective_combined_lookup p0) /\
    (forall q, q <> "model" ->
               subscript (w_config w') q = subscript (w_config w) q) /\
    w_trace w' =
      w_trace w ++
      [EvHAN kw; EvLog (LModel m0) logfile; EvCopy review_lookup rv] ++
      (if truthy use_summary && negb (truthy (effective_combined_lookup p0))
       then [EvCopy summary_lookup sv] else []) ++
      (if truthy use_gpu then [EvCuda] else []).
Proof.
  intros H. unfold build_model in H. run_in H; try discriminate.
  all: injection H as <- <-.
  all: simplify_eq.
  all: match goal with
       | H1 : setitem_at _ "review_vocab_size" _ _ = Ok _,
         H2 : setitem_at _ "summary_vocab_size" _ _ = Ok _,
         H3 : setitem_at _ "use_gpu" _ _ = Ok _ |- _ =>
           destruct (stores_of_build_model _ _ _ _ _ _ _ H1 H2 H3)
             as (p0 & p2 & p3 & P0 & P3 & S3 & G1 & G2 & G3 & Gother & Gtop)
       end.
  all: simplify_eq.
  all: same_lookups.
  all: match goal with
       | G : forall q, _ -> _ -> _ -> subscript ?p3 q = subscript ?p0 q /\ _ |- _ =>
           assert (Eeff : effective_combined_lookup p3 = effective_combined_lookup p0)
             by (unfold effective_combined_lookup;
                 by destruct (G "combined_lookup") as [-> _]);
           destruct (G "use_summary") as [Eus _]; try done
       end.
  all: rewrite ?subscript_at_params in *.
  all: match goal with
       | Hin : py_in "combined_lookup" ?p3 = Ok ?b,
         P3 : subscript_at _ ?c3 = Ok ?p3,
         S3 : setitem _ "use_gpu" _ = Ok ?p3 |- _ =>
           destruct b; cbn [negb] in *; try discriminate;
           first
             [ match goal with
               | Hs : setitem_at _ "combined_lookup" _ c3 = Ok _ |- _ =>
                   destruct (default_of_build_model _ _ _ _ _ P3 S3 Hin Hs)
                     as (p4 & P4 & D1 & D2 & D3);
                   rewrite ?P4 in *;
                   rewrite ?(D2 "use_summary"), ?(D2 "review_vocab_size"),
                     ?(D2 "summary_vocab_size"), ?(D2 "use_gpu") in * by done
               end
             | pose proof (present_of_build_model _ _ _ S3 Hin) as D1;
               rewrite ?P3 in * ]
       end.
  all: rewrite Eeff in D1; rewrite Eus in *.
  all: same_lookups.
  all: do 8 eexists.
  all: repeat match goal with |- _ /\ _ => split end.
  all: try eassumption; try reflexivity.
  all: try (rewrite D2 by done; eassumption).
  all: cbn [w_config w_trace with_config with_trace].
  all: try (intros q Hq; try rewrite D3 by done; by rewrite Gtop).
  all: rewrite ?Heqb0, ?Heqb1, ?Heqb2; cbn [andb negb];
    rewrite <- ?app_assoc; reflexivity.
Qed.

(** What a call of [build_model] that returns hands back, and what it has
    given to the constructor. *)
Lemma build_model_pipeline rv sv logfile w model w' :
  build_model X rv sv logfile w = (Ok model, w') ->
  exists use_gpu rvo svo before use_summary kw m0 m1 m2,
    subscript (w_config w) "use_gpu" = Ok use_gpu /\
    w_heap w !! rv = Some rvo /\ w_heap w !! sv = Some svo /\
    subscript_at ["model"; "params"] (w_config w) = Ok before /\
    subscript before "use_summary" = Ok use_summary /\
    assoc_get "review_vocab_size" kw = Some (VInt (vocab_len rvo)) /\
    assoc_get "summary_vocab_size" kw = Some (VInt (vocab_len svo)) /\
    assoc_get "use_gpu" kw = Some use_gpu /\
    (forall q, q <> "review_vocab_size" -> q <> "summary_vocab_size" ->
               q <> "use_gpu" -> subscript (VDict kw) q = subscript before q) /\
    (py_in "combined_lookup" before = Ok false ->
       assoc_get "combined_lookup" kw = None) /\
    HAN X kw = Ok m0 /\
    copy_ X review_lookup m0 (vectors rvo) = Ok m1 /\
    (if truthy use_summary && negb (truthy (effective_combined_lookup before))
     then copy_ X summary_lookup m1 (vectors svo) = Ok m2
     else m2 = m1) /\
    (if truthy use_gpu then cuda X (cuda_is_available X) m2 = Ok model
     else model = m2).
Proof.
  intros H. unfold build_model in H. run_in H; try discriminate.
  all: injection H as <- <-.
  all: simplify_eq.
  all: match goal with
       | H1 : setitem_at _ "review_vocab_size" _ _ = Ok _,
         H2 : setitem_at _ "summary_vocab_size" _ _ = Ok _,
         H3 : setitem_at _ "use_gpu" _ _ = Ok _ |- _ =>
           destruct (stores_of_build_model _ _ _ _ _ _ _ H1 H2 H3)
             as (p0 & p2 & p3 & P0 & P3 & S3 & G1 & G2 & G3 & Gother & Gtop)
       end.
  all: simplify_eq.
  all: same_lookups.
  all: match goal with
       | G : forall q, _ -> _ -> _ -> subscript ?p3 q = subscript ?p0 q /\ _ |- _ =>
           assert (Eeff : effective_combined_lookup p3 = effective_combined_lookup p0)
             by (unfold effective_combined_lookup;
                 by destruct (G "combined_lookup") as [-> _]);
           destruct (G "use_summary") as [Eus _]; try done
       end.
  all: rewrite ?subscript_at_params in *.
  all: match goal with
       | Hin : py_in "combined_lookup" ?p3 = Ok ?b,
         P3 : subscript_at _ ?c3 = Ok ?p3,
         S3 : setitem _ "use_gpu" _ = Ok ?p3 |- _ =>
           destruct b; cbn [negb] in *; try discriminate;
           first
             [ match goal with
               | Hs : setitem_at _ "combined_lookup" _ c3 = Ok _ |- _ =>
                   destruct (default_of_build_model _ _ _ _ _ P3 S3 Hin Hs)
                     as (p4 & P4 & D1 & D2 & D3);
                   rewrite ?P4 in *;
                   rewrite ?(D2 "use_summary"), ?(D2 "review_vocab_size"),
                     ?(D2 "summary_vocab_size"), ?(D2 "use_gpu") in * by done
               end
             | pose proof (present_of_build_model _ _ _ S3 Hin) as D1;
               rewrite ?P3 in * ]
       end.
  all: rewrite Eeff in D1; rewrite Eus in *.
  all: same_lookups.
  all: match goal with
       | Hk : kwargs ?p = Ok _ |- _ =>
           destruct p; try discriminate; injection Hk as ->
       end.
  all: do 9 eexists.
  all: repeat match goal with |- _ /\ _ => split end.
  all: try eassumption; try reflexivity.
  all: try (by apply subscript_dict).
  all: try (intros q ? ? ?; by apply Gother).
  all: try (intros Hno; destruct (Gother "combined_lookup") as [_ Hp];
            try done; rewrite Hno in Hp; cbn in Hp; unfold assoc_mem in Hp;
            by destruct (assoc_get "combined_lookup" _)).
  all: rewrite ?Heqb0, ?Heqb1, ?Heqb2; cbn [andb negb].
  all: first [ eassumption | reflexivity ].
Qed.

(** C3: a call of [build_model] that returns has copied the review
    vocabulary's vectors into the review lookup table of the model that
    [HAN] constructed: the model handed back is the result of that [copy_],
    then of the [copy_] of the summary vocabulary's vectors into the summary
    lookup table exactly when [use_summary] is truthy and [combined_lookup]
    is falsy, moved to the accelerator or not.  It has copied nothing else,
    and a configuration without [combined_lookup] counts as
    [combined_lookup = False]. *)
Theorem build_model_copies rv sv logfile w model w' :
  build_model X rv sv logfile w = (Ok model, w') ->
  exists params use_summary new rvo svo constructed with_review with_summary,
    subscript_at ["model"; "params"] (w_config w) = Ok params /\
    subscript params "use_summary" = Ok use_summary /\
    w_heap w !! rv = Some rvo /\ w_heap w !! sv = Some svo /\
    (exists kw, HAN X kw = Ok constructed) /\
    copy_ X review_lookup constructed (vectors rvo) = Ok with_review /\
    (if truthy use_summary && negb (truthy (effective_combined_lookup params))
     then copy_ X summary_lookup with_review (vectors svo) = Ok with_summary
     else with_summary = with_review) /\
    (model = with_summary \/
     cuda X (cuda_is_available X) with_summary = Ok model) /\
    w_trace w' = w_trace w ++ new /\
    EvCopy review_lookup rv ∈ new /\
    (EvCopy summary_lookup sv ∈ new <->
       truthy use_summary = true /\
       truthy (effective_combined_lookup params) = false) /\
    (forall t v, EvCopy t v ∈ new ->
       (t = review_lookup /\ v = rv) \/ (t = summary_lookup /\ v = sv)) /\
    (py_in "combined_lookup" params = Ok false ->
       effective_combined_lookup params = VBool false /\
       (EvCopy summary_lookup sv ∈ new <-> truthy use_summary = true)).
Proof.
  intros H.
  destruct (build_model_returns _ _ _ _ _ _ H)
    as (use_gpu & rvo & svo & p0 & p4 & use_summary & kw & m0 &
        Hgpu & Hrv & Hsv & P0 & P4 & Hus & _ & _ & _ & _ & _ & Htrace).
  destruct (build_model_pipeline _ _ _ _ _ _ H)
    as (use_gpu' & rvo' & svo' & before & use_summary' & kw' & constructed &
        with_review & with_summary &
        Hgpu' & Hrv' & Hsv' & Hb & Hus' & _ & _ & _ & _ & _ &
        Hhan & Hreview & Hsummary & Hcuda).
  rewrite Hgpu in Hgpu'. injection Hgpu' as <-.
  rewrite Hrv in Hrv'. injection Hrv' as <-.
  rewrite Hsv in Hsv'. injection Hsv' as <-.
  rewrite P0 in Hb. injection Hb as <-.
  rewrite Hus in Hus'. injection Hus' as <-.
  exists p0, use_summary. eexists. exists rvo, svo, constructed, with_review,
    with_summary.
  split; [done|]. split; [done|]. split; [done|]. split; [done|].
  split; [by exists kw'|]. split; [done|]. split; [done|].
  split; [destruct (truthy use_gpu); [by right|by left]|].
  split; [exact Htrace|].
  assert (Habsent : py_in "combined_lookup" p0 = Ok false ->
                    effective_combined_lookup p0 = VBool false).
  { intros Hin. unfold effective_combined_lookup.
    destruct (subscript p0 "combined_lookup") eqn:E; [|done].
    by destruct (py_in_subscript _ _ Hin _ E). }
  clear Hsummary Hcuda.
  destruct (truthy use_summary), (truthy (effective_combined_lookup p0)) eqn:Ec,
    (truthy use_gpu); cbn [andb negb app];
    (split; [set_solver|]); (split; [set_solver|]); (split; [set_solver|]);
    intros Hin; rewrite (Habsent Hin) in *; (split; [done|]);
    cbn in Ec; try discriminate; set_solver.
Qed.

(** A call of [build_model] on a parameter section that lists the four
    entries with the values it would store leaves the configuration as it
    was. *)
Lemma build_model_keeps_listed_config rv sv logfile w model w' use_gpu rvo svo
    before :
  build_model X rv sv logfile w = (Ok model, w') ->
  subscript (w_config w) "use_gpu" = Ok use_gpu ->
  w_heap w !! rv = Some rvo -> w_heap w !! sv = Some svo ->
  subscript_at ["model"; "params"] (w_config w) = Ok before ->
  subscript before "review_vocab_size" = Ok (VInt (vocab_len rvo)) ->
  subscript before "summary_vocab_size" = Ok (VInt (vocab_len svo)) ->
  subscript before "use_gpu" = Ok use_gpu ->
  py_in "combined_lookup" before = Ok true ->
  w_config w' = w_config w.
Proof.
  intros H Hgpu Hrv Hsv Hb K1 K2 K3 K4.
  assert (Hkey : forall k x, subscript before k = Ok x ->
                 subscript_at (["model"; "params"] ++ [k]) (w_config w) = Ok x).
  { intros k x Hk. by rewrite subscript_at_app, Hb. }
  unfold build_model in H. run_in H; try discriminate.
  all: injection H as <- <-.
  all: cbn [fst snd w_config w_fs w_heap w_trace
            with_config with_fs with_heap with_trace].
  all: simplify_eq.
  all: repeat match goal with
              | S : setitem_at ["model"; "params"] _ _ (w_config _) = Ok ?c
                |- _ =>
                  apply setitem_at_same in S;
                  [ subst c | by apply Hkey ]
              end.
  all: simplify_eq.
  all: try reflexivity.
  all: exfalso.
  all: match goal with
       | Hp : subscript_at ["model"; "params"] _ = Ok ?a,
         Hin : py_in "combined_lookup" ?a = Ok ?b,
         Hn : negb ?b = true |- _ =>
           rewrite Hb in Hp; injection Hp as <-;
           rewrite K4 in Hin; injection Hin as <-; discriminate Hn
       end.
Qed.

(** C9, as the driver behaves: a call of [build_model] that returns has
    written into the configuration it was given:
    [config['model']['params']] now holds [review_vocab_size] and
    [summary_vocab_size] (the lengths of the two vocabularies), [use_gpu]
    (the top-level flag) and, when it was absent, [combined_lookup = False].
    Whenever one of these keys was missing before, the configuration is not
    what it was; it is what it was exactly when the section already held
    the two sizes and the flag with these values, and a [combined_lookup]. *)
Theorem build_model_mutates_config rv sv logfile w model w' :
  build_model X rv sv logfile w = (Ok model, w') ->
  exists use_gpu rvo svo before after,
    subscript (w_config w) "use_gpu" = Ok use_gpu /\
    w_heap w !! rv = Some rvo /\ w_heap w !! sv = Some svo /\
    subscript_at ["model"; "params"] (w_config w) = Ok before /\
    subscript_at ["model"; "params"] (w_config w') = Ok after /\
    subscript after "review_vocab_size" = Ok (VInt (vocab_len rvo)) /\
    subscript after "summary_vocab_size" = Ok (VInt (vocab_len svo)) /\
    subscript after "use_gpu" = Ok use_gpu /\
    (py_in "combined_lookup" before = Ok false ->
       subscript after "combined_lookup" = Ok (VBool false)) /\
    (forall k,
       k ∈ ["review_vocab_size"; "summary_vocab_size"; "use_gpu";
            "combined_lookup"] ->
       py_in k before = Ok false -> w_config w' <> w_config w) /\
    (w_config w' = w_config w <->
       subscript before "review_vocab_size" = Ok (VInt (vocab_len rvo)) /\
       subscript before "summary_vocab_size" = Ok (VInt (vocab_len svo)) /\
       subscript before "use_gpu" = Ok use_gpu /\
       py_in "combined_lookup" before = Ok true).
Proof.
  intros H.
  destruct (build_model_returns _ _ _ _ _ _ H)
    as (use_gpu & rvo & svo & p0 & p4 & use_summary & kw & m0 &
        Hgpu & Hrv & Hsv & P0 & P4 & Hus & G1 & G2 & G3 & G4 & _ & _).
  exists use_gpu, rvo, svo, p0, p4. repeat (split; [done|]).
  split; [|split; [|split]].
  - intros Hin. rewrite G4. f_equal. unfold effective_combined_lookup.
    destruct (subscript p0 "combined_lookup") eqn:E; [|done].
    by destruct (py_in_subscript _ _ Hin _ E).
  - intros k Hk Hin Heq. rewrite Heq, P0 in P4. injection P4 as <-.
    assert (exists x, subscript p0 k = Ok x) as [x Hx].
    { rewrite !elem_of_cons, elem_of_nil in Hk.
      destruct Hk as [->|[->|[->|[->|[]]]]]; eauto. }
    by destruct (py_in_subscript _ _ Hin _ Hx).
  - intros Heq. rewrite Heq, P0 in P4. injection P4 as <-.
    repeat (split; [done|]). by eapply subscript_py_in.
  - intros (K1 & K2 & K3 & K4).
    by eapply build_model_keeps_listed_config.
Qed.

(** C6: in every run of [build_model], a transfer of the model to the
    accelerator comes after the copy into the review lookup table and is
    followed by no copy at all; and a run that returns with a truthy
    [use_gpu] ends with that transfer. *)
Theorem cuda_after_copies rv sv logfile w :
  let run := build_model X rv sv logfile w in
  exists new,
    w_trace (snd run) = w_trace w ++ new /\
    (forall pre post, new = pre ++ EvCuda :: post ->
       EvCopy review_lookup rv ∈ pre /\ Forall (fun e => ~ is_copy e) post) /\
    (forall model use_gpu,
       fst run = Ok model ->
       subscript (w_config w) "use_gpu" = Ok use_gpu ->
       truthy use_gpu = true ->
       exists pre, new = pre ++ [EvCuda] /\ EvCopy review_lookup rv ∈ pre).
Proof.
  cbv zeta.
  assert (Hlast : exists new,
    w_trace (snd (build_model X rv sv logfile w)) = w_trace w ++ new /\
    forall pre post, new = pre ++ EvCuda :: post ->
      EvCopy review_lookup rv ∈ pre /\ Forall (fun e => ~ is_copy e) post).
  { destruct (build_model X rv sv logfile w) as [r w'] eqn:H.
    unfold build_model in H. run_in H.
    all: injection H as <- <-; cbn [snd w_trace with_trace with_config].
    all: eexists; split;
      [ first [ symmetry; apply app_nil_r
              | rewrite <- ?app_assoc; cbn [app]; reflexivity ] |].
    all: intros pre post E.
    all: repeat (destruct pre as [|? pre]; simplify_eq/=).
    all: split; [set_solver | constructor]. }
  destruct Hlast as (new & Htrace & Horder). exists new.
  split; [done|]. split; [done|].
  intros model use_gpu Hok Hgpu Htruthy.
  destruct (build_model X rv sv logfile w) as [r w'] eqn:H.
  simpl in Hok, Htrace. subst r.
  destruct (build_model_returns _ _ _ _ _ _ H)
    as (use_gpu' & rvo & svo & p0 & p4 & use_summary & kw & m0 &
        Hgpu' & _ & _ & _ & _ & _ & _ & _ & _ & _ & _ & Htrace').
  assert (use_gpu' = use_gpu) by congruence. subst use_gpu'.
  rewrite Htrace', Htruthy in Htrace. apply app_inv_head in Htrace.
  subst new. eexists. split.
  - rewrite !app_assoc. reflexivity.
  - set_solver.
Qed.

End BuildModel.

(** ** Runs that return *)

Lemma bind_ok {A B} (m : M A) (k : A -> M B) w b w' :
  bind m k w = (Ok b, w') ->
  exists a w1, m w = (Ok a, w1) /\ k a w1 = (Ok b, w').
Proof.
  unfold bind. destruct (m w) as [[a|e] w1]; [eauto|discriminate].
Qed.

(** Follow the one path of a run that returned, [H : m w = (Ok a, w')],
    keeping comprehensions and calls of driver functions whole. *)
Ltac ok_run H :=
  cbv beta in H;
  lazymatch type of H with
  | bind _ _ _ = (Ok _, _) =>
      let H1 := fresh "Hstep" in
      apply bind_ok in H as (? & ? & H1 & H); ok_run H1; ok_run H
  | dict_comp _ _ _ = _ => idtac
  | load_datasets _ _ _ _ = _ => idtac
  | build_model _ _ _ _ _ = _ => idtac
  | reload _ _ _ _ _ = _ => idtac
  | select_optimizer _ _ _ = _ => idtac
  | (match ?x with _ => _ end) _ = _ => destruct x eqn:?; ok_run H
  | _ => run_in H; try discriminate; simplify_eq
  end.


(** ** Dictionary comprehensions *)

Lemma dict_comp_from_post {A} (P : string -> A -> Prop) (f : string -> M A)
    keys acc w d w' :
  dict_comp_from acc keys f w = (Ok d, w') ->
  (forall x a, assoc_get x acc = Some a -> P x a) ->
  (forall x a w1 w2, f x w1 = (Ok a, w2) -> P x a) ->
  (forall x a, assoc_get x d = Some a -> P x a) /\
  (forall x, x ∈ keys \/ is_Some (assoc_get x acc) -> is_Some (assoc_get x d)).
Proof.
  intros H Hacc Hf. revert acc w H Hacc.
  induction keys as [|k keys IH]; intros acc w H Hacc; simpl in H.
  - injection H as <- <-. split; [done|]. intros x [Hx|Hx]; [|done].
    by apply elem_of_nil in Hx.
  - apply bind_ok in H as (a & w1 & Hk & H).
    destruct (IH _ _ H) as [IH1 IH2].
    + intros x b. destruct (decide (k = x)) as [->|Hne].
      * rewrite assoc_get_set_eq. intros [= <-]. eauto.
      * rewrite assoc_get_set_ne by done. auto.
    + split; [done|]. intros x Hx. apply IH2.
      destruct (decide (k = x)) as [->|Hne].
      * right. rewrite assoc_get_set_eq. eauto.
      * rewrite assoc_get_set_ne by done.
        destruct Hx as [Hx|Hx]; [|by right].
        apply elem_of_cons in Hx as [->|Hx]; [done|by left].
Qed.

Lemma dict_comp_post {A} (P : string -> A -> Prop) (f : string -> M A)
    keys w d w' :
  dict_comp keys f w = (Ok d, w') ->
  (forall x a w1 w2, f x w1 = (Ok a, w2) -> P x a) ->
  (forall x a, assoc_get x d = Some a -> P x a) /\
  (forall x, x ∈ keys -> is_Some (assoc_get x d)).
Proof.
  intros H Hf. destruct (dict_comp_from_post P f keys [] w d w' H) as [H1 H2];
    [done|done|]. split; [done|]. intros x Hx. apply H2. by left.
Qed.

(** ** [load_datasets] *)

Section LoadDatasets.

Context (X : Collab).

(** C4: in the dataloaders that [load_datasets] returns, every phase other
    than [train] has no sampler and is not shuffled, whatever the
    [weights] field of the configuration is. *)
Theorem evaluation_loaders_are_sequential phases logfile w dataloaders rv sv w' :
  load_datasets X phases logfile w = (Ok (dataloaders, rv, sv), w') ->
  (forall x, x ∈ phases -> is_Some (assoc_get x dataloaders)) /\
  (forall x dl, x <> "train" -> assoc_get x dataloaders = Some dl ->
     dl_sampler dl = None /\ dl_shuffle dl = false).
Proof.
  intros H. unfold load_datasets in H. ok_run H.
  all: try match goal with
       | Hs : dict_comp _ _ _ = (Ok ?samplers, _) |- _ =>
           lazymatch type of samplers with
           | list (string * option Sampler) =>
               apply (dict_comp_post (fun x s => x <> "train" -> s = None))
                 in Hs as [Hs _];
               [| intros y a w1 w2 Hf Hy;
                  destruct (String.eqb_spec y "train"); [done|];
                  ok_run Hf; done ]
           end
       end.
  all: match goal with
       | Hd : dict_comp _ _ _ = (Ok ?d, _) |- _ =>
           lazymatch type of d with
           | list (string * DataLoader) =>
               apply (dict_comp_post
                        (fun x dl => x <> "train" ->
                           dl_sampler dl = None /\ dl_shuffle dl = false))
                 in Hd as [Hd1 Hd2];
               [| intros y a w1 w2 Hf Hy;
                  destruct (String.eqb_spec y "train"); [done|];
                  ok_run Hf; cbn; eauto ]
           end
       end.
  all: split; [done | intros; eauto].
Qed.

Lemma pickle_loads_app t1 t2 :
  pickle_loads (t1 ++ t2) = (pickle_loads t1 + pickle_loads t2)%nat.
Proof. unfold pickle_loads. by rewrite List.filter_app, length_app. Qed.

Lemma pickle_loads_quiet t :
  Forall (fun e => is_pickle_load e = false) t -> pickle_loads t = 0%nat.
Proof.
  unfold pickle_loads. induction 1 as [|e t He _ IH]; simpl; [done|].
  by rewrite He.
Qed.

Lemma dict_comp_extends {A} S keys (f : string -> M A) w r w' :
  (forall x, maintains (fun _ => True) S (f x) (fun _ => True)) ->
  dict_comp keys f w = (r, w') -> extends S w w'.
Proof.
  intros Hf H.
  destruct (maintains_dict_comp (fun _ => True) S f keys Hf w Logic.I)
    as (_ & He & _).
  by rewrite H in He.
Qed.

(** C7: when [load_datasets] returns, and the review and summary
    vocabulary file names are equal, the vocabulary was unpickled once and
    the summary vocabulary is the very object that is the review
    vocabulary; when the names differ, two loads made two distinct
    objects. *)
Theorem vocabulary_aliasing phases logfile w dataloaders rv sv w' data a b :
  load_datasets X phases logfile w = (Ok (dataloaders, rv, sv), w') ->
  subscript (w_config w) "data" = Ok data ->
  subscript data "review_vocab" = Ok a ->
  subscript data "summary_vocab" = Ok b ->
  is_Some (w_heap w' !! rv) /\ is_Some (w_heap w' !! sv) /\
  exists new,
    w_trace w' = w_trace w ++ new /\
    if py_eq a b
    then rv = sv /\ pickle_loads new = 1%nat
    else rv <> sv /\ pickle_loads new = 2%nat.
Proof.
  intros H Hdata Ha Hb. unfold load_datasets in H. ok_run H.
  all: same_lookups.
  all: repeat match goal with
       | Hd : dict_comp _ _ _ = _ |- _ =>
           apply (dict_comp_extends (fun e => is_pickle_load e = false)) in Hd;
           [ destruct Hd as (? & ? & ?)
           | intros; maintains_walk maintains_calls; done ]
       end.
  all: cbn [w_trace w_heap with_trace with_heap] in *.
  all: split; [eauto|]; split; [eauto|].
  all: repeat match goal with
       | E : w_trace _ = _ |- _ => rewrite E; clear E
       end.
  all: rewrite <- ?app_assoc; eexists; split; [reflexivity|].
  all: destruct (py_eq _ _); cbn [negb] in *; try discriminate.
  all: split;
    [ rewrite ?length_app; simpl; lia
    | rewrite ?pickle_loads_app;
      repeat match goal with
             | F : Forall _ ?n |- _ => rewrite (pickle_loads_quiet n F); clear F
             end;
      reflexivity ].
Qed.
End LoadDatasets.

Ltac by_cases_on_event :=
  intros e; destruct e; simpl; try done;
  match goal with m : logmsg |- _ => destruct m end; done.

(** ** [main] and the script *)

Section MainProofs.

Context (X : Collab).

Lemma select_optimizer_adam model w cls :
  subscript_at ["optim"; "class"] (w_config w) = Ok cls ->
  py_eq cls (VStr "sgd") = false ->
  py_eq cls (VStr "rmsprop") = false ->
  select_optimizer X model w =
  (params <- config_at ["optim"; "params"] ;;
   call_optimizer X Adam model params) w.
Proof.
  intros Hcls Hsgd Hrms. unfold select_optimizer.
  unfold bind at 1. unfold config_at at 1. unfold bind at 1.
  unfold get_config at 1, lift at 1. rewrite Hcls, Hsgd.
  unfold bind at 1. unfold config_at at 1. unfold bind at 1.
  unfold get_config at 1, lift at 1. rewrite Hcls, Hrms. reflexivity.
Qed.

Lemma maintains_select_optimizer_adam (I : value -> Prop) S cls model :
  (forall c, I c -> subscript_at ["optim"; "class"] c = Ok cls) ->
  py_eq cls (VStr "sgd") = false ->
  py_eq cls (VStr "rmsprop") = false ->
  (forall kw, S (EvOptimizer Adam kw)) ->
  maintains I S (select_optimizer X model) (fun _ => True).
Proof.
  intros HI Hsgd Hrms HS. unfold select_optimizer.
  maintains_walk maintains_calls; auto.
  all: repeat match goal with
       | H : exists c, _ /\ subscript_at ["optim"; "class"] c = Ok ?a |- _ =>
           destruct H as (? & Hc & Hv); rewrite (HI _ Hc) in Hv;
           injection Hv as <-
       end.
  all: congruence.
Qed.

(** C8: when [config['optim']['class']] is neither ['sgd'] nor
    ['rmsprop'], whatever else it is, selecting the optimizer gives what
    the constructor [optim.Adam] gives for the model and
    [config['optim']['params']], and records one construction, of Adam: the
    tag itself raises nothing, only the parameters or the constructor can;
    and every optimizer that a run of [main] builds is Adam. *)
Theorem unknown_optimizer_falls_back_to_adam model w cls :
  subscript_at ["optim"; "class"] (w_config w) = Ok cls ->
  py_eq cls (VStr "sgd") = false ->
  py_eq cls (VStr "rmsprop") = false ->
  let run := select_optimizer X model w in
  fst run =
    match subscript_at ["optim"; "params"] (w_config w) with
    | Ok params =>
        match kwargs params with
        | Ok kw => new_optimizer X Adam model kw
        | Err e => Err e
        end
    | Err e => Err e
    end /\
  (forall params kw,
     subscript_at ["optim"; "params"] (w_config w) = Ok params ->
     kwargs params = Ok kw ->
     w_trace (snd run) = w_trace w ++ [EvOptimizer Adam kw]) /\
  extends only_adam w (snd (main X w)).
Proof.
  intros Hcls Hsgd Hrms. cbv zeta.
  rewrite (select_optimizer_adam model w cls Hcls Hsgd Hrms).
  split; [|split].
  - unfold_prims.
    destruct (subscript_at ["optim"; "params"] (w_config w)) as [params|];
      [|done].
    destruct (kwargs params) as [kw|]; [|done].
    by destruct (new_optimizer X Adam model kw).
  - intros params kw Hp Hk. unfold_prims. rewrite Hp, Hk.
    by destruct (new_optimizer X Adam model kw).
  - pose (Inv := fun c => subscript_at ["optim"; "class"] c = Ok cls).
    assert (Hmain : maintains Inv only_adam (main X) (fun _ => True)).
    { unfold main.
      maintains_walk
        ltac:(first [ maintains_calls
                    | apply maintains_load_datasets
                    | apply maintains_build_model
                    | apply maintains_reload
                    | apply (maintains_select_optimizer_adam Inv only_adam cls) ]).
      all: try (by intros; simpl).
      all: try by_cases_on_event.
      - intros c c' Hc Hq. unfold Inv in *. simpl in *.
        by rewrite (Hq "optim").
      - by left. }
    by destruct (Hmain w Hcls) as (_ & ? & _).
Qed.

(** Every property of the configuration that [load_datasets] could
    disturb is left alone: in particular the object itself. *)
Lemma load_datasets_keeps_config phases logfile w r w' :
  load_datasets X phases logfile w = (r, w') -> w_config w' = w_config w.
Proof.
  intros H.
  destruct (maintains_load_datasets X (fun c => c = w_config w) (fun _ => True)
              phases logfile (fun _ _ => Logic.I) w eq_refl) as (Hc & _).
  by rewrite H in Hc.
Qed.

(** C5, as the driver behaves: with a [mode] that is neither ['train'] nor
    ['test'], [main] builds no optimizer, reloads no checkpoint and neither
    trains nor tests; and when it returns, it has loaded the datasets of
    the phases [train] and [val], built the model, and only then logged
    ["Invalid config mode"], as its last action. *)
Theorem invalid_mode_is_reported_after_building w mode :
  subscript (w_config w) "mode" = Ok mode ->
  py_eq mode (VStr "test") = false ->
  py_eq mode (VStr "train") = false ->
  let run := main X w in
  extends stops_before_training w (snd run) /\
  (fst run = Ok tt ->
   exists logfile dataloaders rv sv w1 model w2,
     load_datasets X ["train"; "val"] logfile
       (with_trace (w_trace w ++ [EvLog (LObj (w_config w)) logfile]) w) =
       (Ok (dataloaders, rv, sv), w1) /\
     build_model X rv sv logfile w1 = (Ok model, w2) /\
     snd run =
       with_trace
         (w_trace w2 ++
          [EvLog (LFormat "Invalid config mode %s !!" [mode]) logfile]) w2).
Proof.
  intros Hmode Htest Htrain. cbv zeta. split.
  - pose (Inv := fun c => subscript c "mode" = Ok mode).
    assert (Hmain : maintains Inv stops_before_training (main X) (fun _ => True)).
    { unfold main.
      maintains_walk
        ltac:(first [ maintains_calls
                    | apply maintains_load_datasets
                    | apply maintains_build_model
                    | apply maintains_reload
                    | apply maintains_select_optimizer ]).
      all: try (by intros; simpl).
      all: try by_cases_on_event.
      all: repeat match goal with
           | H : exists c, _ /\ subscript c "mode" = Ok ?a |- _ =>
               destruct H as (? & Hc & Hv); unfold Inv in Hc;
               rewrite Hc in Hv; injection Hv as <-
           end.
      all: try congruence.
      - intros c c' Hc' Hq. unfold Inv in *. by rewrite (Hq "mode").
      - by left. }
    by destruct (Hmain w Hmode) as (_ & ? & _).
  - intros Hok. destruct (main X w) as [r w'] eqn:H. simpl in Hok. subst r.
    unfold main in H. ok_run H.
    all: same_lookups.
    all: match goal with
         | Hl : load_datasets _ _ _ _ = _, Hb : build_model _ _ _ _ _ = _,
           Hm : subscript (w_config ?w2) "mode" = Ok ?m2 |- _ =>
             pose proof (load_datasets_keeps_config _ _ _ _ _ Hl) as Hkeep;
             destruct (build_model_returns _ _ _ _ _ _ _ Hb)
               as (? & ? & ? & ? & ? & ? & ? & ? &
                   _ & _ & _ & _ & _ & _ & _ & _ & _ & _ & Htop & _);
             rewrite (Htop "mode"), Hkeep in Hm by done;
             cbn [w_config with_trace] in Hm
         end.
    all: same_lookups.
    all: try congruence.
    rewrite Htest in *. cbn [snd]. eauto 10.
Qed.


Lemma run_bind {A B} (m : M A) (k : A -> M B) w :
  bind m k w =
  match m w with
  | (Ok a, w1) => k a w1
  | (Err e, w1) => (Err e, w1)
  end.
Proof. reflexivity. Qed.

Lemma yaml_load_ok path config w :
  w_fs w !! path = Some (FYaml config) ->
  yaml_load path w =
  (Ok tt, with_config config (with_trace (w_trace w ++ [EvYamlLoad path]) w)).
Proof. intros H. unfold yaml_load. unfold_prims. by rewrite H. Qed.

Lemma config_item_run k w :
  config_item k w = (subscript (w_config w) k, w).
Proof. reflexivity. Qed.

Lemma config_store_run path k x w :
  config_store path k x w =
  match setitem_at path k x (w_config w) with
  | Ok c' => (Ok tt, with_config c' w)
  | Err e => (Err e, w)
  end.
Proof. reflexivity. Qed.

Lemma py_and_unavailable v : truthy (py_and v (VBool false)) = false.
Proof. unfold py_and. by destruct (truthy v) eqn:E. Qed.

(** Once the flag is in place, [main] shows it to everything it calls. *)
Lemma main_sees_flag flag :
  maintains (fun c => subscript c "use_gpu" = Ok flag) (sees_flag flag)
    (main X) (fun _ => True).
Proof.
  unfold main.
  maintains_walk
    ltac:(first [ maintains_calls
                | apply maintains_load_datasets
                | apply maintains_build_model
                | apply maintains_reload
                | apply maintains_select_optimizer ]).
  all: try (by intros; simpl).
  all: try by_cases_on_event.
  all: repeat match goal with
       | H : exists c, _ /\ subscript c "use_gpu" = Ok ?a |- _ =>
           destruct H as (? & Hc & Hv); rewrite Hc in Hv; injection Hv as <-
       end.
  all: try done.
  - intros c c' Hc Hq. by rewrite (Hq "use_gpu").
  - destruct (truthy flag) eqn:E; [by left|right].
    intros c v Hc Hv. congruence.
Qed.

(** C10: the script replaces [config['use_gpu']] by
    [config['use_gpu'] and torch.cuda.is_available()] before [main] runs:
    whenever the configuration file gives [use_gpu], the configuration holds
    that value from then on, whatever the run does next and however it
    ends; the configuration that [main] logs, and the flag handed to
    training and testing, carry that value, and the model is moved to the
    accelerator only if it is truthy.  On a machine without an accelerator
    no run moves the model, whatever the configuration says. *)
Theorem use_gpu_is_gated_by_availability args w :
  let run := script X args w in
  (forall config configured,
     w_fs w !! arg_config args = Some (FYaml config) ->
     subscript config "use_gpu" = Ok configured ->
     subscript (w_config (snd run)) "use_gpu" =
       Ok (py_and configured (VBool (cuda_is_available X))) /\
     extends (sees_flag (py_and configured (VBool (cuda_is_available X))))
       w (snd run)) /\
  (cuda_is_available X = false -> extends (fun e => e <> EvCuda) w (snd run)).
Proof.
  cbv zeta.
  assert (Hflag : forall config configured,
     w_fs w !! arg_config args = Some (FYaml config) ->
     subscript config "use_gpu" = Ok configured ->
     subscript (w_config (snd (script X args w))) "use_gpu" =
       Ok (py_and configured (VBool (cuda_is_available X))) /\
     extends (sees_flag (py_and configured (VBool (cuda_is_available X))))
       w (snd (script X args w))).
  { intros config configured Hfs Hcfg.
    set (flag := py_and configured (VBool (cuda_is_available X))).
    destruct (setitem config "use_gpu" flag) as [config'|] eqn:Hset;
      [|by destruct config].
    unfold script. rewrite run_bind, (yaml_load_ok _ _ _ Hfs).
    cbv beta iota. rewrite run_bind, config_item_run.
    cbn [w_config with_config with_trace]. rewrite Hcfg.
    cbv beta iota zeta. rewrite run_bind, config_store_run.
    cbn [w_config with_config with_trace setitem_at]. fold flag. rewrite Hset.
    cbv beta iota.
    match goal with
    | |- _ /\ extends _ _ (snd (?m ?w2)) =>
        assert (Hrest : maintains (fun c => subscript c "use_gpu" = Ok flag)
                          (sees_flag flag) m (fun _ => True));
        [| destruct (Hrest w2) as (Hstored & Hext & _) ]
    end.
    - maintains_walk
        ltac:(first [ maintains_calls | apply main_sees_flag ]).
      all: try (by intros; simpl).
      all: intros c c' Hc Hs;
        first [ by rewrite (setitem_at_top _ _ _ _ _ _ "use_gpu" Hs)
              | by rewrite (subscript_setitem_ne _ _ _ _ "use_gpu" Hs) ].
    - cbn [w_config with_config]. eapply subscript_setitem_eq; eauto.
    - split; [exact Hstored|].
      eapply extends_trans; [|exact Hext].
      exists [EvYamlLoad (arg_config args)]. split; [done|].
      by repeat constructor. }
  split; [exact Hflag|].
  intros Hcuda.
  destruct (w_fs w !! arg_config args) as [f|] eqn:Hfs.
  2: { unfold script. unfold_prims. rewrite Hfs. cbn.
       apply extends_emit. done. }
  destruct f as [|config| | | |];
    try (unfold script; unfold_prims; rewrite Hfs; cbn;
         apply extends_emit; done).
  destruct (subscript config "use_gpu") as [configured|] eqn:Hcfg.
  - eapply extends_weaken; [|exact (proj2 (Hflag _ _ eq_refl Hcfg))].
    intros e He ->. simpl in He. rewrite Hcuda, py_and_unavailable in He.
    discriminate.
  - unfold script. rewrite run_bind, (yaml_load_ok _ _ _ Hfs).
    cbv beta iota. rewrite run_bind, config_item_run.
    cbn [w_config with_config with_trace]. rewrite Hcfg.
    cbn. apply extends_emit. done.
Qed.

End MainProofs.

(** ** The theorems at work on the small installation *)

Lemma reload_fresh_start_witness :
  let fresh :=
    Demo.world_of
      (Demo.config_of "train" false (Demo.data_section "review.pkl" []) []
         "adam") in
  let missing :=
    Demo.world_of
      (Demo.config_of "train" false (Demo.data_section "review.pkl" [])
         [("reload", VStr "last.pth")] "adam") in
  (* no [reload] key *)
  (exists w',
     reload (Demo.collab false) Demo.model (Some Demo.optimizer) None fresh =
       (Ok (Demo.model, Some Demo.optimizer, 0%Q, 0), w') /\
     w_config w' = w_config fresh /\ w_fs w' = w_fs fresh /\
     w_heap w' = w_heap fresh /\
     extends (fun e => exists msg, e = EvLog msg None) fresh w') /\
  (* a [reload] key, but nothing at runs/last.pth *)
  (exists w',
     reload (Demo.collab false) Demo.model None None missing =
       (Ok (Demo.model, None, 0%Q, 0), w') /\
     w_config w' = w_config missing /\ w_fs w' = w_fs missing /\
     w_heap w' = w_heap missing /\
     extends (fun e => exists msg, e = EvLog msg None) missing w').
Proof.
  cbv zeta. split.
  - apply (reload_fresh_start (Demo.collab false) Demo.model
             (Some Demo.optimizer) None _ (VStr "runs")
             (VDict [("params", Demo.params)])).
    + reflexivity.
    + reflexivity.
    + left. reflexivity.
  - apply (reload_fresh_start (Demo.collab false) Demo.model None None _
             (VStr "runs")
             (VDict [("params", Demo.params); ("reload", VStr "last.pth")])).
    + reflexivity.
    + reflexivity.
    + right. exists (VStr "last.pth"), "runs/last.pth".
      repeat split; reflexivity.
Defined.

Lemma reload_version_mismatch_witness :
  let run := reload (Demo.collab false) Demo.model (Some Demo.optimizer) None
               (Demo.world_of Demo.config) in
  py_eq (m_version Demo.model) (ck_model_version Demo.checkpoint) = false /\
  fst run =
    Ok ({| m_version := VStr "1.1";
           m_weights := ck_state_dict Demo.checkpoint;
           m_on_gpu := false |},
        Some {| o_class := Adam; o_kwargs := [];
                o_state := ck_optimizer Demo.checkpoint |},
        (3 # 4)%Q, 5).
Proof.
  cbv zeta. split; [reflexivity|].
  rewrite (proj1 (reload_version_mismatch (Demo.collab false) Demo.model
              (Some Demo.optimizer) None (Demo.world_of Demo.config)
              (VStr "runs")
              (VDict [("params", Demo.params); ("reload", VStr "best.pth")])
              (VStr "best.pth") "runs/best.pth" Demo.checkpoint
              eq_refl eq_refl eq_refl eq_refl eq_refl eq_refl eq_refl)).
  reflexivity.
Defined.

Lemma build_model_copies_witness :
  exists model w' new,
    build_model (Demo.collab true) 0%nat 0%nat None demo_loaded = (Ok model, w') /\
    w_trace w' = w_trace demo_loaded ++ new /\
    EvCopy review_lookup 0%nat ∈ new /\
    EvCopy summary_lookup 0%nat ∈ new /\
    m_weights model =
      [("review_lookup.weight", vectors Demo.vocab);
       ("summary_lookup.weight", vectors Demo.vocab)].
Proof.
  destruct (build_model (Demo.collab true) 0%nat 0%nat None demo_loaded)
    as [[model|] w'] eqn:H; [|vm_compute in H; discriminate].
  destruct (build_model_copies _ _ _ _ _ _ _ H)
    as (params & use_summary & new & rvo & svo & constructed & with_review &
        with_summary & Hp & Hu & Hrv & Hsv & (kw & Hhan) & Hreview &
        Hsummary & Hmodel & Ht & Hr & Hs & _).
  vm_compute in Hp. injection Hp as <-.
  vm_compute in Hu. injection Hu as <-.
  vm_compute in Hrv. injection Hrv as <-.
  vm_compute in Hsv. injection Hsv as <-.
  exists model, w', new. split; [reflexivity|]. split; [exact Ht|].
  split; [exact Hr|]. split; [apply Hs; split; reflexivity|].
  cbn in Hhan. injection Hhan as <-.
  vm_compute in Hreview. injection Hreview as <-.
  vm_compute in Hsummary. injection Hsummary as <-.
  destruct Hmodel as [->|Hcuda]; [reflexivity|].
  vm_compute in Hcuda. injection Hcuda as <-. reflexivity.
Defined.

Lemma evaluation_loaders_are_sequential_witness :
  exists dataloaders rv sv w' train val,
    load_datasets (Demo.collab false) ["train"; "val"] None Demo.weighted =
      (Ok (dataloaders, rv, sv), w') /\
    assoc_get "train" dataloaders = Some train /\
    dl_sampler train = Some [1%Q; 1%Q] /\
    assoc_get "val" dataloaders = Some val /\
    dl_sampler val = None /\ dl_shuffle val = false.
Proof.
  destruct (load_datasets (Demo.collab false) ["train"; "val"] None Demo.weighted)
    as [[[[dataloaders rv] sv]|] w'] eqn:H; [|vm_compute in H; discriminate].
  destruct (evaluation_loaders_are_sequential _ _ _ _ _ _ _ _ H) as [Hall Hval].
  destruct (assoc_get "val" dataloaders) as [val|] eqn:Ev.
  2: { vm_compute in H. injection H as <- _ _ _. discriminate Ev. }
  destruct (Hval "val" val ltac:(discriminate) Ev) as [Hs Hf].
  vm_compute in H. injection H as <- <- <- <-.
  eexists _, _, _, _, _, val.
  split; [reflexivity|]. split; [reflexivity|]. split; [reflexivity|].
  split; [exact Ev|]. split; [exact Hs|exact Hf].
Defined.

Lemma vocabulary_aliasing_witness :
  (* one file name: one load, one object *)
  (exists dataloaders rv sv w' new,
     load_datasets (Demo.collab false) ["test"] None (Demo.world_of Demo.config) =
       (Ok (dataloaders, rv, sv), w') /\
     w_trace w' = new /\ rv = sv /\ pickle_loads new = 1%nat) /\
  (* two file names, same content: two loads, two objects *)
  (exists dataloaders rv sv w' new,
     load_datasets (Demo.collab false) ["train"; "val"] None Demo.weighted =
       (Ok (dataloaders, rv, sv), w') /\
     w_trace w' = new /\ rv <> sv /\ pickle_loads new = 2%nat /\
     w_heap w' !! rv = w_heap w' !! sv).
Proof.
  split.
  - destruct (load_datasets (Demo.collab false) ["test"] None
                (Demo.world_of Demo.config))
      as [[[[dataloaders rv] sv]|] w'] eqn:H; [|vm_compute in H; discriminate].
    destruct (vocabulary_aliasing _ _ _ _ _ _ _ _
                (Demo.data_section "review.pkl" []) (VStr "review.pkl")
                (VStr "review.pkl") H eq_refl eq_refl eq_refl)
      as (_ & _ & new & Ht & Halias & Hloads).
    exists dataloaders, rv, sv, w', new. split; [reflexivity|].
    split; [exact Ht|]. split; [exact Halias|exact Hloads].
  - destruct (load_datasets (Demo.collab false) ["train"; "val"] None
                Demo.weighted)
      as [[[[dataloaders rv] sv]|] w'] eqn:H; [|vm_compute in H; discriminate].
    destruct (vocabulary_aliasing _ _ _ _ _ _ _ _
                (Demo.data_section "summary.pkl" [("weights", VStr "weighted")])
                (VStr "review.pkl") (VStr "summary.pkl") H eq_refl eq_refl eq_refl)
      as (_ & _ & new & Ht & Hdistinct & Hloads).
    exists dataloaders, rv, sv, w', new. split; [reflexivity|].
    split; [exact Ht|]. split; [exact Hdistinct|]. split; [exact Hloads|].
    vm_compute in H. injection H as <- <- <- <-. reflexivity.
Defined.

Lemma invalid_mode_counterexample :
  subscript (w_config Demo.invalid) "mode" = Ok (VStr "foo") /\
  py_eq (VStr "foo") (VStr "train") = false /\
  py_eq (VStr "foo") (VStr "test") = false /\
  fst (main (Demo.collab true) Demo.invalid) = Ok tt /\
  ~ rejects_before_loading (Demo.collab true) Demo.invalid.
Proof.
  split; [reflexivity|]. split; [reflexivity|]. split; [reflexivity|].
  split; [vm_compute; reflexivity|].
  intros H. apply (H (EvPickleLoad "data/review.pkl")).
  apply list_elem_of_In. vm_compute. tauto.
Qed.

Lemma invalid_mode_is_reported_after_building_witness :
  let run := main (Demo.collab true) Demo.invalid in
  extends stops_before_training Demo.invalid (snd run) /\
  exists logfile dataloaders rv sv w1 model w2,
    load_datasets (Demo.collab true) ["train"; "val"] logfile
      (with_trace
         (w_trace Demo.invalid ++ [EvLog (LObj (w_config Demo.invalid)) logfile])
         Demo.invalid) =
      (Ok (dataloaders, rv, sv), w1) /\
    build_model (Demo.collab true) rv sv logfile w1 = (Ok model, w2) /\
    snd run =
      with_trace
        (w_trace w2 ++
         [EvLog (LFormat "Invalid config mode %s !!" [VStr "foo"]) logfile]) w2.
Proof.
  cbv zeta.
  destruct (invalid_mode_is_reported_after_building (Demo.collab true)
              Demo.invalid (VStr "foo") eq_refl eq_refl eq_refl) as [H1 H2].
  split; [exact H1|]. apply H2. vm_compute. reflexivity.
Defined.

Lemma unknown_optimizer_falls_back_to_adam_witness :
  let w := Demo.world_of Demo.config in
  let run := select_optimizer (Demo.collab true) Demo.model w in
  subscript_at ["optim"; "class"] (w_config w) = Ok (VStr "adagrad") /\
  fst run =
    Ok {| o_class := Adam; o_kwargs := [("lr", VFloat (1 # 1000))];
          o_state := VNone |} /\
  w_trace (snd run) = [EvOptimizer Adam [("lr", VFloat (1 # 1000))]] /\
  extends only_adam w (snd (main (Demo.collab true) w)).
Proof.
  cbv zeta. split; [reflexivity|].
  destruct (unknown_optimizer_falls_back_to_adam (Demo.collab true) Demo.model
              (Demo.world_of Demo.config) (VStr "adagrad")
              eq_refl eq_refl eq_refl) as (Hresult & Htrace & Hmain).
  split; [exact Hresult|].
  split; [exact (Htrace _ _ eq_refl eq_refl)|exact Hmain].
Defined.

Lemma build_model_again_counterexample :
  subscript_at ["model"; "params"] (w_config demo_built) =
    Ok (VDict [("emb_size", VInt 2); ("use_summary", VBool true);
               ("review_vocab_size", VInt 3); ("summary_vocab_size", VInt 3);
               ("use_gpu", VBool true); ("combined_lookup", VBool false)]) /\
  (exists model w',
     build_model (Demo.collab true) 0%nat 0%nat None demo_built =
       (Ok model, w') /\
     w_config w' = w_config demo_built) /\
  ~ leaves_config_changed (Demo.collab true) 0%nat 0%nat None demo_built.
Proof.
  split; [vm_compute; reflexivity|].
  split.
  - eexists _, _. split; [vm_compute; reflexivity|]. reflexivity.
  - intros Hchanged. eapply Hchanged; [vm_compute; reflexivity|]. reflexivity.
Qed.

Lemma build_model_mutates_config_witness :
  exists model w' after,
    build_model (Demo.collab true) 0%nat 0%nat None demo_loaded = (Ok model, w') /\
    subscript_at ["model"; "params"] (w_config w') = Ok after /\
    subscript after "review_vocab_size" = Ok (VInt 3) /\
    subscript after "summary_vocab_size" = Ok (VInt 3) /\
    subscript after "use_gpu" = Ok (VBool true) /\
    subscript after "combined_lookup" = Ok (VBool false) /\
    w_config w' <> w_config demo_loaded.
Proof.
  destruct (build_model (Demo.collab true) 0%nat 0%nat None demo_loaded)
    as [[model|] w'] eqn:H; [|vm_compute in H; discriminate].
  destruct (build_model_mutates_config _ _ _ _ _ _ _ H)
    as (use_gpu & rvo & svo & before & after &
        Hgpu & Hrv & Hsv & Hb & Ha & H1 & H2 & H3 & H4 & H5 & _).
  vm_compute in Hgpu. injection Hgpu as <-.
  vm_compute in Hrv. injection Hrv as <-.
  vm_compute in Hsv. injection Hsv as <-.
  vm_compute in Hb. injection Hb as <-.
  exists model, w', after. split; [reflexivity|]. split; [exact Ha|].
  split; [exact H1|]. split; [exact H2|]. split; [exact H3|].
  split; [apply H4; reflexivity|].
  apply (H5 "review_vocab_size"); [|reflexivity].
  rewrite !elem_of_cons. by left.
Defined.

Lemma cuda_after_copies_witness :
  exists new pre,
    w_trace (snd (build_model (Demo.collab true) 0%nat 0%nat None demo_loaded)) =
      w_trace demo_loaded ++ new /\
    new = pre ++ [EvCuda] /\
    EvCopy review_lookup 0%nat ∈ pre.
Proof.
  destruct (cuda_after_copies (Demo.collab true) 0%nat 0%nat None demo_loaded)
    as (new & Htrace & _ & Hlast).
  destruct (Hlast
              {| m_version := VStr "1.1";
                 m_weights :=
                   [("review_lookup.weight", vectors Demo.vocab);
                    ("summary_lookup.weight", vectors Demo.vocab)];
                 m_on_gpu := true |}
              (VBool true))
    as (pre & Hnew & Hcopy).
  - vm_compute. reflexivity.
  - reflexivity.
  - reflexivity.
  - exists new, pre. split; [exact Htrace|]. split; [exact Hnew|exact Hcopy].
Defined.

Lemma use_gpu_is_gated_by_availability_witness :
  let w := Demo.boot Demo.config in
  let run := script (Demo.collab false) Demo.args w in
  subscript Demo.config "use_gpu" = Ok (VBool true) /\
  subscript (w_config (snd run)) "use_gpu" = Ok (VBool false) /\
  extends (sees_flag (VBool false)) w (snd run) /\
  extends (fun e => e <> EvCuda) w (snd run).
Proof.
  cbv zeta.
  destruct (use_gpu_is_gated_by_availability (Demo.collab false) Demo.args
              (Demo.boot Demo.config)) as [Hflag Hcuda].
  destruct (Hflag Demo.config (VBool true) eq_refl eq_refl) as [Hstored Hsees].
  split; [reflexivity|]. split; [exact Hstored|].
  split; [exact Hsees|exact (Hcuda eq_refl)].
Defined.

(** The script on a machine without an accelerator, with [use_gpu: true]
    in the file: the flag becomes [False] and the model stays where it is. *)
Example script_without_accelerator :
  let run := script (Demo.collab false) Demo.args (Demo.boot Demo.config) in
  fst run = Ok tt /\
  subscript (w_config (snd run)) "use_gpu" = Ok (VBool false) /\
  ~ In EvCuda (w_trace (snd run)).
Proof.
  cbv zeta. split; [vm_compute; reflexivity|]. split; [vm_compute; reflexivity|].
  vm_compute. intuition discriminate.
Qed.

(** The same file on a machine with an accelerator: the transfer is the
    last thing [build_model] does. *)
Example build_model_on_accelerator :
  exists model w',
    build_model (Demo.collab true) 0%nat 0%nat None demo_loaded = (Ok model, w') /\
    m_on_gpu model = true /\
    w_trace w' =
      w_trace demo_loaded ++
      [EvHAN [("emb_size", VInt 2); ("use_summary", VBool true);
              ("review_vocab_size", VInt 3); ("summary_vocab_size", VInt 3);
              ("use_gpu", VBool true)];
       EvLog (LModel Demo.model) None;
       EvCopy review_lookup 0%nat; EvCopy summary_lookup 0%nat; EvCuda].
Proof. eexists _, _. split; [vm_compute; reflexivity|]. split; reflexivity. Qed.

(** ** Python semantics at work *)

Example join_plain : join (VStr "runs") (VStr "best.pth") = Ok "runs/best.pth".
Proof. reflexivity. Qed.

Example join_empty_dir : join (VStr "") (VStr "test.json") = Ok "test.json".
Proof. reflexivity. Qed.

Example join_absolute : join (VStr "runs") (VStr "/tmp/x") = Ok "/tmp/x".
Proof. reflexivity. Qed.

Example join_not_str : join (VStr "runs") (VInt 3) = Err TypeError.
Proof. reflexivity. Qed.

Example and_keeps_falsy : py_and (VInt 0) (VBool true) = VInt 0.
Proof. reflexivity. Qed.

Example in_on_a_string : py_in "reload" (VStr "preloaded") = Ok true.
Proof. reflexivity. Qed.

Example store_appends :
  setitem_at ["model"; "params"] "use_gpu" (VBool true)
    (VDict [("model", VDict [("params", VDict [("emb_size", VInt 2)])])]) =
  Ok (VDict [("model",
              VDict [("params",
                      VDict [("emb_size", VInt 2); ("use_gpu", VBool true)])])]).
Proof. reflexivity. Qed.

(** * More of the driver *)

(** ** [collate_fn] *)

Lemma lookup_map {A B} (f : A -> B) (l : list A) (i : nat) :
  map f l !! i = f <$> l !! i.
Proof.
  revert i. induction l as [|a l IH]; intros [|i]; simpl; auto.
Qed.

Lemma forallb_map_true {A B} (f : B -> bool) (g : A -> B) l :
  forallb f (map g l) = true -> Forall (fun a => f (g a) = true) l.
Proof.
  induction l as [|a l IH]; simpl; [by constructor|].
  intros [Ha Hl]%andb_true_iff. constructor; auto.
Qed.

Lemma forallb_map_false {A B} (f : B -> bool) (g : A -> B) l :
  forallb f (map g l) = false -> Exists (fun a => f (g a) = false) l.
Proof.
  induction l as [|a l IH]; simpl; [done|].
  destruct (f (g a)) eqn:E; simpl.
  - intros Hl. apply Exists_cons_tl. auto.
  - intros _. by apply Exists_cons_hd.
Qed.

(** X1: [collate_fn] returns exactly when every label of the batch fits the
    64 bits of a [LongTensor], and raises when one does not.  What it
    returns are three lists as long as the batch, with the review, the
    summary and the label of the sample at a position at that position of
    the three lists. *)
Theorem collate_fn_is_coindexed batch :
  match collate_fn batch with
  | Ok (reviews, summaries, targets) =>
      Forall (fun s : sample => int64 (snd s) = true) batch /\
      length reviews = length batch /\
      length summaries = length batch /\
      length targets = length batch /\
      forall i review summary target,
        batch !! i = Some (review, summary, target) ->
        reviews !! i = Some review /\
        summaries !! i = Some summary /\
        targets !! i = Some target
  | Err _ => Exists (fun s : sample => int64 (snd s) = false) batch
  end.
Proof.
  unfold collate_fn. cbv zeta.
  match goal with
  | |- context [forallb ?f ?l] => destruct (forallb f l) eqn:E
  end.
  - split; [by apply forallb_map_true in E|].
    rewrite !length_map.
    split; [done|]. split; [done|]. split; [done|].
    intros i review summary target H.
    unfold sample in *. by rewrite !lookup_map, H.
  - by apply forallb_map_false in E.
Qed.

(** ** Rules for [steps] *)

Section StepRules.

Context (R : world -> world -> Prop) `{!PreOrder R}.
Context (Rtrace : forall w t, R w (with_trace t w)).

Lemma steps_bind {A B} (m : M A) (k : A -> M B) :
  steps R m -> (forall a, steps R (k a)) -> steps R (bind m k).
Proof.
  intros Hm Hk w. unfold bind. specialize (Hm w).
  destruct (m w) as [[a|e] w1]; simpl in *; [|done].
  etrans; [exact Hm|apply Hk].
Qed.

Lemma steps_pure {A} (m : M A) :
  (forall w, snd (m w) = w) -> steps R m.
Proof. intros H w. by rewrite H. Qed.

Lemma steps_ret {A} (a : A) : steps R (ret a).
Proof. by apply steps_pure. Qed.

Lemma steps_raise {A} e : steps R (@raise A e).
Proof. by apply steps_pure. Qed.

Lemma steps_lift {A} (r : result A) : steps R (lift r).
Proof. by apply steps_pure. Qed.

Lemma steps_get_config : steps R get_config.
Proof. by apply steps_pure. Qed.

Lemma steps_get_fs : steps R get_fs.
Proof. by apply steps_pure. Qed.

Lemma steps_config_item k : steps R (config_item k).
Proof. by apply steps_pure. Qed.

Lemma steps_config_at path : steps R (config_at path).
Proof. by apply steps_pure. Qed.

Lemma steps_emit e : steps R (emit e).
Proof. intros w. apply Rtrace. Qed.

Lemma steps_log msg lf : steps R (log msg lf).
Proof. apply steps_emit. Qed.

Lemma steps_open_file path : steps R (open_file path).
Proof.
  apply steps_pure. intros w. unfold open_file, bind, get_fs, raise, ret.
  by destruct (w_fs w !! path) as [[]|].
Qed.

Lemma steps_deref l : steps R (deref l).
Proof.
  apply steps_pure. intros w. unfold deref. by destruct (w_heap w !! l).
Qed.

Lemma steps_exists path : steps R (exists_ path).
Proof. by apply steps_pure. Qed.

Lemma steps_getitem {A} (d : list (string * A)) k : steps R (getitem d k).
Proof.
  apply steps_pure. intros w. unfold getitem. by destruct (assoc_get k d).
Qed.

Lemma steps_dict_comp_from {A} (f : string -> M A) keys acc :
  (forall x, steps R (f x)) -> steps R (dict_comp_from acc keys f).
Proof.
  intros Hf. revert acc. induction keys as [|x keys IH]; intros acc; simpl.
  - apply steps_ret.
  - apply steps_bind; [apply Hf|]. intros a. apply IH.
Qed.

Lemma steps_dict_comp {A} (f : string -> M A) keys :
  (forall x, steps R (f x)) -> steps R (dict_comp keys f).
Proof. apply steps_dict_comp_from. Qed.

Lemma steps_config_store path k x :
  (forall w c, setitem_at path k x (w_config w) = Ok c -> R w (with_config c w)) ->
  steps R (config_store path k x).
Proof.
  intros Rconfig w. unfold config_store.
  destruct (setitem_at path k x (w_config w)) eqn:E; simpl; [by apply Rconfig|done].
Qed.

Lemma steps_pickle_load path :
  (forall w v, R w (with_heap (w_heap w ++ [v]) w)) -> steps R (pickle_load path).
Proof.
  intros Rheap. unfold pickle_load.
  apply steps_bind; [apply steps_emit|intros _].
  apply steps_bind; [apply steps_open_file|intros f].
  destruct f; try apply steps_raise. intros w. apply Rheap.
Qed.

End StepRules.

(** The three relations compose. *)

Lemma only_logged_preorder : PreOrder only_logged.
Proof.
  split.
  - by intros w.
  - intros w1 w2 w3 (A1 & A2 & A3) (B1 & B2 & B3). unfold only_logged.
    by rewrite B1, B2, B3.
Qed.

Lemma only_allocated_preorder : PreOrder only_allocated.
Proof.
  split.
  - by intros w.
  - intros w1 w2 w3 (A1 & A2 & A3) (B1 & B2 & B3). unfold only_allocated.
    rewrite B1, B2. repeat split; try done. by etrans.
Qed.

Lemma only_configured_preorder : PreOrder only_configured.
Proof.
  split.
  - by intros w.
  - intros w1 w2 w3 (A1 & A2 & A3) (B1 & B2 & B3). unfold only_configured.
    rewrite B1, B2. repeat split; try done.
    intros q v Hq Hv. apply B3; [|done]. by apply A3.
Qed.

(** A store below an entry shows that the entry holds a mapping. *)
Lemma setitem_at_below p p' path k x c c' v :
  setitem_at (p :: p' :: path) k x c = Ok c' ->
  subscript c p = Ok v -> scalar v = false.
Proof.
  simpl. intros H Hv. rewrite Hv in H.
  destruct v; simpl in *; try discriminate. done.
Qed.

Ltac steps_base :=
  first
    [ apply steps_ret | apply steps_raise | apply steps_lift
    | apply steps_get_config | apply steps_get_fs | apply steps_config_item
    | apply steps_config_at | apply steps_emit | apply steps_log
    | apply steps_open_file | apply steps_deref | apply steps_exists
    | apply steps_getitem | apply steps_dict_comp
    | apply steps_config_store | apply steps_pickle_load ].

(** Walk through a computation; what is left are the facts about [R] that
    the steps taken need. *)
Ltac steps_walk :=
  repeat (
    cbv beta;
    lazymatch goal with
    | |- steps _ (bind _ _) => apply steps_bind
    | |- steps _ (match ?x with _ => _ end) => destruct x
    | |- steps _ _ => steps_base
    | |- forall _, steps _ _ => intros ?
    | |- PreOrder _ =>
        first [ exact only_logged_preorder | exact only_allocated_preorder
              | exact only_configured_preorder ]
    | _ => fail
    end).

Section StepsOfFunctions.

Context (X : Collab).

(** X2: no run of [load_datasets], whether it returns or raises, changes
    the configuration or the disk; the objects that were there stay, and
    new ones may be created. *)
Theorem load_datasets_only_allocates phases logfile :
  steps only_allocated (load_datasets X phases logfile).
Proof.
  unfold load_datasets, ReviewsDataset, call_get_sampler.
  steps_walk.
  all: try done.
  all: intros w v; repeat split; try done; by apply prefix_app_r.
Qed.

(** X3: no run of [build_model], whether it returns or raises, changes the
    disk or the objects, or an entry of the configuration that holds a
    scalar: the mode, the flag, the seed and the directories stay as they
    are. *)
Theorem build_model_only_configures rv sv logfile :
  steps only_configured (build_model X rv sv logfile).
Proof.
  unfold build_model, call_HAN, call_copy, call_cuda.
  steps_walk.
  all: try done.
  all: intros w c Hc; repeat split; try done.
  all: intros q v Hq Hv; cbn [w_config with_config].
  all: destruct (decide (q = "model")) as [->|Hne];
    [ rewrite (setitem_at_below _ _ _ _ _ _ _ _ Hc Hq) in Hv; discriminate
    | by rewrite (setitem_at_top _ _ _ _ _ _ q Hc) ].
Qed.

(** X4: no run of [reload], whether it returns or raises, changes the
    configuration, the disk or the objects: the restored state is in the
    values handed back, and only there. *)
Theorem reload_only_logs model optimizer logfile :
  steps only_logged (reload X model optimizer logfile).
Proof.
  unfold reload, torch_load, call_load_state_dict,
    call_optimizer_load_state_dict.
  steps_walk.
  all: done.
Qed.

End StepsOfFunctions.

(** ** More on dictionary comprehensions *)

(** A comprehension whose body keeps [J] and yields values in [P] ends in
    [J] with a dictionary that has exactly the keys asked for, each bound to
    a value in [P]. *)
Lemma dict_comp_from_inv {A} (J : world -> Prop) (P : string -> A -> Prop)
    (f : string -> M A) keys acc w d w' :
  dict_comp_from acc keys f w = (Ok d, w') ->
  J w ->
  (forall x a w1 w2, x ∈ keys -> J w1 -> f x w1 = (Ok a, w2) -> P x a /\ J w2) ->
  (forall x a, assoc_get x acc = Some a -> P x a) ->
  J w' /\
  (forall x a, assoc_get x d = Some a ->
     P x a /\ (x ∈ keys \/ is_Some (assoc_get x acc))) /\
  (forall x, x ∈ keys \/ is_Some (assoc_get x acc) -> is_Some (assoc_get x d)).
Proof.
  revert acc w. induction keys as [|k keys IH]; intros acc w H HJ Hf Hacc;
    simpl in H.
  - injection H as <- <-. split; [done|]. split.
    + intros x a Hx. split; [eauto|]. right. eauto.
    + intros x [Hx|Hx]; [by apply elem_of_nil in Hx|done].
  - apply bind_ok in H as (a & w1 & Hk & H).
    destruct (Hf k a w w1) as [HP HJ1]; [by left|done|done|].
    destruct (IH (assoc_set k a acc) w1 H HJ1) as (IJ & IP & IK).
    + intros x b w2 w3 Hx. apply Hf. by right.
    + intros x b. destruct (decide (k = x)) as [->|Hne].
      * rewrite assoc_get_set_eq. by intros [= <-].
      * rewrite assoc_get_set_ne by done. auto.
    + split; [done|]. split.
      * intros x b Hx. destruct (IP x b Hx) as [HPx Hin]. split; [done|].
        destruct Hin as [Hin|Hin]; [left; by right|].
        destruct (decide (k = x)) as [->|Hne]; [left; by left|].
        rewrite assoc_get_set_ne in Hin by done. by right.
      * intros x Hx. apply IK.
        destruct (decide (k = x)) as [->|Hne].
        -- right. rewrite assoc_get_set_eq. eauto.
        -- rewrite assoc_get_set_ne by done.
           destruct Hx as [Hx|Hx]; [|by right].
           apply elem_of_cons in Hx as [->|Hx]; [done|by left].
Qed.

Lemma dict_comp_inv {A} (J : world -> Prop) (P : string -> A -> Prop)
    (f : string -> M A) keys w d w' :
  dict_comp keys f w = (Ok d, w') ->
  J w ->
  (forall x a w1 w2, x ∈ keys -> J w1 -> f x w1 = (Ok a, w2) -> P x a /\ J w2) ->
  J w' /\
  (forall x a, assoc_get x d = Some a -> P x a /\ x ∈ keys) /\
  (forall x, x ∈ keys -> is_Some (assoc_get x d)).
Proof.
  intros H HJ Hf.
  destruct (dict_comp_from_inv J P f keys [] w d w' H HJ Hf) as (H1 & H2 & H3);
    [done|].
  split; [done|]. split; [|intros x Hx; apply H3; by left].
  intros x a Hx. destruct (H2 x a Hx) as [HP [Hin|[? [=]]]]. done.
Qed.

Section MoreLoadDatasets.

Context (X : Collab).

(** X5: when [load_datasets] returns, the loaders it hands back are those
    of the phases asked for, and no others; the loader of a phase wraps the
    samples of the file [data.dir/data.<phase>.jsonfile] as it was on disk,
    with the two vocabularies handed back, the [batch_size] of the phase
    and [collate_fn]. *)
Theorem dataloaders_wrap_the_phase_files phases logfile w dataloaders rv sv w'
    data dir :
  load_datasets X phases logfile w = (Ok (dataloaders, rv, sv), w') ->
  subscript (w_config w) "data" = Ok data ->
  subscript data "dir" = Ok dir ->
  (forall x, is_Some (assoc_get x dataloaders) <-> x ∈ phases) /\
  (forall x dl, assoc_get x dataloaders = Some dl ->
     exists section file path,
       subscript data x = Ok section /\
       subscript section "jsonfile" = Ok file /\
       join dir file = Ok path /\
       w_fs w !! path = Some (FJson (ds_samples (dl_dataset dl))) /\
       ds_data (dl_dataset dl) = path /\
       ds_review_vocab (dl_dataset dl) = rv /\
       ds_summary_vocab (dl_dataset dl) = sv /\
       subscript section "batch_size" = Ok (dl_batch_size dl) /\
       dl_collate_fn dl = collate_fn).
Proof.
  intros H Hdata Hdir.
  match goal with
  | |- ?G =>
      assert (Hgen : forall r0 w0,
                 load_datasets X phases logfile w = (Ok r0, w0) ->
                 r0 = (dataloaders, rv, sv) -> G);
      [clear H | exact (Hgen _ _ H eq_refl)]
  end.
  intros r0 w0 H. unfold load_datasets in H.
  ok_run H; intros Er; injection Er as Edl Erv Esv;
  repeat match goal with
         | H1 : ?x = Ok ?a, H2 : ?x = Ok ?b |- _ =>
             first [ constr_eq a b; clear H2
                   | is_var b; assert (b = a) by congruence; subst b; clear H2 ]
         end;
  match goal with
  | Hd : subscript (w_config ?w0) "data" = Ok ?data,
    Hr : subscript ?data "dir" = Ok ?dir |- _ =>
      (* the file names *)
      match goal with
      | Hf : dict_comp _ _ _ = (Ok ?d, _) |- _ =>
          lazymatch type of d with
          | list (string * value) =>
              apply (dict_comp_inv (fun w1 => w_fs w1 = w_fs w0)
                       (fun x file => exists section,
                          subscript data x = Ok section /\
                          subscript section "jsonfile" = Ok file))
                in Hf as (J1 & Pfiles & _);
              [ | done
                | intros y a w1 w2 _ HJ Hy; ok_run Hy; eauto ]
          end
      end;
      (* the datasets *)
      match goal with
      | Hf : dict_comp _ _ _ = (Ok ?d, _) |- _ =>
          lazymatch type of d with
          | list (string * Dataset) =>
              apply (dict_comp_inv (fun w1 => w_fs w1 = w_fs w0)
                       (fun x ds => exists section file path,
                          subscript data x = Ok section /\
                          subscript section "jsonfile" = Ok file /\
                          join dir file = Ok path /\
                          w_fs w0 !! path = Some (FJson (ds_samples ds)) /\
                          ds_data ds = path /\
                          ds_review_vocab ds = rv /\
                          ds_summary_vocab ds = sv))
                in Hf as (_ & Psets & _);
              [ | done
                | intros y a w1 w2 _ HJ Hy; ok_run Hy;
                  cbn [w_fs with_trace ds_samples ds_data ds_review_vocab
                       ds_summary_vocab] in *;
                  match goal with
                  | Hg : assoc_get y _ = Some _ |- _ =>
                      destruct (Pfiles _ _ Hg) as [(section & ? & ?) _]
                  end;
                  repeat match goal with
                         | H1 : ?x = Ok ?a, H2 : ?x = Ok ?b |- _ =>
                             first [ constr_eq a b; clear H2
                                   | is_var b; assert (b = a) by congruence;
                                     subst b; clear H2 ]
                         end;
                  split; [|done]; exists section; eexists _, _;
                  rewrite <- HJ; repeat split; eauto ]
          end
      end;
      (* the dataloaders *)
      match goal with
      | Hf : dict_comp _ _ _ = (Ok ?d, _),
        Ps : forall x a, assoc_get x ?dsets = Some a -> _ |- _ =>
          lazymatch type of d with
          | list (string * DataLoader) =>
              lazymatch type of dsets with
              | list (string * Dataset) =>
                  apply (dict_comp_inv (fun _ => True)
                           (fun x dl => exists section,
                              assoc_get x dsets = Some (dl_dataset dl) /\
                              subscript data x = Ok section /\
                              subscript section "batch_size" =
                                Ok (dl_batch_size dl) /\
                              dl_collate_fn dl = collate_fn))
                    in Hf as (_ & Ploaders & Hkeys);
                  [ | done
                    | intros y a w1 w2 _ _ Hy; ok_run Hy; split; [|done];
                      eexists; repeat split; eauto ]
              end
          end
      end
  end.
  all: subst dataloaders; split.
  all: try (intros y; split;
            [ intros [dl Hdl]; by destruct (Ploaders _ _ Hdl) | by apply Hkeys ]).
  all: intros y dl Hdl;
    destruct (Ploaders _ _ Hdl) as [(section & Hds & Hsec & Hbs & Hcf) _];
    destruct (Psets _ _ Hds)
      as [(section' & file & path & Hsec' & ? & ? & ? & ? & ? & ?) _];
    assert (section' = section) by congruence; subst section';
    by exists section, file, path.
Qed.

End MoreLoadDatasets.

Section LoaderPolicy.

Context (X : Collab).

(** X6: when [load_datasets] returns, a loader that shuffles is the one of
    the phase [train] and has no sampler: no loader is given both. *)
Theorem only_train_is_shuffled phases logfile w dataloaders rv sv w' :
  load_datasets X phases logfile w = (Ok (dataloaders, rv, sv), w') ->
  forall x dl, assoc_get x dataloaders = Some dl ->
    dl_shuffle dl = true -> x = "train" /\ dl_sampler dl = None.
Proof.
  intros H. unfold load_datasets in H. ok_run H.
  all: match goal with
       | Hd : dict_comp _ _ _ = (Ok ?d, _) |- _ =>
           lazymatch type of d with
           | list (string * DataLoader) =>
               apply (dict_comp_post
                        (fun x dl => dl_shuffle dl = true ->
                                     x = "train" /\ dl_sampler dl = None))
                 in Hd as [Hd _];
               [ done
               | intros y a w1 w2 Hf; ok_run Hf; cbn;
                 destruct (String.eqb_spec y "train"); done ]
           end
       end.
Qed.

(** X7: when [load_datasets] returns, the loader of the phase [train]
    follows [data.weights]: with a truthy value it does not shuffle and
    draws with the sampler that the train dataset computes, from no
    argument for ['weighted'] and from the value itself otherwise; with no
    value or a falsy one it shuffles and has no sampler. *)
Theorem train_loader_follows_weights phases logfile w dataloaders rv sv w'
    data dl :
  load_datasets X phases logfile w = (Ok (dataloaders, rv, sv), w') ->
  subscript (w_config w) "data" = Ok data ->
  assoc_get "train" dataloaders = Some dl ->
  match subscript data "weights" with
  | Ok weights =>
      if truthy weights then
        dl_shuffle dl = false /\
        exists sampler,
          dl_sampler dl = Some sampler /\
          get_sampler X (dl_dataset dl)
            (if py_eq weights (VStr "weighted") then None else Some weights) =
            Ok sampler
      else dl_shuffle dl = true /\ dl_sampler dl = None
  | Err _ => dl_shuffle dl = true /\ dl_sampler dl = None
  end.
Proof.
  intros H Hdata Hdl.
  match goal with
  | |- ?G =>
      assert (Hgen : forall r0 w0,
                 load_datasets X phases logfile w = (Ok r0, w0) ->
                 r0 = (dataloaders, rv, sv) -> G);
      [clear H | exact (Hgen _ _ H eq_refl)]
  end.
  intros r0 w0 H. unfold load_datasets in H.
  ok_run H; intros Er; injection Er as Edl _ _; subst dataloaders;
  repeat match goal with
         | H1 : ?x = Ok ?a, H2 : ?x = Ok ?b |- _ =>
             first [ constr_eq a b; clear H2
                   | is_var b; assert (b = a) by congruence; subst b; clear H2 ]
         end.
  (* the samplers, when there are any *)
  all: try match goal with
       | Hs : dict_comp _ _ _ = (Ok ?d, _) |- _ =>
           lazymatch type of d with
           | list (string * option Sampler) =>
               match goal with
               | Hw : subscript _ "weights" = Ok ?weights,
                 Ps : dict_comp _ _ _ = (Ok ?dsets, _) |- _ =>
                   lazymatch type of dsets with
                   | list (string * Dataset) =>
                       apply (dict_comp_post
                                (fun x s => x = "train" ->
                                   exists ds sampler,
                                     assoc_get x dsets = Some ds /\
                                     get_sampler X ds
                                       (if py_eq weights (VStr "weighted")
                                        then None else Some weights) =
                                       Ok sampler /\
                                     s = Some sampler))
                         in Hs as [Hs _];
                       [| intros y a w1 w2 Hf ->; cbn in Hf; ok_run Hf;
                          repeat match goal with
                                 | H1 : ?x = Ok ?a, H2 : ?x = Ok ?b |- _ =>
                                     first [ constr_eq a b; clear H2
                                           | is_var b;
                                             assert (b = a) by congruence;
                                             subst b; clear H2 ]
                                 end;
                          match goal with
                          | E : py_eq _ _ = _ |- _ => rewrite E
                          end; eauto ]
                   end
               end
           end
       end.
  (* the dataloaders *)
  all: match goal with
       | Hd : dict_comp _ _ _ = (Ok ?d, _) |- _ =>
           lazymatch type of d with
           | list (string * DataLoader) =>
               first
                 [ match goal with
                   | Hs : forall x a, assoc_get x _ = Some a -> x = "train" ->
                            exists ds sampler,
                              _ /\ get_sampler X ds ?arg = _ /\ _ |- _ =>
                       apply (dict_comp_post
                                (fun x dl => x = "train" ->
                                   dl_shuffle dl = false /\
                                   exists sampler,
                                     dl_sampler dl = Some sampler /\
                                     get_sampler X (dl_dataset dl) arg =
                                       Ok sampler))
                         in Hd as [Ptrain _];
                       [| intros y a w1 w2 Hf ->; ok_run Hf; cbn;
                          match goal with
                          | Hg : assoc_get "train" _ = Some _ |- _ =>
                              destruct (Hs _ _ Hg eq_refl)
                                as (ds & sampler & ? & ? & ->)
                          end;
                          split; [done|]; eexists; split; [done|]; congruence ]
                   end
                 | apply (dict_comp_post
                            (fun x dl => x = "train" ->
                               dl_shuffle dl = true /\ dl_sampler dl = None))
                     in Hd as [Ptrain _];
                   [| intros y a w1 w2 Hf ->; ok_run Hf; by cbn ] ]
           end
       end.
  all: specialize (Ptrain _ _ Hdl eq_refl).
  all: destruct (subscript _ "weights") as [weights|] eqn:Ew; try done.
  all: try (exfalso; match goal with
            | Hin : py_in "weights" _ = Ok ?b |- _ =>
                destruct b; [done|]; by eapply py_in_subscript
            end).
  all: simplify_eq.
  all: repeat match goal with
              | Hb : negb _ = true |- _ => apply negb_true_iff in Hb
              | Hb : negb _ = false |- _ => apply negb_false_iff in Hb
              end.
  all: repeat match goal with
              | Hb : truthy _ = _ |- _ => rewrite Hb
              end; done.
Qed.
End LoaderPolicy.

(** ** What is fatal in [load_datasets], and what [build_model] is made of *)

Section Fatal.

Context (X : Collab).

(** X8: a review vocabulary file that is not on disk is fatal:
    [load_datasets] raises [FileNotFoundError] for the joined path after the
    first log line and the attempt to load, and creates no object. *)
Theorem missing_vocabulary_is_fatal phases logfile w data dir name path :
  subscript (w_config w) "data" = Ok data ->
  subscript data "dir" = Ok dir ->
  subscript data "review_vocab" = Ok name ->
  join dir name = Ok path ->
  w_fs w !! path = None ->
  let run := load_datasets X phases logfile w in
  fst run = Err (FileNotFoundError path) /\
  w_trace (snd run) =
    w_trace w ++ [EvLog (LStr "Loading vocabularies...") logfile;
                  EvPickleLoad path] /\
  w_heap (snd run) = w_heap w /\ w_config (snd run) = w_config w.
Proof.
  intros Hdata Hdir Hname Hjoin Hfs. cbv zeta.
  unfold load_datasets. unfold_prims.
  rewrite Hdata, Hdir, Hname, Hjoin. cbn. rewrite Hfs. cbn.
  by rewrite <- app_assoc.
Qed.

End Fatal.

Section Pipeline.

Context (X : Collab).

(** X9: a call of [build_model] that returns yields the model that [HAN]
    constructed, after [copy_] of the review vectors into it, then [copy_] of
    the summary vectors when summaries are used with a lookup of their own,
    then [cuda()] when [use_gpu] is truthy.  The constructor gets the
    parameter section with the two vocabulary sizes and [use_gpu] stored in
    it, and nothing else changed: a [combined_lookup] the section lacks is
    not passed, the default being stored after the construction. *)
Theorem build_model_composes_collaborators rv sv logfile w model w' :
  build_model X rv sv logfile w = (Ok model, w') ->
  exists use_gpu rvo svo before use_summary kw m0 m1 m2,
    subscript (w_config w) "use_gpu" = Ok use_gpu /\
    w_heap w !! rv = Some rvo /\ w_heap w !! sv = Some svo /\
    subscript_at ["model"; "params"] (w_config w) = Ok before /\
    subscript before "use_summary" = Ok use_summary /\
    assoc_get "review_vocab_size" kw = Some (VInt (vocab_len rvo)) /\
    assoc_get "summary_vocab_size" kw = Some (VInt (vocab_len svo)) /\
    assoc_get "use_gpu" kw = Some use_gpu /\
    (forall q, q <> "review_vocab_size" -> q <> "summary_vocab_size" ->
               q <> "use_gpu" -> subscript (VDict kw) q = subscript before q) /\
    (py_in "combined_lookup" before = Ok false ->
       assoc_get "combined_lookup" kw = None) /\
    HAN X kw = Ok m0 /\
    copy_ X review_lookup m0 (vectors rvo) = Ok m1 /\
    (if truthy use_summary && negb (truthy (effective_combined_lookup before))
     then copy_ X summary_lookup m1 (vectors svo) = Ok m2
     else m2 = m1) /\
    (if truthy use_gpu then cuda X (cuda_is_available X) m2 = Ok model
     else model = m2).
Proof. apply build_model_pipeline. Qed.

End Pipeline.

(** ** More on [reload] *)

(** The trace of a finished run, as the old trace and what was added. *)
Ltac split_trace :=
  cbn [fst snd w_config w_fs w_heap w_trace
       with_config with_fs with_heap with_trace];
  eexists; split;
  [ first [ rewrite <- ?app_assoc; reflexivity
          | exact (eq_sym (app_nil_r _)) ] |].

Section MoreReload.

Context (X : Collab).

(** X10: a call of [reload] that returns has either loaded nothing, and then
    hands back what it was given with score and epoch 0, or has read a
    checkpoint file at the path [save_dir/reload], and then hands back the
    model and the optimizer after their [load_state_dict] with the score and
    the epoch of that checkpoint. *)
Theorem reload_returns_fresh_or_checkpoint model optimizer logfile w
    m o f e w' :
  reload X model optimizer logfile w = (Ok (m, o, f, e), w') ->
  exists new, w_trace w' = w_trace w ++ new /\
    ((m = model /\ o = optimizer /\ f == 0 /\ e = 0 /\
      forall path, EvTorchLoad path ∉ new) \/
     exists save_dir section name path ck,
       subscript (w_config w) "save_dir" = Ok save_dir /\
       subscript (w_config w) "model" = Ok section /\
       subscript section "reload" = Ok name /\
       join save_dir name = Ok path /\
       w_fs w !! path = Some (FCheckpoint ck) /\
       EvTorchLoad path ∈ new /\
       load_state_dict X model (ck_state_dict ck) = Ok m /\
       f = ck_fscore ck /\ e = ck_epoch ck /\
       match optimizer with
       | None => o = None
       | Some given =>
           exists o', optimizer_load_state_dict X given (ck_optimizer ck) = Ok o'
                      /\ o = Some o'
       end).
Proof.
  intros H. unfold reload in H. run_in H; try discriminate.
  all: injection H as <- <- <- <- <-.
  all: split_trace.
  all: first
         [ left; repeat split; try done; intros path Hin; set_solver
         | right; do 5 eexists; repeat split; try eassumption; try done;
           try set_solver; eauto ].
Qed.

(** X11: a path [save_dir/reload] that exists but holds no checkpoint, a
    directory or a file that [torch.load] cannot read, is fatal and no
    fresh start: [reload] raises from [torch.load], after the line that
    announces the load, and loads no state.  A directory gives
    [IsADirectoryError] and an empty file [EOFError]. *)
Theorem reload_unreadable_checkpoint_is_fatal model optimizer logfile w
    save_dir section name path f :
  subscript (w_config w) "save_dir" = Ok save_dir ->
  subscript (w_config w) "model" = Ok section ->
  py_in "reload" section = Ok true ->
  subscript section "reload" = Ok name ->
  join save_dir name = Ok path ->
  w_fs w !! path = Some f ->
  (forall ck, f <> FCheckpoint ck) ->
  let run := reload X model optimizer logfile w in
  (exists e, fst run = Err e /\
     (f = FDir -> e = IsADirectoryError path) /\
     (f = FText "" -> e = EOFError)) /\
  w_trace (snd run) =
    w_trace w ++
    [EvLog (LFormat "=> loading checkpoint/model found at '{0}'" [VStr path])
       logfile;
     EvTorchLoad path] /\
  w_config (snd run) = w_config w /\ w_fs (snd run) = w_fs w.
Proof.
  intros Hdir Hsec Hin Hname Hjoin Hfs Hno. cbv zeta.
  unfold reload. unfold_prims.
  rewrite Hdir, Hsec, Hin, Hname, Hjoin, Hfs. cbn. rewrite Hfs.
  destruct f as [| | | |ck|content]; cbn; rewrite <- ?app_assoc;
    try (split; [eexists; split; [reflexivity|]; by split|done]).
  - by destruct (Hno ck).
  - destruct content; cbn;
      (split; [eexists; split; [reflexivity|]; by split|done]).
Qed.

(** X12: in every run of [reload], a line logged is one of three: the
    line that announces the load or the line that finds no checkpoint,
    both to the log file given, or the version warning, logged without a
    log file whatever file was given, and only after [torch.load] of a
    checkpoint whose version differs from the model's. *)
Theorem reload_warns_only_on_mismatch model optimizer logfile w :
  exists new, w_trace (snd (reload X model optimizer logfile w)) =
              w_trace w ++ new /\
    forall msg lf, EvLog msg lf ∈ new ->
      (lf = logfile /\
       exists path,
         msg = LFormat "=> loading checkpoint/model found at '{0}'"
                 [VStr path] \/
         msg = LFormat "no checkpoint/model found at '{0}'" [VStr path]) \/
      (lf = None /\
       exists path ck,
         w_fs w !! path = Some (FCheckpoint ck) /\
         EvTorchLoad path ∈ new /\
         py_eq (m_version model) (ck_model_version ck) = false /\
         msg = LFormat
                 "Model version mismatch: current version={}, checkpoint version={}"
                 [m_version model; ck_model_version ck]).
Proof.
  destruct (reload X model optimizer logfile w) as [r w'] eqn:H.
  unfold reload in H. run_in H.
  all: injection H as <- <-; cbn [snd w_trace with_trace].
  all: split_trace.
  all: intros msg lf Hin.
  all: repeat match goal with
              | Hb : negb _ = true |- _ => apply negb_true_iff in Hb
              end.
  all: set_unfold in Hin; destruct_or?; simplify_eq; eauto 6.
  all: right; split; [done|]; do 2 eexists; repeat split; try eassumption.
  all: set_solver.
Qed.

End MoreReload.

(** ** Finer rules for the functions of the driver *)

Section KeyedRules.

Context (Inv : value -> Prop) (S : event -> Prop).

Lemma maintains_dict_comp_from_on {A} (f : string -> M A) keys acc :
  (forall x, x ∈ keys -> maintains Inv S (f x) (fun _ => True)) ->
  maintains Inv S (dict_comp_from acc keys f) (fun _ => True).
Proof.
  revert acc. induction keys as [|x keys IH]; intros acc Hf; simpl.
  - eapply maintains_weaken; [apply maintains_ret|done].
  - eapply maintains_bind; [apply Hf; set_solver|]. intros a _.
    apply IH. intros y Hy. apply Hf. set_solver.
Qed.

Lemma maintains_dict_comp_on {A} (f : string -> M A) keys :
  (forall x, x ∈ keys -> maintains Inv S (f x) (fun _ => True)) ->
  maintains Inv S (dict_comp keys f) (fun _ => True).
Proof. apply maintains_dict_comp_from_on. Qed.

End KeyedRules.

(** As [maintains_walk], with the keys of a comprehension at hand. *)
Ltac maintains_walk_on call :=
  repeat (
    cbv beta in *;
    lazymatch goal with
    | |- maintains _ _ (bind ?m _) _ =>
        lazymatch m with
        | match _ with _ => _ end =>
            eapply (maintains_bind _ _ _ _ (fun _ => True)); [|intros ? _]
        | _ => eapply maintains_bind; [|intros ? ?]
        end
    | |- maintains _ _ (match ?x with _ => _ end) _ => destruct x eqn:?
    | |- maintains _ _ (dict_comp _ _) _ =>
        eapply maintains_weaken;
        [ apply maintains_dict_comp_on; intros ? ? | try maintains_post ]
    | |- maintains _ _ _ _ =>
        eapply maintains_weaken;
        [ first [ maintains_base | call ] | try maintains_post ]
    end).

Section FinerRules.

Context (X : Collab) (Inv : value -> Prop) (S : event -> Prop).

(** [load_datasets] logs to the file it is given, and asks for a sampler
    only when [train] is among the phases. *)
Lemma maintains_load_datasets_on phases logfile :
  (forall s, S (EvLog (LStr s) logfile)) ->
  (forall sizes, S (EvLog (LSizes sizes) logfile)) ->
  (forall args, S (EvLog (LFormat "review vocab size: {}" args) logfile)) ->
  (forall args, S (EvLog (LFormat "summary vocab size: {}" args) logfile)) ->
  (forall p, S (EvPickleLoad p)) ->
  (forall d rv sv, S (EvReviewsDataset d rv sv)) ->
  ("train" ∈ phases -> forall d weights, S (EvGetSampler d weights)) ->
  maintains Inv S (load_datasets X phases logfile) (fun _ => True).
Proof.
  intros Hstr Hsizes Hrv Hsv Hpickle Hds Hsampler. unfold load_datasets.
  maintains_walk_on maintains_calls; auto.
  all: apply Hsampler;
    match goal with
    | E : String.eqb ?x "train" = true |- _ =>
        apply String.eqb_eq in E; by subst x
    end.
Qed.

(** [build_model] logs to the file it is given. *)
Lemma maintains_build_model_to rv sv logfile :
  ignores "model" Inv ->
  (forall model, S (EvLog (LModel model) logfile)) ->
  (forall kw, S (EvHAN kw)) -> (forall t v, S (EvCopy t v)) -> S EvCuda ->
  maintains Inv S (build_model X rv sv logfile) (fun _ => True).
Proof.
  intros HI Hlog Hhan Hcopy Hcuda. unfold build_model.
  assert (Hstore : forall k x c c',
             Inv c -> setitem_at ["model"; "params"] k x c = Ok c' -> Inv c').
  { intros k x c c' Hc Hset. eapply HI; eauto.
    intros q Hq. eapply setitem_at_top; eauto. }
  maintains_walk maintains_calls; eauto.
Qed.

(** [reload] logs to the file it is given, the version warning apart, and
    touches the optimizer only when it is given one. *)
Lemma maintains_reload_to model optimizer logfile :
  (forall args, S (EvLog (LFormat "=> loading checkpoint/model found at '{0}'"
                            args) logfile)) ->
  (forall args, S (EvLog (LFormat "no checkpoint/model found at '{0}'" args)
                     logfile)) ->
  (forall args,
     S (EvLog (LFormat
                 "Model version mismatch: current version={}, checkpoint version={}"
                 args) None)) ->
  (forall p, S (EvTorchLoad p)) -> S EvLoadStateDict ->
  (is_Some optimizer -> S EvOptimizerLoadStateDict) ->
  maintains Inv S (reload X model optimizer logfile) (fun _ => True).
Proof.
  intros H1 H2 H3 H4 H5 H6. unfold reload.
  maintains_walk maintains_calls; auto.
Qed.

End FinerRules.

Section Modes.

Context (X : Collab).

(** X13: with [mode] set to ['test'], no run of [main] computes a sampler,
    builds or restores an optimizer, makes a scheduler or trains. *)
Theorem test_mode_never_trains w :
  subscript (w_config w) "mode" = Ok (VStr "test") ->
  extends evaluates w (snd (main X w)).
Proof.
  intros Hmode.
  pose (Inv := fun c => subscript c "mode" = Ok (VStr "test")).
  assert (Hmain : maintains Inv evaluates (main X) (fun _ => True)).
  { unfold main.
    maintains_walk
      ltac:(first [ maintains_calls
                  | apply maintains_load_datasets_on
                  | apply maintains_build_model_to
                  | apply maintains_reload_to
                  | apply maintains_select_optimizer ]).
    all: try (by intros; simpl).
    all: repeat match goal with
         | H : exists c, _ /\ subscript c "mode" = Ok ?a |- _ =>
             destruct H as (cc & Hc & Hv); unfold Inv in Hc;
             rewrite Hc in Hv; injection Hv as <-; clear cc Hc
         end.
    all: try (simpl in *; congruence).
    - cbn. intros Hin. set_solver.
    - intros c c' Hc' Hq. unfold Inv in *. by rewrite (Hq "mode"). }
  by destruct (Hmain w Hmode) as (_ & ? & _).
Qed.

(** X14: with [mode] set to ['train'], no run of [main] tests, announces a
    test or complains about the mode. *)
Theorem train_mode_never_tests w :
  subscript (w_config w) "mode" = Ok (VStr "train") ->
  extends trains w (snd (main X w)).
Proof.
  intros Hmode.
  pose (Inv := fun c => subscript c "mode" = Ok (VStr "train")).
  assert (Hmain : maintains Inv trains (main X) (fun _ => True)).
  { unfold main.
    maintains_walk
      ltac:(first [ maintains_calls
                  | apply maintains_load_datasets_on
                  | apply maintains_build_model_to
                  | apply maintains_reload_to
                  | apply maintains_select_optimizer ]).
    all: try (by intros; simpl).
    all: repeat match goal with
         | H : exists c, _ /\ subscript c "mode" = Ok ?a |- _ =>
             destruct H as (cc & Hc & Hv); unfold Inv in Hc;
             rewrite Hc in Hv; injection Hv as <-; clear cc Hc
         end.
    all: try (simpl in *; congruence).
    intros c c' Hc' Hq. unfold Inv in *. by rewrite (Hq "mode"). }
  by destruct (Hmain w Hmode) as (_ & ? & _).
Qed.

(** X15: every line that a run of [main] logs goes to the file [log] of the
    directory [save_dir], and training and testing are told to log there;
    only the version warning of [reload] and the line that announces the
    test are logged without a file. *)
Theorem main_logs_to_one_file w save_dir lf :
  subscript (w_config w) "save_dir" = Ok save_dir ->
  join save_dir (VStr "log") = Ok lf ->
  extends (logs_to lf) w (snd (main X w)).
Proof.
  intros Hdir Hjoin.
  pose (Inv := fun c => subscript c "save_dir" = Ok save_dir).
  assert (Hmain : maintains Inv (logs_to lf) (main X) (fun _ => True)).
  { unfold main.
    maintains_walk
      ltac:(first [ maintains_calls
                  | apply maintains_load_datasets_on
                  | apply maintains_build_model_to
                  | apply maintains_reload_to
                  | apply maintains_select_optimizer ]).
    all: try (by intros; simpl).
    all: repeat match goal with
         | H : exists c, _ /\ subscript c "save_dir" = Ok ?a |- _ =>
             destruct H as (cc & Hc & Hv); unfold Inv in Hc;
             rewrite Hc in Hv; injection Hv as <-; clear cc Hc
         end.
    all: repeat match goal with
         | H : join _ (VStr "log") = Ok ?a |- _ =>
             rewrite Hjoin in H; injection H as <-
         end.
    all: try (simpl; by auto).
    intros c c' Hc' Hq. unfold Inv in *. by rewrite (Hq "save_dir"). }
  by destruct (Hmain w Hdir) as (_ & ? & _).
Qed.

(** X16: a run of [main] in mode ['train'] that returns has trained, as its
    last action, the model that [reload] handed back, on the loaders of
    [load_datasets], with the optimizer that [reload] handed back, a
    scheduler made for that same optimizer, and the score and the epoch that
    [reload] handed back. *)
Theorem training_resumes_from_reload w :
  subscript (w_config w) "mode" = Ok (VStr "train") ->
  fst (main X w) = Ok tt ->
  exists logfile dataloaders rv sv w1 built w2 chosen w3
         model optimizer best_fscore start_epoch w4 a,
    load_datasets X ["train"; "val"] logfile
      (with_trace (w_trace w ++ [EvLog (LObj (w_config w)) logfile]) w) =
      (Ok (dataloaders, rv, sv), w1) /\
    build_model X rv sv logfile w1 = (Ok built, w2) /\
    select_optimizer X built w2 = (Ok chosen, w3) /\
    reload X built (Some chosen) logfile w3 =
      (Ok (model, Some optimizer, best_fscore, start_epoch), w4) /\
    last (w_trace (snd (main X w))) = Some (EvTrainModel a) /\
    ta_model a = model /\ ta_dataloaders a = dataloaders /\
    ta_optimizer a = optimizer /\
    sch_optimizer (ta_scheduler a) = optimizer /\
    ta_best_fscore a = best_fscore /\ ta_start_epoch a = start_epoch /\
    ta_logfile a = logfile /\
    subscript (w_config w4) "use_gpu" = Ok (ta_use_gpu a) /\
    subscript (w_config w4) "save_dir" = Ok (ta_save_dir a).
Proof.
  intros Hmode Hok. destruct (main X w) as [r w'] eqn:H. simpl in Hok. subst r.
  unfold main in H. ok_run H.
  all: same_lookups.
  all: match goal with
       | Hl : load_datasets _ _ _ _ = _, Hb : build_model _ _ _ _ _ = _,
         Hm : subscript (w_config ?w2) "mode" = Ok ?m2 |- _ =>
           pose proof (load_datasets_keeps_config _ _ _ _ _ _ Hl) as Hkeep;
           destruct (build_model_returns _ _ _ _ _ _ _ Hb)
             as (? & ? & ? & ? & ? & ? & ? & ? &
                 _ & _ & _ & _ & _ & _ & _ & _ & _ & _ & Htop & _);
           rewrite (Htop "mode"), Hkeep in Hm by done;
           cbn [w_config with_trace] in Hm
       end.
  all: same_lookups.
  all: try discriminate.
  change (py_eq (VStr "train") (VStr "test")) with false in Hstep.
  cbv iota in Hstep.
  match goal with
  | Hl : load_datasets _ _ ?lf _ = (Ok (?dl, ?rv, ?sv), ?w1),
    Hb : build_model _ _ _ _ _ = (Ok ?built, ?w2),
    Hs : select_optimizer _ _ _ = (Ok ?chosen, ?w3),
    Hr : reload _ _ _ _ _ = (Ok (?m, Some ?o, ?f, ?e), ?w4) |- _ =>
      exists lf, dl, rv, sv, w1, built, w2, chosen, w3, m, o, f, e, w4
  end.
  eexists.
  repeat split;
    first [ eassumption
          | cbn [snd w_trace with_trace with_fs]; apply last_snoc
          | reflexivity ].
Qed.

(** X17: a run of [main] in mode ['test'] that returns has tested, as its
    last action, the model that [reload] handed back when given no
    optimizer, on the loader that [load_datasets] made for the one phase
    [test], writing to [config['outputfile']]. *)
Theorem testing_uses_the_reloaded_model w :
  subscript (w_config w) "mode" = Ok (VStr "test") ->
  fst (main X w) = Ok tt ->
  exists logfile dataloaders rv sv w1 built w2 model o f e w3 a,
    load_datasets X ["test"] logfile
      (with_trace (w_trace w ++ [EvLog (LObj (w_config w)) logfile]) w) =
      (Ok (dataloaders, rv, sv), w1) /\
    build_model X rv sv logfile w1 = (Ok built, w2) /\
    reload X built None logfile w2 = (Ok (model, o, f, e), w3) /\
    last (w_trace (snd (main X w))) = Some (EvTestModel a) /\
    te_model a = model /\
    assoc_get "test" dataloaders = Some (te_dataloader a) /\
    te_logfile a = logfile /\
    subscript (w_config w3) "outputfile" = Ok (te_outputfile a) /\
    subscript (w_config w3) "use_gpu" = Ok (te_use_gpu a).
Proof.
  intros Hmode Hok. destruct (main X w) as [r w'] eqn:H. simpl in Hok. subst r.
  unfold main in H. ok_run H.
  all: same_lookups.
  all: match goal with
       | Hl : load_datasets _ _ _ _ = _, Hb : build_model _ _ _ _ _ = _,
         Hm : subscript (w_config ?w2) "mode" = Ok ?m2 |- _ =>
           pose proof (load_datasets_keeps_config _ _ _ _ _ _ Hl) as Hkeep;
           destruct (build_model_returns _ _ _ _ _ _ _ Hb)
             as (? & ? & ? & ? & ? & ? & ? & ? &
                 _ & _ & _ & _ & _ & _ & _ & _ & _ & _ & Htop & _);
           rewrite (Htop "mode"), Hkeep in Hm by done;
           cbn [w_config with_trace] in Hm
       end.
  all: same_lookups.
  all: try discriminate.
  change (py_eq (VStr "test") (VStr "test")) with true in Hstep.
  cbv iota in Hstep.
  match goal with
  | Hl : load_datasets _ _ ?lf _ = (Ok (?dl, ?rv, ?sv), ?w1),
    Hb : build_model _ _ _ _ _ = (Ok ?built, ?w2),
    Hr : reload _ _ _ _ _ = (Ok (?m, ?o, ?f, ?e), ?w3) |- _ =>
      exists lf, dl, rv, sv, w1, built, w2, m, o, f, e, w3
  end.
  eexists.
  repeat split;
    first [ eassumption
          | cbn [snd w_trace with_trace with_fs]; apply last_snoc
          | reflexivity ].
Qed.

End Modes.

(** ** More on the script *)

(** The four stores of lines 159-162, seen from the top. *)
Lemma stores_of_script c0 c1 c2 c3 c4 testfile outputfile :
  setitem_at ["data"; "test"] "jsonfile" (VStr testfile) c0 = Ok c1 ->
  setitem c1 "outputfile" outputfile = Ok c2 ->
  setitem_at ["data"] "dir" (VStr "") c2 = Ok c3 ->
  setitem c3 "save_dir" (VStr "") = Ok c4 ->
  subscript_at ["data"; "test"; "jsonfile"] c4 = Ok (VStr testfile) /\
  subscript c4 "outputfile" = Ok outputfile /\
  subscript_at ["data"; "dir"] c4 = Ok (VStr "") /\
  subscript c4 "save_dir" = Ok (VStr "").
Proof.
  intros H1 H2 H3 H4.
  pose proof (setitem_at_top _ _ _ _ _ _ "outputfile" H3 ltac:(done)) as T3.
  apply setitem_at_spec in H1 as (e & e' & E1 & E1' & S1).
  apply setitem_at_spec in H3 as (d & d' & D3 & D3' & S3).
  pose proof (subscript_setitem_eq _ _ _ _ S1) as J.
  pose proof (subscript_setitem_eq _ _ _ _ S3) as K.
  pose proof (subscript_setitem_ne _ _ _ _ "test" S3 ltac:(done)) as Kt.
  pose proof (subscript_setitem_ne _ _ _ _ "data" H4 ltac:(done)) as T4.
  pose proof (subscript_setitem_ne _ _ _ _ "data" H2 ltac:(done)) as T2.
  simpl in *. rewrite T4.
  destruct (subscript c3 "data") as [x3|]; [|done]. injection D3' as ->.
  rewrite K, Kt.
  destruct (subscript c2 "data") as [x2|]; [|done]. injection D3 as ->.
  rewrite <- T2 in E1'.
  destruct (subscript d "test") as [y1|]; [|done]. injection E1' as ->.
  rewrite J.
  repeat split; try done.
  - rewrite (subscript_setitem_ne _ _ _ _ "outputfile" H4) by done.
    rewrite T3. by eapply subscript_setitem_eq.
  - by eapply subscript_setitem_eq.
Qed.

Lemma join_in_working_directory : join (VStr "") (VStr "log") = Ok "log".
Proof. reflexivity. Qed.

Section Script.

Context (X : Collab).

(** A run of [main] only adds to the trace. *)
Lemma main_extends w :
  exists new, w_trace (snd (main X w)) = w_trace w ++ new.
Proof.
  assert (Hmain : maintains (fun _ => True) (fun _ => True) (main X)
                    (fun _ => True)).
  { unfold main.
    maintains_walk
      ltac:(first [ maintains_calls
                  | apply maintains_load_datasets
                  | apply maintains_build_model
                  | apply maintains_reload
                  | apply maintains_select_optimizer ]).
    all: try done.
    by left. }
  destruct (Hmain w Logic.I) as (_ & (new & E & _) & _). eauto.
Qed.

(** Once [--testfile] has overridden the configuration, [main] shows the
    overrides to everything it calls. *)
Lemma main_sees_overrides testfile outputfile :
  maintains
    (fun c =>
       subscript_at ["data"; "test"; "jsonfile"] c = Ok (VStr testfile) /\
       subscript c "outputfile" = Ok outputfile /\
       subscript_at ["data"; "dir"] c = Ok (VStr "") /\
       subscript c "save_dir" = Ok (VStr ""))
    (overridden testfile outputfile) (main X) (fun _ => True).
Proof.
  unfold main.
  maintains_walk
    ltac:(first [ maintains_calls
                | apply maintains_load_datasets
                | apply maintains_build_model
                | apply maintains_reload
                | apply maintains_select_optimizer ]).
  all: try (by intros; simpl).
  all: try by_cases_on_event.
  all: repeat match goal with
       | H : exists c, (_ /\ _ /\ _ /\ _) /\ _ |- _ =>
           destruct H as (? & (? & ? & ? & ?) & ?)
       end.
  all: repeat match goal with
       | Ha : subscript ?c ?k = Ok ?known, Hb : subscript ?c ?k = Ok ?a |- _ =>
           is_var a; rewrite Ha in Hb; injection Hb as <-
       end.
  all: repeat match goal with
       | H : join (VStr "") (VStr "log") = Ok ?a |- _ =>
           rewrite join_in_working_directory in H; injection H as <-
       end.
  all: try (simpl; by auto).
  { match goal with
    | Hi : _ /\ _ /\ _ /\ _ |- _ => destruct Hi as (? & ? & ? & ?)
    end.
    unfold overridden. by repeat split. }
  intros c c' (I1 & I2 & I3 & I4) Hq. simpl in *.
  by rewrite !Hq.
Qed.


(** X18: with a [--testfile], no run of the script makes a directory; the
    configuration that [main] logs names the test file as the [jsonfile] of
    the phase [test], has the [--outputfile] (or [None]) as [outputfile],
    and has empty [data.dir] and [save_dir]; testing writes to that output
    file; and the log file is [log] in the working directory. *)
Theorem testfile_overrides_configuration args w testfile :
  arg_testfile args = Some testfile ->
  testfile <> "" ->
  extends
    (overridden testfile
       (match arg_outputfile args with Some o => VStr o | None => VNone end))
    w (snd (script X args w)).
Proof.
  intros Hargs Hne.
  set (outputfile := match arg_outputfile args with
                     | Some o => VStr o
                     | None => VNone
                     end).
  destruct (script X args w) as [r w'] eqn:H. cbn [snd].
  unfold script in H. rewrite Hargs in H.
  apply String.eqb_neq in Hne. rewrite Hne in H. cbn [negb] in H.
  fold outputfile in H.
  run_in H;
    first
      [ injection H as <- <-;
        cbn [w_trace w_config with_trace with_config with_fs with_heap];
        eexists; split;
        [ first [ rewrite <- ?app_assoc; reflexivity
                | exact (eq_sym (app_nil_r _)) ]
        | by repeat constructor ]
      | match type of H with
        | main _ ?wk = _ =>
            destruct (main_sees_overrides testfile outputfile wk)
              as (_ & Hm & _);
            [ cbn [w_trace w_config with_trace with_config with_fs with_heap];
              eapply stores_of_script; eassumption
            | rewrite H in Hm; cbn [snd] in Hm;
              eapply extends_trans; [|exact Hm];
              eexists; split;
              [ cbn [w_trace w_config with_trace with_config with_fs
                     with_heap];
                rewrite <- ?app_assoc; reflexivity
              | by repeat constructor ] ]
        end ].
Qed.

(** X19: every run of the script that finds its configuration file starts
    by loading it and seeding both random generators, the accelerator's
    whether or not one is used, with [config['seed']]; anything else it does
    comes after that. *)
Theorem script_seeds_first args w config seed :
  w_fs w !! arg_config args = Some (FYaml config) ->
  subscript config "seed" = Ok seed ->
  exists new, w_trace (snd (script X args w)) = w_trace w ++ new /\
    let start := [EvYamlLoad (arg_config args); EvManualSeed seed;
                  EvCudaManualSeed seed] in
    new `prefix_of` start \/ start `prefix_of` new.
Proof.
  intros Hfs Hseed. cbv zeta.
  destruct (script X args w) as [r w'] eqn:H. cbn [snd].
  unfold script in H. rewrite run_bind, (yaml_load_ok _ _ _ Hfs) in H.
  cbv beta iota in H.
  run_in H;
    repeat match goal with
           | Hs : setitem_at [] "use_gpu" _ _ = Ok ?c',
             Hr : subscript ?c' "seed" = Ok ?a |- _ =>
               rewrite (subscript_setitem_ne _ _ _ _ "seed" Hs) in Hr by done;
               rewrite Hseed in Hr; injection Hr as <-
           end;
    first
      [ injection H as <- <-
      | match type of H with
        | main _ ?wk = _ =>
            let E := fresh in
            destruct (main_extends wk) as (rest & E);
            rewrite H in E; cbn [snd] in E; rewrite E
        end ];
    cbn [w_trace w_config with_trace with_config with_fs with_heap];
    eexists; (split; [rewrite <- ?app_assoc; reflexivity|]);
    simpl;
    first [ left; repeat apply prefix_cons; by apply prefix_nil
          | right; repeat apply prefix_cons; by apply prefix_nil ].
Qed.

End Script.

(** ** The further theorems at work on the small installation *)

Lemma dataloaders_wrap_the_phase_files_witness :
  exists dataloaders rv sv w' dl,
    load_datasets (Demo.collab false) ["train"; "val"] None
      (Demo.world_of Demo.config) = (Ok (dataloaders, rv, sv), w') /\
    assoc_get "val" dataloaders = Some dl /\
    ds_data (dl_dataset dl) = "data/val.json" /\
    ds_samples (dl_dataset dl) = Demo.examples /\
    dl_batch_size dl = VInt 2 /\
    assoc_get "test" dataloaders = None.
Proof.
  destruct (load_datasets (Demo.collab false) ["train"; "val"] None
              (Demo.world_of Demo.config))
    as [[[[dataloaders rv] sv]|] w'] eqn:H; [|vm_compute in H; discriminate].
  destruct (dataloaders_wrap_the_phase_files _ _ _ _ _ _ _ _
              (Demo.data_section "review.pkl" []) (VStr "data")
              H eq_refl eq_refl) as [Hkeys Hall].
  destruct (proj2 (Hkeys "val")) as [dl Hdl].
  { rewrite !elem_of_cons. auto. }
  destruct (Hall _ _ Hdl)
    as (section & file & path & H1 & H2 & H3 & H4 & H5 & _ & _ & H8 & _).
  vm_compute in H1. injection H1 as <-.
  vm_compute in H2. injection H2 as <-.
  vm_compute in H3. injection H3 as <-.
  vm_compute in H4. injection H4 as H4.
  vm_compute in H8. injection H8 as H8.
  exists dataloaders, rv, sv, w', dl.
  split; [reflexivity|]. split; [exact Hdl|]. split; [exact H5|].
  split; [symmetry; exact H4|]. split; [symmetry; exact H8|].
  destruct (assoc_get "test" dataloaders) as [other|] eqn:E; [|reflexivity].
  exfalso.
  assert (Hin : "test" ∈ ["train"; "val"]) by (apply Hkeys; rewrite E; eauto).
  rewrite !elem_of_cons in Hin.
  destruct Hin as [Hin|[Hin|Hin]]; [discriminate|discriminate|].
  by apply elem_of_nil in Hin.
Defined.

Lemma only_train_is_shuffled_witness :
  exists dataloaders rv sv w' dl,
    load_datasets (Demo.collab false) ["train"; "val"] None
      (Demo.world_of Demo.config) = (Ok (dataloaders, rv, sv), w') /\
    assoc_get "train" dataloaders = Some dl /\
    dl_shuffle dl = true /\ dl_sampler dl = None.
Proof.
  destruct (load_datasets (Demo.collab false) ["train"; "val"] None
              (Demo.world_of Demo.config))
    as [[[[dataloaders rv] sv]|] w'] eqn:H; [|vm_compute in H; discriminate].
  pose proof (only_train_is_shuffled _ _ _ _ _ _ _ _ H) as P.
  vm_compute in H. injection H as <- <- <- <-.
  eexists _, _, _, _, _.
  split; [reflexivity|]. split; [reflexivity|]. split; [reflexivity|].
  exact (proj2 (P "train" _ eq_refl eq_refl)).
Defined.

Lemma train_loader_follows_weights_witness :
  exists dataloaders rv sv w' dl,
    load_datasets (Demo.collab false) ["train"; "val"] None Demo.weighted =
      (Ok (dataloaders, rv, sv), w') /\
    assoc_get "train" dataloaders = Some dl /\
    dl_shuffle dl = false /\
    exists sampler,
      dl_sampler dl = Some sampler /\
      get_sampler (Demo.collab false) (dl_dataset dl) None = Ok sampler.
Proof.
  destruct (load_datasets (Demo.collab false) ["train"; "val"] None
              Demo.weighted)
    as [[[[dataloaders rv] sv]|] w'] eqn:H; [|vm_compute in H; discriminate].
  destruct (assoc_get "train" dataloaders) as [dl|] eqn:E.
  2: { vm_compute in H. injection H as <- _ _ _. discriminate E. }
  exists dataloaders, rv, sv, w', dl.
  split; [reflexivity|]. split; [exact E|].
  exact (train_loader_follows_weights _ _ _ _ _ _ _ _
           (Demo.data_section "summary.pkl" [("weights", VStr "weighted")])
           dl H eq_refl E).
Defined.

Lemma missing_vocabulary_is_fatal_witness :
  let run := load_datasets (Demo.collab false) ["train"; "val"] None
               demo_unpacked in
  fst run = Err (FileNotFoundError "data/review.pkl") /\
  w_heap (snd run) = [].
Proof.
  cbv zeta.
  destruct (missing_vocabulary_is_fatal (Demo.collab false) ["train"; "val"]
              None demo_unpacked (Demo.data_section "review.pkl" [])
              (VStr "data") (VStr "review.pkl") "data/review.pkl"
              eq_refl eq_refl eq_refl eq_refl eq_refl)
    as (Herr & _ & Hheap & _).
  split; [exact Herr|exact Hheap].
Defined.

Lemma build_model_composes_collaborators_witness :
  exists model w' kw,
    build_model (Demo.collab true) 0%nat 0%nat None demo_loaded =
      (Ok model, w') /\
    assoc_get "review_vocab_size" kw = Some (VInt 3) /\
    assoc_get "use_gpu" kw = Some (VBool true) /\
    assoc_get "combined_lookup" kw = None.
Proof.
  destruct (build_model (Demo.collab true) 0%nat 0%nat None demo_loaded)
    as [[model|] w'] eqn:H; [|vm_compute in H; discriminate].
  destruct (build_model_composes_collaborators _ _ _ _ _ _ _ H)
    as (use_gpu & rvo & svo & before & use_summary & kw & m0 & m1 & m2 &
        Hgpu & Hrv & Hsv & Hb & Hus & K1 & K2 & K3 & Kother & Kdefault &
        Hhan & _).
  vm_compute in Hgpu. injection Hgpu as <-.
  vm_compute in Hrv. injection Hrv as <-.
  vm_compute in Hb. injection Hb as <-.
  exists model, w', kw. split; [reflexivity|].
  split; [exact K1|]. split; [exact K3|]. apply Kdefault. reflexivity.
Defined.

Lemma reload_returns_fresh_or_checkpoint_witness :
  exists m o f e w' new,
    reload (Demo.collab false) Demo.model (Some Demo.optimizer) None
      (Demo.world_of Demo.config) = (Ok (m, o, f, e), w') /\
    w_trace w' = new /\ e = 5 /\
    exists path ck,
      w_fs (Demo.world_of Demo.config) !! path = Some (FCheckpoint ck) /\
      EvTorchLoad path ∈ new /\ e = ck_epoch ck.
Proof.
  destruct (reload (Demo.collab false) Demo.model (Some Demo.optimizer) None
              (Demo.world_of Demo.config))
    as [[[[[m o] f] e]|] w'] eqn:H; [|vm_compute in H; discriminate].
  destruct (reload_returns_fresh_or_checkpoint _ _ _ _ _ _ _ _ _ _ H)
    as (new & Ht & Hcase).
  assert (He : e = 5) by (vm_compute in H; by injection H as _ _ _ <- _).
  exists m, o, f, e, w', new. split; [reflexivity|].
  split; [exact Ht|]. split; [exact He|].
  destruct Hcase
    as [(_ & _ & _ & Hzero & _) |
        (save_dir & section & name & path & ck & _ & _ & _ & _ & Hfs & Hin &
         _ & _ & Hepoch & _)].
  - rewrite He in Hzero. discriminate.
  - exists path, ck. split; [exact Hfs|]. split; [exact Hin|exact Hepoch].
Defined.

Lemma reload_unreadable_checkpoint_is_fatal_witness :
  let run := reload (Demo.collab false) Demo.model None None demo_garbled in
  fst run = Err EOFError /\
  w_fs (snd run) = w_fs demo_garbled.
Proof.
  cbv zeta.
  destruct (reload_unreadable_checkpoint_is_fatal (Demo.collab false)
              Demo.model None None demo_garbled (VStr "runs")
              (VDict [("params", Demo.params); ("reload", VStr "best.pth")])
              (VStr "best.pth") "runs/best.pth" (FText "")
              eq_refl eq_refl eq_refl eq_refl eq_refl eq_refl
              ltac:(discriminate))
    as ((e & Herr & _ & Hempty) & _ & _ & Hfs).
  rewrite (Hempty eq_refl) in Herr.
  split; [exact Herr|exact Hfs].
Defined.

Lemma test_mode_never_trains_witness :
  subscript (w_config demo_testing) "mode" = Ok (VStr "test") /\
  extends evaluates demo_testing (snd (main (Demo.collab false) demo_testing)).
Proof.
  split; [reflexivity|].
  apply (test_mode_never_trains (Demo.collab false) demo_testing).
  reflexivity.
Defined.

Lemma train_mode_never_tests_witness :
  let w := Demo.world_of Demo.config in
  subscript (w_config w) "mode" = Ok (VStr "train") /\
  extends trains w (snd (main (Demo.collab true) w)).
Proof.
  cbv zeta. split; [reflexivity|].
  apply (train_mode_never_tests (Demo.collab true) (Demo.world_of Demo.config)).
  reflexivity.
Defined.

Lemma main_logs_to_one_file_witness :
  let w := Demo.world_of Demo.config in
  join (VStr "runs") (VStr "log") = Ok "runs/log" /\
  extends (logs_to "runs/log") w (snd (main (Demo.collab true) w)).
Proof.
  cbv zeta. split; [reflexivity|].
  apply (main_logs_to_one_file (Demo.collab true) (Demo.world_of Demo.config)
           (VStr "runs") "runs/log"); reflexivity.
Defined.

Lemma training_resumes_from_reload_witness :
  let w := Demo.world_of Demo.config in
  exists a,
    last (w_trace (snd (main (Demo.collab true) w))) = Some (EvTrainModel a) /\
    ta_start_epoch a = 5 /\ ta_best_fscore a = (3 # 4)%Q /\
    sch_optimizer (ta_scheduler a) = ta_optimizer a /\
    o_state (ta_optimizer a) = ck_optimizer Demo.checkpoint.
Proof.
  cbv zeta.
  destruct (training_resumes_from_reload (Demo.collab true)
              (Demo.world_of Demo.config) eq_refl)
    as (logfile & dataloaders & rv & sv & w1 & built & w2 & chosen & w3 &
        model & optimizer & best_fscore & start_epoch & w4 & a &
        _ & _ & _ & _ & Hlast & _ & _ & Ho & Hs & _).
  { vm_compute. reflexivity. }
  exists a. split; [exact Hlast|].
  split; [|split; [|split; [by rewrite Ho, Hs|]]].
  all: vm_compute in Hlast; injection Hlast as <-; reflexivity.
Defined.

Lemma testing_uses_the_reloaded_model_witness :
  exists a,
    last (w_trace (snd (main (Demo.collab false) demo_testing))) =
      Some (EvTestModel a) /\
    m_weights (te_model a) = ck_state_dict Demo.checkpoint /\
    te_outputfile a = VStr "predictions.txt" /\
    ds_data (dl_dataset (te_dataloader a)) = "data/test.json".
Proof.
  destruct (testing_uses_the_reloaded_model (Demo.collab false) demo_testing
              eq_refl)
    as (logfile & dataloaders & rv & sv & w1 & built & w2 & model & o & f &
        e & w3 & a & _ & _ & _ & Hlast & _).
  { vm_compute. reflexivity. }
  exists a. split; [exact Hlast|].
  repeat split.
  all: vm_compute in Hlast; injection Hlast as <-; reflexivity.
Defined.

Lemma testfile_overrides_configuration_witness :
  let w := Demo.boot demo_test_config in
  extends (overridden "data/test.json" VNone) w
    (snd (script (Demo.collab false) demo_test_args w)).
Proof.
  cbv zeta.
  apply (testfile_overrides_configuration (Demo.collab false) demo_test_args
           (Demo.boot demo_test_config) "data/test.json").
  - reflexivity.
  - discriminate.
Defined.

Lemma script_seeds_first_witness :
  let w := Demo.boot Demo.config in
  exists new,
    w_trace (snd (script (Demo.collab false) Demo.args w)) = w_trace w ++ new /\
    (new `prefix_of`
       [EvYamlLoad "config.yaml"; EvManualSeed (VInt 1);
        EvCudaManualSeed (VInt 1)] \/
     [EvYamlLoad "config.yaml"; EvManualSeed (VInt 1);
      EvCudaManualSeed (VInt 1)] `prefix_of` new).
Proof.
  cbv zeta.
  apply (script_seeds_first (Demo.collab false) Demo.args
           (Demo.boot Demo.config) Demo.config (VInt 1)); reflexivity.
Defined.
